(** * Personal expense tracker: domain operations, analytics and registration

    A shallow embedding of [app/crud.py], [app/auth.py] and the parts of
    [app/models.py] and [app/schemas.py] they rely on.  The bounds that
    [app/main.py] puts on [skip], [limit] and [months] appear as hypotheses
    of the statements about the operations behind those routes.

    Conventions of the embedding.
    - A Python [float] and an SQLite REAL are IEEE 754 binary64 values,
      the kernel's [float]; [+], [-], [*], [/] and the comparisons are its
      primitive operations.  [round(x, n)] rounds the exact value of [x]
      to [n] decimals, ties to even, and answers the double nearest to that
      decimal.  The builtin [sum] and SQL's SUM add from left to right.
    - The lists of [Tables] are in rowid order, the order of a table scan.
      A statement that constrains [transaction_date] is answered from the
      index on that column and returns its rows by ascending date; an
      ORDER BY on that column, descending, walks the index backward; a
      GROUP BY answers its groups in the order of the key.
    - The driver binds a Python int as an SQLite INTEGER, a signed 64-bit
      value, and raises [OverflowError] on one that does not fit.
    - A SQLAlchemy [Session] is a record of the committed tables and the
      unit of work that has been staged but not flushed.  Operations are
      computations in a state-and-exception monad over the session.
    - [date.today()] is an explicit argument [today].
    - The [created_at] columns are server-side defaults that no modelled
      operation reads; rows are modelled without them. *)

From Stdlib Require Import ZArith List String Ascii Bool Lia.
From Stdlib Require Import Floats.PrimFloat Floats.SpecFloat Floats.FloatOps.
From Stdlib Require Import Sorting.Sorted Sorting.Permutation DecimalString.
From Equations Require Import Equations.
Import ListNotations.

Set Implicit Arguments.
Set Warnings "-inexact-float".
Open Scope string_scope.
Open Scope Z_scope.

(* ===================================================================== *)
(** ** Python values: dates, calendar, rounding, truthiness              *)
(* ===================================================================== *)

Module py.

  (** [datetime.date]: a proleptic Gregorian calendar date. *)
Record date : Set := mkdate { year : Z; month : Z; day : Z }.

Definition MINYEAR : Z := 1.
Definition MAXYEAR : Z := 9999.

  (** [calendar.isleap]. *)
Definition isleap (y : Z) : bool :=
    (y mod 4 =? 0) && (negb (y mod 100 =? 0) || (y mod 400 =? 0)).

  (** [calendar.mdays], indexed by month number. *)
Definition mdays : list Z := [0; 31; 28; 31; 30; 31; 30; 31; 31; 30; 31; 30; 31].

  (** The second component of [calendar.monthrange(year, month)]: the
      number of days of the month.  [None] stands for [IllegalMonthError]. *)
Definition monthrange (y m : Z) : option Z :=
    if (1 <=? m) && (m <=? 12)
    then Some (nth (Z.to_nat m) mdays 0 + (if (m =? 2) && isleap y then 1 else 0))
    else None.

  (** The constructor [date(year, month, day)]; [None] stands for the
      [ValueError] it raises on a field out of range. *)
Definition date_new (y m d : Z) : option date :=
    if (MINYEAR <=? y) && (y <=? MAXYEAR)
    then match monthrange y m with
         | Some last => if (1 <=? d) && (d <=? last) then Some (mkdate y m d) else None
         | None => None
         end
    else None.

  (** The values of type [date]: those the constructor accepts. *)
Definition is_date (d : date) : Prop :=
    date_new (year d) (month d) (day d) = Some d.

  (** Dates compare as the triples (year, month, day). *)
Definition date_compare (a b : date) : comparison :=
    match year a ?= year b with
    | Eq => match month a ?= month b with
            | Eq => day a ?= day b
            | c => c
            end
    | c => c
    end.

Definition date_leb (a b : date) : bool :=
    match date_compare a b with Gt => false | _ => true end.

Definition date_geb (a b : date) : bool := date_leb b a.

  (** [date.strftime('%B')] in the C locale. *)
Definition month_names : list string :=
    ["January"; "February"; "March"; "April"; "May"; "June"; "July";
     "August"; "September"; "October"; "November"; "December"].

Definition strftime_B (d : date) : string :=
    nth (Z.to_nat (month d - 1)) month_names EmptyString.

  (** [str(n)] for an integer. *)
Definition str_int (n : Z) : string := NilZero.string_of_int (Z.to_int n).

  (** 10 ** n. *)
Fixpoint pow10 (n : nat) : positive :=
    match n with
    | O => 1%positive
    | S k => (10 * pow10 k)%positive
    end.

  (** The integer nearest to [num / den], ties going to the even one. *)
Definition nearest_even (num : Z) (den : positive) : Z :=
    let f := num / Zpos den in
    let r := num mod Zpos den in
    match 2 * r ?= Zpos den with
    | Lt => f
    | Gt => f + 1
    | Eq => if Z.even f then f else f + 1
    end.

  (** [float.as_integer_ratio] of the finite double [m * 2 ** e]. *)
Definition as_integer_ratio (m : positive) (e : Z) : Z * positive :=
    match e with
    | Zneg p => (Zpos m, (2 ^ p)%positive)
    | _ => (Zpos m * 2 ^ e, 1%positive)
    end.

  (** The double nearest to [num / den], ties to even, under the sign
      [neg]: the value of a decimal literal, as [float(...)] and the JSON
      parser read it. *)
Definition strtod (neg : bool) (num : Z) (den : positive) : float :=
    match num with
    | Zpos _ =>
        let '(q, e, l) := SFdiv_core_binary prec emax num 0 (Zpos den) 0 in
        SF2Prim (binary_round_aux prec emax neg q e l)
    | _ => if neg then (-0)%float else 0%float
    end.

  (** [round(x, ndigits)] for a float [x] and [ndigits >= 0]: the exact
      value is rounded to [ndigits] decimals, ties to even, and the decimal
      is read back; zeros, infinities and NaN round to themselves. *)
Definition round (x : float) (ndigits : nat) : float :=
    match Prim2SF x with
    | S754_finite s m e =>
        let '(n, d) := as_integer_ratio m e in
        strtod s (nearest_even (n * Zpos (pow10 ndigits)) d) (pow10 ndigits)
    | _ => x
    end.

  (** The builtin [sum]: a left fold of [+] starting from 0. *)
Definition sum (xs : list float) : float := fold_left PrimFloat.add xs 0%float.

  (** Truth-value testing: what [if x:] and [x or y] look at. *)
Class Truthy (A : Type) := truthy : A -> bool.

#[global] Instance truthy_int : Truthy Z := fun n => negb (n =? 0).
#[global] Instance truthy_float : Truthy float := fun x => negb (x =? 0)%float.
#[global] Instance truthy_str : Truthy string := fun s => negb (String.eqb s EmptyString).
  (** Instances of classes that define neither [__bool__] nor [__len__]. *)
#[global] Instance truthy_date : Truthy date := fun _ => true.
  (** [None] is false; anything else is tested as itself. *)
#[global] Instance truthy_optional {A} `{Truthy A} : Truthy (option A) :=
    fun o => match o with None => false | Some a => truthy a end.

  (** [x or y] where [x] may be [None]. *)
Definition or_else {A} `{Truthy A} (x : option A) (y : A) : A :=
    match x with
    | Some a => if truthy a then a else y
    | None => y
    end.

End py.

(* ===================================================================== *)
(** ** app/models.py: the rows of the four tables                        *)
(* ===================================================================== *)

Module models.

Module User.
Record t : Type := mk {
      user_id : Z;
      username : string;
      email : string;
      hashed_password : string;
      full_name : option string;
      is_active : bool }.
End User.

Module Category.
Record t : Type := mk {
      category_id : Z;
      name : string;
      type : string }.
End Category.

Module Transaction.
Record t : Type := mk {
      transaction_id : Z;
      amount : float;
      type : string;
      description : option string;
      transaction_date : py.date;
      category_id : Z }.
End Transaction.

Module Budget.
Record t : Type := mk {
      budget_id : Z;
      category_id : Z;
      amount : float;
      period : string }.
End Budget.

End models.

(* ===================================================================== *)
(** ** app/schemas.py: request and response bodies                       *)
(* ===================================================================== *)

Module schemas.

Module CategoryCreate.
Record t : Type := mk { name : string; type : string }.
End CategoryCreate.

Module TransactionCreate.
Record t : Type := mk {
      amount : float;
      type : string;
      description : option string;
      transaction_date : py.date;
      category_id : Z }.
End TransactionCreate.

  (** Every field is optional, and [model_dump(exclude_unset=True)] keeps
      the fields the request named, also those it set to [null]:
      [None] is a field left out, [Some None] a field set to [null]. *)
Module TransactionUpdate.
Record t : Type := mk {
      amount : option (option float);
      type : option (option string);
      description : option (option string);
      transaction_date : option (option py.date);
      category_id : option (option Z) }.
End TransactionUpdate.

Module BudgetCreate.
Record t : Type := mk { category_id : Z; amount : float; period : string }.
End BudgetCreate.

Module BudgetStatus.
Record t : Type := mk {
      budget_id : Z;
      category_id : Z;
      category_name : string;
      budget_amount : float;
      spent_amount : float;
      remaining : float;
      percentage_used : float;
      is_over_budget : bool }.
End BudgetStatus.

Module SummaryResponse.
Record t : Type := mk {
      total_income : float;
      total_expenses : float;
      balance : float;
      transaction_count : Z }.
End SummaryResponse.

Module MonthlyTrend.
Record t : Type := mk {
      month : string;
      year : Z;
      income : float;
      expenses : float;
      balance : float }.
End MonthlyTrend.

Module UserCreate.
Record t : Type := mk {
  username : string;
  email : string;
  password : string;
  full_name : option string }.
End UserCreate.

Module CategoryBreakdown.
Record t : Type := mk {
  category_id : Z;
  category_name : string;
  type : string;
  total_amount : float;
  transaction_count : Z }.
End CategoryBreakdown.

Module BalanceResponse.
Record t : Type := mk {
  balance : float;
  total_income : float;
  total_expenses : float }.
End BalanceResponse.

Module UserResponse.
Record t : Type := mk {
  user_id : Z;
  username : string;
  email : string;
  full_name : option string;
  is_active : bool }.
End UserResponse.

Module Token.
Record t : Type := mk {
  access_token : string;
  token_type : string;
  user : UserResponse.t }.
End Token.

(** [MessageResponse] as [delete_transaction] fills it: the message and
    the id under [detail]. *)
Module MessageResponse.
Record t : Type := mk {
  message : string;
  detail : Z }.
End MessageResponse.

End schemas.

(* ===================================================================== *)
(** ** The session: committed tables, unit of work, exceptions           *)
(* ===================================================================== *)

Module sqlalchemy.

Import py.

Record Tables : Type := mkTables {
  users : list models.User.t;
  categories : list models.Category.t;
  transactions : list models.Transaction.t;
  budgets : list models.Budget.t }.

(** What [db.add(obj)] and attribute assignment on a loaded object leave
    in the session until the next flush.  A new object has no primary key
    yet; a dirty one carries the current value of each attribute, [None]
    being Python's [None] (SQL NULL). *)
Inductive pending : Type :=
| new_User (username email hashed_password : string) (full_name : option string)
| new_Category (name type : string)
| new_Transaction (amount : float) (type : string) (description : option string)
    (transaction_date : date) (category_id : Z)
| new_Budget (category_id : Z) (amount : float) (period : string)
| dirty_Transaction (transaction_id : Z) (amount : option float) (type : option string)
    (description : option string) (transaction_date : option date)
    (category_id : option Z)
| dirty_Budget (budget_id : Z) (amount : float) (period : string).

Record Session : Type := mkSession {
  database : Tables;
  unit_of_work : list pending }.

(** The exceptions the modelled code raises or catches.  The text of an
    [IntegrityError] is the engine's; the model keeps the name of the
    violated constraint. *)
Inductive exn : Type :=
| HTTPException (status_code : Z) (detail : string)
| IntegrityError (constraint : string)
| InvalidRequestError
| ValueError
| OverflowError.

Inductive outcome (A : Type) : Type :=
| Return (a : A)
| Raise (e : exn).
Arguments Return {A} a.
Arguments Raise {A} e.

(** A computation against a session: the session it leaves behind and
    either a value or the exception that escaped. *)
Definition M (A : Type) : Type := Session -> Session * outcome A.

Definition ret {A} (a : A) : M A := fun s => (s, Return a).

Definition bind {A B} (c : M A) (k : A -> M B) : M B :=
  fun s => match c s with
           | (s', Return a) => k a s'
           | (s', Raise e) => (s', Raise e)
           end.

Definition raise {A} (e : exn) : M A := fun s => (s, Raise e).

(** [try: c except IntegrityError as e: h(e)]. *)
Definition try_except_IntegrityError {A} (c : M A) (h : string -> M A) : M A :=
  fun s => match c s with
           | (s', Raise (IntegrityError e)) => h e s'
           | r => r
           end.

Notation "x <- c1 ;; c2" := (bind c1 (fun x => c2))
  (at level 61, c1 at next level, right associativity).
Notation "c1 ;; c2" := (bind c1 (fun _ => c2))
  (at level 61, right associativity).

(** [for x in xs: results.append(body(x))]. *)
Fixpoint for_each {A B} (xs : list A) (body : A -> M B) : M (list B) :=
  match xs with
  | [] => ret []
  | x :: rest => y <- body x ;; ys <- for_each rest body ;; ret (y :: ys)
  end.

(** A SELECT: reads the committed tables (the session does not autoflush). *)
Definition query {A} (f : Tables -> A) : M A :=
  fun s => (s, Return (f (database s))).

(** The driver binds a Python int as an SQLite INTEGER, a signed 64-bit
    value, and refuses any other with [OverflowError]. *)
Definition fits_int64 (n : Z) : bool := (- 2 ^ 63 <=? n) && (n <? 2 ^ 63).

(** [query(R).filter(R.key == k).first()] on an integer column.  The
    columns hold SQLite INTEGERs, so a [k] the driver refuses is the key of
    no row. *)
Definition first_by_key {R} (table : Tables -> list R) (key : R -> Z) (k : Z)
  : M (option R) :=
  fun s => match find (fun r => key r =? k) (table (database s)) with
           | Some r => (s, Return (Some r))
           | None => if fits_int64 k then (s, Return None)
                     else (s, Raise OverflowError)
           end.

(** The order of the index on a date column: ascending date, rows of one
    date in table order. *)
Fixpoint insert_by_date {R} (date_of : R -> date) (x : R) (rows : list R) : list R :=
  match rows with
  | [] => [x]
  | y :: rest =>
      if date_leb (date_of x) (date_of y)
      then x :: y :: rest
      else y :: insert_by_date date_of x rest
  end.

Definition by_date_index {R} (date_of : R -> date) (rows : list R) : list R :=
  fold_right (insert_by_date date_of) [] rows.

(** The rows of a statement with no ORDER BY, as the engine returns them:
    in index order when the statement constrains the date column, in table
    order otherwise. *)
Definition as_returned {R} (date_of : R -> date) (dated : bool) (rows : list R)
  : list R :=
  if dated then by_date_index date_of rows else rows.

(** [db.add(obj)], and the bookkeeping behind [setattr] on a loaded row. *)
Definition add (p : pending) : M unit :=
  fun s => (mkSession (database s) (unit_of_work s ++ [p]), Return tt).

(** [db.rollback()]. *)
Definition rollback : M unit :=
  fun s => (mkSession (database s) [], Return tt).

(** Primary keys are allocated as the default engine (SQLite rowid) does:
    one more than the largest key in the table. *)
Definition next_id (ids : list Z) : Z := 1 + fold_right Z.max 0 ids.

Definition is_type (s : string) : bool :=
  String.eqb s "INCOME" || String.eqb s "EXPENSE".

(** Replace the rows whose key is [k]. *)
Definition replace_row {R} (key : R -> Z) (k : Z) (r' : R) (rows : list R) : list R :=
  map (fun r => if key r =? k then r' else r) rows.

(** One INSERT or UPDATE under the constraints declared in [models.py]:
    the new tables and the primary key of the row written, or the name of
    the constraint that rejected it.  Foreign keys are not enforced by the
    engine; every write path of [crud.py] resolves the category first. *)
Definition flush_one (t : Tables) (p : pending) : Tables * Z + string :=
  match p with
  | new_User u e h f =>
      if existsb (fun r => String.eqb (models.User.username r) u) (users t)
      then inr "users.username"
      else if existsb (fun r => String.eqb (models.User.email r) e) (users t)
      then inr "users.email"
      else let k := next_id (map models.User.user_id (users t)) in
           inl (mkTables (users t ++ [models.User.mk k u e h f true])
                         (categories t) (transactions t) (budgets t), k)
  | new_Category n ty =>
      if existsb (fun r => String.eqb (models.Category.name r) n) (categories t)
      then inr "categories.name"
      else if negb (is_type ty) then inr "check_category_type"
      else let k := next_id (map models.Category.category_id (categories t)) in
           inl (mkTables (users t) (categories t ++ [models.Category.mk k n ty])
                         (transactions t) (budgets t), k)
  | new_Transaction a ty d dt c =>
      if negb (0 <? a)%float then inr "check_amount_positive"
      else if negb (is_type ty) then inr "check_transaction_type"
      else let k := next_id (map models.Transaction.transaction_id (transactions t)) in
           inl (mkTables (users t) (categories t)
                         (transactions t ++ [models.Transaction.mk k a ty d dt c])
                         (budgets t), k)
  | new_Budget c a p =>
      if existsb (fun r => models.Budget.category_id r =? c) (budgets t)
      then inr "budgets.category_id"
      else if negb (0 <? a)%float then inr "check_budget_positive"
      else let k := next_id (map models.Budget.budget_id (budgets t)) in
           inl (mkTables (users t) (categories t) (transactions t)
                         (budgets t ++ [models.Budget.mk k c a p]), k)
  | dirty_Transaction k (Some a) (Some ty) d (Some dt) (Some c) =>
      if negb (0 <? a)%float then inr "check_amount_positive"
      else if negb (is_type ty) then inr "check_transaction_type"
      else inl (mkTables (users t) (categories t)
                         (replace_row models.Transaction.transaction_id k
                            (models.Transaction.mk k a ty d dt c) (transactions t))
                         (budgets t), k)
  | dirty_Transaction _ _ _ _ _ _ => inr "NOT NULL"
  | dirty_Budget k a p =>
      if negb (0 <? a)%float then inr "check_budget_positive"
      else inl (mkTables (users t) (categories t) (transactions t)
                  (map (fun r => if models.Budget.budget_id r =? k
                                 then models.Budget.mk k (models.Budget.category_id r) a p
                                 else r) (budgets t)), k)
  end.

(** The flush of a whole unit of work, in staging order. *)
Fixpoint flush (t : Tables) (ps : list pending) : Tables * list Z + string :=
  match ps with
  | [] => inl (t, [])
  | p :: rest =>
      match flush_one t p with
      | inl (t', k) =>
          match flush t' rest with
          | inl (t'', ks) => inl (t'', k :: ks)
          | inr c => inr c
          end
      | inr c => inr c
      end
  end.

(** [db.commit()]: flush and commit atomically, answering the primary
    keys written, or raise [IntegrityError] with nothing written. *)
Definition commit : M (list Z) :=
  fun s => match flush (database s) (unit_of_work s) with
           | inl (t', ks) => (mkSession t' [], Return ks)
           | inr c => (s, Raise (IntegrityError c))
           end.

(** [db.refresh(obj)] for the object whose row [key] selects. *)
Definition refresh {R} (table : Tables -> list R) (key : R -> Z) (k : Z) : M R :=
  fun s => match find (fun r => key r =? k) (table (database s)) with
           | Some r => (s, Return r)
           | None => (s, Raise InvalidRequestError)
           end.

(** Mapped objects define neither [__bool__] nor [__len__]. *)
#[global] Instance truthy_User : Truthy models.User.t := fun _ => true.
#[global] Instance truthy_Category : Truthy models.Category.t := fun _ => true.
#[global] Instance truthy_Transaction : Truthy models.Transaction.t := fun _ => true.
#[global] Instance truthy_Budget : Truthy models.Budget.t := fun _ => true.

(** [db.delete(obj)] followed by [db.commit()] for a loaded transaction.
    The unit of work has no entry for a deletion, so the two calls are one
    step here: what is staged is flushed, the row is deleted, and all of it
    is committed, or [IntegrityError] is raised with nothing written. *)
Definition delete_Transaction_commit (transaction_id : Z) : M unit :=
  fun s => match flush (database s) (unit_of_work s) with
           | inl (t', _) =>
               (mkSession
                  (mkTables (users t') (categories t')
                     (filter (fun r => negb (models.Transaction.transaction_id r
                                             =? transaction_id))
                             (transactions t'))
                     (budgets t'))
                  [],
                Return tt)
           | inr c => (s, Raise (IntegrityError c))
           end.

End sqlalchemy.

(* ===================================================================== *)
(** ** app/crud.py                                                       *)
(* ===================================================================== *)

Module crud.

Import py sqlalchemy.

(** The status codes the module raises ([fastapi.status] names them). *)
Definition HTTP_400_BAD_REQUEST : Z := 400.
Definition HTTP_404_NOT_FOUND : Z := 404.

(** *** Categories *)

Definition create_category (category : schemas.CategoryCreate.t)
  : M models.Category.t :=
  existing <- query (fun t =>
    find (fun c => String.eqb (models.Category.name c)
                              (schemas.CategoryCreate.name category))
         (categories t)) ;;
  if truthy existing then
    raise (HTTPException 400
             ("Category '" ++ schemas.CategoryCreate.name category ++ "' already exists"))
  else
    let db_category := new_Category (schemas.CategoryCreate.name category)
                                    (schemas.CategoryCreate.type category) in
    try_except_IntegrityError
      (add db_category ;;
       keys <- commit ;;
       refresh categories models.Category.category_id (hd 0 keys))
      (fun e => rollback ;;
                raise (HTTPException 400 ("Database error: " ++ e))).

Definition get_category (category_id : Z) : M (option models.Category.t) :=
  first_by_key categories models.Category.category_id category_id.

(** *** Transactions *)

Definition create_transaction (transaction : schemas.TransactionCreate.t)
  : M models.Transaction.t :=
  category <- get_category (schemas.TransactionCreate.category_id transaction) ;;
  if negb (truthy category) then
    raise (HTTPException 400
             ("Category with ID "
                ++ str_int (schemas.TransactionCreate.category_id transaction)
                ++ " not found"))
  else
    let db_transaction :=
      new_Transaction (schemas.TransactionCreate.amount transaction)
                      (schemas.TransactionCreate.type transaction)
                      (schemas.TransactionCreate.description transaction)
                      (schemas.TransactionCreate.transaction_date transaction)
                      (schemas.TransactionCreate.category_id transaction) in
    try_except_IntegrityError
      (add db_transaction ;;
       keys <- commit ;;
       refresh transactions models.Transaction.transaction_id (hd 0 keys))
      (fun e => rollback ;;
                raise (HTTPException 400 ("Database error: " ++ e))).

(** [if x: query = query.filter(p(x))]. *)
Definition filter_if {A R} `{Truthy A} (x : option A) (p : A -> R -> bool)
  (rows : list R) : list R :=
  match x with
  | Some a => if truthy a then filter (p a) rows else rows
  | None => rows
  end.

(** [order_by(Transaction.transaction_date.desc())]: the engine answers it
    by walking the index on the date column backward, so the dates descend
    and rows of one date come latest first. *)
Definition order_by_date_desc (rows : list models.Transaction.t)
  : list models.Transaction.t :=
  rev (by_date_index models.Transaction.transaction_date rows).

(** [offset(n)] and [limit(n)]; a negative limit is no limit. *)
Definition offset {R} (n : Z) (rows : list R) : list R := skipn (Z.to_nat n) rows.
Definition limit_ {R} (n : Z) (rows : list R) : list R :=
  if n <? 0 then rows else firstn (Z.to_nat n) rows.

Definition get_transactions (skip limit : Z) (start_date end_date : option date)
  (category_id : option Z) (transaction_type : option string)
  : M (list models.Transaction.t) :=
  query (fun t =>
    let q := transactions t in
    let q := filter_if start_date
               (fun s r => date_geb (models.Transaction.transaction_date r) s) q in
    let q := filter_if end_date
               (fun e r => date_leb (models.Transaction.transaction_date r) e) q in
    let q := filter_if category_id
               (fun c r => models.Transaction.category_id r =? c) q in
    let q := filter_if transaction_type
               (fun ty r => String.eqb (models.Transaction.type r) ty) q in
    limit_ limit (offset skip (order_by_date_desc q))).

Definition get_transaction (transaction_id : Z) : M (option models.Transaction.t) :=
  first_by_key transactions models.Transaction.transaction_id transaction_id.

(** [for field, value in update_data.items(): setattr(db_transaction, field, value)]:
    a field the update names takes the value given, [None] included; the
    others keep what the loaded row has. *)
Definition setattr_items (db_transaction : models.Transaction.t)
  (update_data : schemas.TransactionUpdate.t) : pending :=
  dirty_Transaction
    (models.Transaction.transaction_id db_transaction)
    (match schemas.TransactionUpdate.amount update_data with
     | Some v => v
     | None => Some (models.Transaction.amount db_transaction)
     end)
    (match schemas.TransactionUpdate.type update_data with
     | Some v => v
     | None => Some (models.Transaction.type db_transaction)
     end)
    (match schemas.TransactionUpdate.description update_data with
     | Some v => v
     | None => models.Transaction.description db_transaction
     end)
    (match schemas.TransactionUpdate.transaction_date update_data with
     | Some v => v
     | None => Some (models.Transaction.transaction_date db_transaction)
     end)
    (match schemas.TransactionUpdate.category_id update_data with
     | Some v => v
     | None => Some (models.Transaction.category_id db_transaction)
     end).

(** [str(x)] of an optional integer, as an f-string prints it. *)
Definition str_optional_int (x : option Z) : string :=
  match x with Some n => str_int n | None => "None" end.

Definition update_transaction (transaction_id : Z)
  (transaction_update : schemas.TransactionUpdate.t) : M models.Transaction.t :=
  db_transaction <- get_transaction transaction_id ;;
  match db_transaction with
  | None =>
      raise (HTTPException 404
               ("Transaction with ID " ++ str_int transaction_id ++ " not found"))
  | Some db_transaction =>
      let update_data := transaction_update in
      (match schemas.TransactionUpdate.category_id update_data with
       | Some v =>
           (* a comparison with [None] selects no row *)
           category <- match v with
                       | Some c => get_category c
                       | None => ret None
                       end ;;
           if negb (truthy category) then
             raise (HTTPException 400
                      ("Category with ID " ++ str_optional_int v ++ " not found"))
           else ret tt
       | None => ret tt
       end) ;;
      add (setattr_items db_transaction update_data) ;;
      try_except_IntegrityError
        (commit ;;
         refresh transactions models.Transaction.transaction_id
                 (models.Transaction.transaction_id db_transaction))
        (fun e => rollback ;;
                  raise (HTTPException 400 ("Database error: " ++ e)))
  end.

(** *** Budgets *)

Definition create_or_update_budget (budget : schemas.BudgetCreate.t)
  : M models.Budget.t :=
  category <- get_category (schemas.BudgetCreate.category_id budget) ;;
  match category with
  | None =>
      raise (HTTPException 400
               ("Category with ID "
                  ++ str_int (schemas.BudgetCreate.category_id budget)
                  ++ " not found"))
  | Some category =>
      if negb (String.eqb (models.Category.type category) "EXPENSE") then
        raise (HTTPException 400 "Budgets can only be set for expense categories")
      else
        existing <- query (fun t =>
          find (fun b => models.Budget.category_id b
                         =? schemas.BudgetCreate.category_id budget)
               (budgets t)) ;;
        match existing with
        | Some existing =>
            add (dirty_Budget (models.Budget.budget_id existing)
                              (schemas.BudgetCreate.amount budget)
                              (schemas.BudgetCreate.period budget)) ;;
            commit ;;
            refresh budgets models.Budget.budget_id (models.Budget.budget_id existing)
        | None =>
            let db_budget := new_Budget (schemas.BudgetCreate.category_id budget)
                                        (schemas.BudgetCreate.amount budget)
                                        (schemas.BudgetCreate.period budget) in
            try_except_IntegrityError
              (add db_budget ;;
               keys <- commit ;;
               refresh budgets models.Budget.budget_id (hd 0 keys))
              (fun e => rollback ;;
                        raise (HTTPException 400 ("Database error: " ++ e)))
        end
  end.

(** [func.sum(...)]: SQL's SUM is NULL over no rows; over REAL values the
    engine adds them to a double that starts at 0.0, in the order it
    meets them. *)
Definition func_sum (xs : list float) : option float :=
  match xs with
  | [] => None
  | _ => Some (fold_left PrimFloat.add xs 0%float)
  end.

(** A library call that raises [ValueError] ([IllegalMonthError] is one). *)
Definition or_ValueError {A} (o : option A) : M A :=
  match o with
  | Some a => ret a
  | None => raise ValueError
  end.

(** Lines 247-252: the range a budget status is computed over. *)
Definition default_range (today : date) (start_date end_date : option date)
  : M (date * date) :=
  match start_date, end_date with
  | Some s, Some e => ret (s, e)
  | _, _ =>
      start_date' <- match start_date with
                     | Some s => ret s
                     | None => or_ValueError (date_new (year today) (month today) 1)
                     end ;;
      last_day <- or_ValueError (monthrange (year today) (month today)) ;;
      end_date' <- match end_date with
                   | Some e => ret e
                   | None => or_ValueError (date_new (year today) (month today) last_day)
                   end ;;
      ret (start_date', end_date')
  end.

(** The body of the loop over the budgets. *)
Definition budget_status (start_date end_date : date) (budget : models.Budget.t)
  : M schemas.BudgetStatus.t :=
  category <- get_category (models.Budget.category_id budget) ;;
  scalar <- query (fun t =>
    func_sum (map models.Transaction.amount
      (as_returned models.Transaction.transaction_date true
         (filter (fun r =>
                    (models.Transaction.category_id r =? models.Budget.category_id budget)
                    && date_geb (models.Transaction.transaction_date r) start_date
                    && date_leb (models.Transaction.transaction_date r) end_date)
                 (transactions t))))) ;;
  let spent := or_else scalar 0%float in
  let remaining := (models.Budget.amount budget - spent)%float in
  let percentage := if (0 <? models.Budget.amount budget)%float
                    then (spent / models.Budget.amount budget * 100)%float
                    else 0%float in
  ret (schemas.BudgetStatus.mk
         (models.Budget.budget_id budget)
         (models.Budget.category_id budget)
         (match category with
          | Some c => models.Category.name c
          | None => "Unknown"
          end)
         (models.Budget.amount budget)
         (round spent 2)
         (round remaining 2)
         (round percentage 1)
         (models.Budget.amount budget <? spent)%float).

Definition get_budgets_with_status (today : date) (start_date end_date : option date)
  : M (list schemas.BudgetStatus.t) :=
  budgets <- query budgets ;;
  range <- default_range today start_date end_date ;;
  for_each budgets (budget_status (fst range) (snd range)).

(** *** Analytics *)

(** [sum(t.amount for t in transactions if t.type == ty)]. *)
Definition sum_of_type (ty : string) (transactions : list models.Transaction.t)
  : float :=
  py.sum (map models.Transaction.amount
            (filter (fun t => String.eqb (models.Transaction.type t) ty) transactions)).

Definition get_summary (start_date end_date : option date)
  : M schemas.SummaryResponse.t :=
  transactions <- query (fun t =>
    let q := transactions t in
    let q := filter_if start_date
               (fun s r => date_geb (models.Transaction.transaction_date r) s) q in
    let q := filter_if end_date
               (fun e r => date_leb (models.Transaction.transaction_date r) e) q in
    as_returned models.Transaction.transaction_date
      (truthy start_date || truthy end_date) q) ;;
  let total_income := sum_of_type "INCOME" transactions in
  let total_expenses := sum_of_type "EXPENSE" transactions in
  ret (schemas.SummaryResponse.mk
         (round total_income 2)
         (round total_expenses 2)
         (round (total_income - total_expenses)%float 2)
         (Z.of_nat (List.length transactions))).

(** How far [month] is below 1: what the loop below decreases. *)
Definition months_below (month : Z) : nat := Z.to_nat (1 - month).
Arguments months_below : simpl never.

(** [while month <= 0: month += 12; year -= 1], answering (month, year). *)
Equations? wrap_month (month year : Z) : Z * Z by wf (months_below month) lt :=
  wrap_month month year with Z_le_gt_dec month 0 => {
    | left _ := wrap_month (month + 12) (year - 1);
    | right _ := (month, year) }.
Proof. unfold months_below. lia. Qed.

(** [range(months - 1, -1, -1)]. *)
Definition range_down (months : Z) : list Z :=
  map (fun k => months - 1 - Z.of_nat k) (seq 0 (Z.to_nat months)).

(** The body of the loop over [i]. *)
Definition month_trend (today : date) (i : Z) : M schemas.MonthlyTrend.t :=
  let '(month, year) := wrap_month (py.month today - i) (py.year today) in
  month_start <- or_ValueError (date_new year month 1) ;;
  last_day <- or_ValueError (monthrange year month) ;;
  month_end <- or_ValueError (date_new year month last_day) ;;
  transactions <- query (fun t =>
    as_returned models.Transaction.transaction_date true
      (filter (fun r => date_geb (models.Transaction.transaction_date r) month_start
                        && date_leb (models.Transaction.transaction_date r) month_end)
              (transactions t))) ;;
  let income := sum_of_type "INCOME" transactions in
  let expenses := sum_of_type "EXPENSE" transactions in
  ret (schemas.MonthlyTrend.mk
         (strftime_B month_start)
         year
         (round income 2)
         (round expenses 2)
         (round (income - expenses)%float 2)).

Definition get_monthly_trend (today : date) (months : Z)
  : M (list schemas.MonthlyTrend.t) :=
  for_each (range_down months) (month_trend today).

(** *** The rest of the module *)

(** [order_by(Category.type, Category.name)]: ascending, strings compared
    code point by code point; rows of equal type and name stay in table
    order. *)
Definition category_leb (a b : models.Category.t) : bool :=
  match String.compare (models.Category.type a) (models.Category.type b) with
  | Lt => true
  | Eq => String.leb (models.Category.name a) (models.Category.name b)
  | Gt => false
  end.

Fixpoint insert_category (x : models.Category.t) (rows : list models.Category.t)
  : list models.Category.t :=
  match rows with
  | [] => [x]
  | y :: rest =>
      if category_leb x y then x :: y :: rest else y :: insert_category x rest
  end.

Definition order_by_type_name (rows : list models.Category.t)
  : list models.Category.t :=
  fold_right insert_category [] rows.

Definition get_categories : M (list models.Category.t) :=
  query (fun t => order_by_type_name (categories t)).

(** The catalogue of [create_default_categories], as (name, type). *)
Definition default_categories : list (string * string) :=
  [("Salary", "INCOME");
   ("Freelance", "INCOME");
   ("Investment", "INCOME");
   ("Gift", "INCOME");
   ("Other Income", "INCOME");
   ("Food & Dining", "EXPENSE");
   ("Transportation", "EXPENSE");
   ("Utilities", "EXPENSE");
   ("Rent", "EXPENSE");
   ("Entertainment", "EXPENSE");
   ("Shopping", "EXPENSE");
   ("Healthcare", "EXPENSE");
   ("Education", "EXPENSE");
   ("Travel", "EXPENSE");
   ("Other Expense", "EXPENSE")].

(** The objects created are known after the commit by the keys it wrote. *)
Definition create_default_categories : M (list models.Category.t) :=
  existing <- query (fun t => Z.of_nat (List.length (categories t))) ;;
  if 0 <? existing then ret []
  else
    for_each default_categories
      (fun cat_data => add (new_Category (fst cat_data) (snd cat_data))) ;;
    created <- commit ;;
    for_each created (fun cat => refresh categories models.Category.category_id cat).

Definition delete_transaction (transaction_id : Z) : M bool :=
  db_transaction <- get_transaction transaction_id ;;
  match db_transaction with
  | None =>
      raise (HTTPException 404
               ("Transaction with ID " ++ str_int transaction_id ++ " not found"))
  | Some db_transaction =>
      delete_Transaction_commit (models.Transaction.transaction_id db_transaction) ;;
      ret true
  end.

(** [query(...).join(models.Category)]: the pairs of a transaction and a
    category it references, in the order of the transactions. *)
Definition join_Category (t : Tables)
  : list (models.Transaction.t * models.Category.t) :=
  flat_map (fun r =>
              map (fun c => (r, c))
                  (filter (fun c => models.Category.category_id c
                                    =? models.Transaction.category_id r)
                          (categories t)))
           (transactions t).

(** The GROUP BY key: category id, name and type. *)
Definition group_key : Type := (Z * string * string)%type.

Definition group_key_eqb (a b : group_key) : bool :=
  (fst (fst a) =? fst (fst b))
  && String.eqb (snd (fst a)) (snd (fst b))
  && String.eqb (snd a) (snd b).

(** One joined row enters its group: the SUM and the COUNT of the group
    grow; a key not met before opens a group after the others, its SUM
    starting at 0.0. *)
Fixpoint group_add (k : group_key) (amount : float)
  (groups : list (group_key * (float * Z))) : list (group_key * (float * Z)) :=
  match groups with
  | [] => [(k, ((0 + amount)%float, 1))]
  | (k', (total, count)) :: rest =>
      if group_key_eqb k k'
      then (k', ((total + amount)%float, count + 1)) :: rest
      else (k', (total, count)) :: group_add k amount rest
  end.

Definition group_by (rows : list (models.Transaction.t * models.Category.t))
  : list (group_key * (float * Z)) :=
  fold_left (fun groups row =>
               group_add (models.Transaction.category_id (fst row),
                          models.Category.name (snd row),
                          models.Category.type (snd row))
                         (models.Transaction.amount (fst row)) groups)
            rows [].

(** The order in which the groups are answered: the engine sorts on the
    GROUP BY key, the category id, then the name and the type, strings
    compared byte by byte. *)
Definition group_key_leb (a b : group_key) : bool :=
  match fst (fst a) ?= fst (fst b) with
  | Lt => true
  | Gt => false
  | Eq => match String.compare (snd (fst a)) (snd (fst b)) with
          | Lt => true
          | Gt => false
          | Eq => String.leb (snd a) (snd b)
          end
  end.

Fixpoint insert_group (g : group_key * (float * Z))
  (groups : list (group_key * (float * Z))) : list (group_key * (float * Z)) :=
  match groups with
  | [] => [g]
  | h :: rest =>
      if group_key_leb (fst g) (fst h) then g :: h :: rest
      else h :: insert_group g rest
  end.

Definition by_group_key (groups : list (group_key * (float * Z)))
  : list (group_key * (float * Z)) :=
  fold_right insert_group [] groups.

Definition get_category_breakdown (start_date end_date : option date)
  (transaction_type : option string) : M (list schemas.CategoryBreakdown.t) :=
  results <- query (fun t =>
    let q := join_Category t in
    let q := filter_if start_date
               (fun s r => date_geb (models.Transaction.transaction_date (fst r)) s) q in
    let q := filter_if end_date
               (fun e r => date_leb (models.Transaction.transaction_date (fst r)) e) q in
    let q := filter_if transaction_type
               (fun ty r => String.eqb (models.Transaction.type (fst r)) ty) q in
    by_group_key
      (group_by
         (as_returned (fun r => models.Transaction.transaction_date (fst r))
            (truthy start_date || truthy end_date) q))) ;;
  ret (map (fun r =>
              schemas.CategoryBreakdown.mk
                (fst (fst (fst r)))
                (snd (fst (fst r)))
                (snd (fst r))
                (round (fst (snd r)) 2)
                (snd (snd r)))
           results).

Definition get_balance : M schemas.BalanceResponse.t :=
  income_scalar <- query (fun t =>
    func_sum (map models.Transaction.amount
      (filter (fun r => String.eqb (models.Transaction.type r) "INCOME")
              (transactions t)))) ;;
  let income := or_else income_scalar 0%float in
  expenses_scalar <- query (fun t =>
    func_sum (map models.Transaction.amount
      (filter (fun r => String.eqb (models.Transaction.type r) "EXPENSE")
              (transactions t)))) ;;
  let expenses := or_else expenses_scalar 0%float in
  ret (schemas.BalanceResponse.mk
         (round (income - expenses)%float 2)
         (round income 2)
         (round expenses 2)).

End crud.

(* ===================================================================== *)
(** ** app/auth.py: password hashing and registration                    *)
(* ===================================================================== *)

Module auth.

Import py sqlalchemy.

Section hashing.

(** [hashlib.sha256(s.encode()).hexdigest()], and the value of
    [os.getenv("SECRET_KEY", ...)] the process started with. *)
Variable sha256_hexdigest : string -> string.
Variable SECRET_KEY : string.

Definition hash_password (password : string) : string :=
  let salt := substring 0 16 SECRET_KEY in
  sha256_hexdigest (salt ++ password).

Definition verify_password (plain_password hashed_password : string) : bool :=
  String.eqb (hash_password plain_password) hashed_password.

Definition get_password_hash (password : string) : string :=
  hash_password password.

Definition get_user_by_username (username : string) : M (option models.User.t) :=
  query (fun t => find (fun u => String.eqb (models.User.username u) username) (users t)).

Definition get_user_by_email (email : string) : M (option models.User.t) :=
  query (fun t => find (fun u => String.eqb (models.User.email u) email) (users t)).

Definition authenticate_user (username password : string) : M (option models.User.t) :=
  user <- get_user_by_username username ;;
  match user with
  | None => ret None
  | Some user =>
      if negb (verify_password password (models.User.hashed_password user))
      then ret None
      else ret (Some user)
  end.

Definition create_user (username email password : string) (full_name : option string)
  : M models.User.t :=
  by_name <- get_user_by_username username ;;
  if truthy by_name then
    raise (HTTPException crud.HTTP_400_BAD_REQUEST "Username already registered")
  else
    by_email <- get_user_by_email email ;;
    if truthy by_email then
      raise (HTTPException crud.HTTP_400_BAD_REQUEST "Email already registered")
    else
      let hashed_password := get_password_hash password in
      add (new_User username email hashed_password full_name) ;;
      keys <- commit ;;
      refresh users models.User.user_id (hd 0 keys).

(** *** Tokens *)

(** The claims this module puts in a token and reads back from one:
    [sub], and [exp] as seconds since the epoch. *)
Record Claims : Type := mkClaims { sub : option string; exp : option Z }.

(** [jose.jwt.encode(claims, key, algorithm)] and
    [jose.jwt.decode(token, key, algorithms)], the latter answering [None]
    where the library raises [JWTError] (bad signature, expired). *)
Variable jwt_encode : Claims -> string -> string -> string.
Variable jwt_decode : string -> string -> list string -> option Claims.

Definition ALGORITHM : string := "HS256".

(** 60 * 24 minutes. *)
Definition ACCESS_TOKEN_EXPIRE_MINUTES : Z := 60 * 24.

(** [timedelta(minutes=m)], in seconds. *)
Definition timedelta_minutes (m : Z) : Z := 60 * m.

(** [utcnow] is [datetime.utcnow()] in seconds since the epoch; a
    [timedelta] is a number of seconds, false when zero. *)
Definition create_access_token (utcnow : Z) (data : Claims) (expires_delta : option Z)
  : string :=
  let to_encode := data in
  let expire :=
    match expires_delta with
    | Some d => if truthy d then utcnow + d
                else utcnow + timedelta_minutes ACCESS_TOKEN_EXPIRE_MINUTES
    | None => utcnow + timedelta_minutes ACCESS_TOKEN_EXPIRE_MINUTES
    end in
  let to_encode := mkClaims (sub to_encode) (Some expire) in
  jwt_encode to_encode SECRET_KEY ALGORITHM.

Definition decode_token (token : string) : option Claims :=
  jwt_decode token SECRET_KEY [ALGORITHM].

Definition get_current_user (token : option string) : M (option models.User.t) :=
  if negb (truthy token) then ret None
  else
    match token with
    | None => ret None
    | Some token =>
        match decode_token token with
        | None => ret None
        | Some payload =>
            match sub payload with
            | None => ret None
            | Some username => get_user_by_username username
            end
        end
    end.

(** The [headers] of the exception are not modelled. *)
Definition credentials_exception : exn :=
  HTTPException 401 "Could not validate credentials".

Definition get_current_user_required (token : option string) : M models.User.t :=
  if negb (truthy token) then raise credentials_exception
  else
    match token with
    | None => raise credentials_exception
    | Some token =>
        match decode_token token with
        | None => raise credentials_exception
        | Some payload =>
            match sub payload with
            | None => raise credentials_exception
            | Some username =>
                user <- get_user_by_username username ;;
                match user with
                | None => raise credentials_exception
                | Some user => ret user
                end
            end
        end
    end.

End hashing.

End auth.

(* ===================================================================== *)
(** ** app/main.py: the route handlers                                   *)
(* ===================================================================== *)

Module main.

Import py sqlalchemy.

Section routes.

Variable sha256_hexdigest : string -> string.
Variable SECRET_KEY : string.
Variable jwt_encode : auth.Claims -> string -> string -> string.
Variable jwt_decode : string -> string -> list string -> option auth.Claims.

(** [schemas.UserResponse.model_validate(user)]. *)
Definition model_validate (user : models.User.t) : schemas.UserResponse.t :=
  schemas.UserResponse.mk (models.User.user_id user) (models.User.username user)
    (models.User.email user) (models.User.full_name user) (models.User.is_active user).

(** The token both [register] and [login] issue for a user. *)
Definition issue_token (utcnow : Z) (user : models.User.t) : schemas.Token.t :=
  let access_token :=
    auth.create_access_token SECRET_KEY jwt_encode utcnow
      (auth.mkClaims (Some (models.User.username user)) None)
      (Some (auth.timedelta_minutes auth.ACCESS_TOKEN_EXPIRE_MINUTES)) in
  schemas.Token.mk access_token "bearer" (model_validate user).

Definition register (utcnow : Z) (user_data : schemas.UserCreate.t)
  : M schemas.Token.t :=
  user <- auth.create_user sha256_hexdigest SECRET_KEY
            (schemas.UserCreate.username user_data)
            (schemas.UserCreate.email user_data)
            (schemas.UserCreate.password user_data)
            (schemas.UserCreate.full_name user_data) ;;
  ret (issue_token utcnow user).

(** [login] and [login_json] have this body; the [headers] of the
    exception are not modelled. *)
Definition login (utcnow : Z) (username password : string) : M schemas.Token.t :=
  user <- auth.authenticate_user sha256_hexdigest SECRET_KEY username password ;;
  if negb (truthy user) then
    raise (HTTPException 401 "Incorrect username or password")
  else
    match user with
    | Some user => ret (issue_token utcnow user)
    | None => raise (HTTPException 401 "Incorrect username or password")
    end.

Definition get_current_user_info (token : option string) : M models.User.t :=
  auth.get_current_user_required SECRET_KEY jwt_decode token.

(** The answer is (valid, username). *)
Definition verify_token (token : option string) : M (bool * option string) :=
  current_user <- auth.get_current_user SECRET_KEY jwt_decode token ;;
  match current_user with
  | Some current_user => ret (true, Some (models.User.username current_user))
  | None => ret (false, None)
  end.

End routes.

(** A query parameter outside the bounds of its [Query(...)] is refused by
    the framework before the handler runs, with status 422; the body of
    that answer is the framework's. *)
Definition validation_error : exn := HTTPException 422 "validation error".

Definition get_transactions (skip limit : Z) (start_date end_date : option date)
  (category_id : option Z) (type : option string) : M (list models.Transaction.t) :=
  if (0 <=? skip) && ((1 <=? limit) && (limit <=? 1000))
  then crud.get_transactions skip limit start_date end_date category_id type
  else raise validation_error.

Definition get_transaction (transaction_id : Z) : M models.Transaction.t :=
  transaction <- crud.get_transaction transaction_id ;;
  match transaction with
  | None =>
      raise (HTTPException crud.HTTP_404_NOT_FOUND
               ("Transaction with ID " ++ str_int transaction_id ++ " not found"))
  | Some transaction => ret transaction
  end.

Definition delete_transaction (transaction_id : Z) : M schemas.MessageResponse.t :=
  crud.delete_transaction transaction_id ;;
  ret (schemas.MessageResponse.mk
         ("Transaction with ID " ++ str_int transaction_id ++ " successfully deleted")
         transaction_id).

Definition get_monthly_trend (today : date) (months : Z)
  : M (list schemas.MonthlyTrend.t) :=
  if (1 <=? months) && (months <=? 24)
  then crud.get_monthly_trend today months
  else raise validation_error.

End main.

(* ===================================================================== *)
(** ** Vocabulary of the statements                                      *)
(* ===================================================================== *)

Import py sqlalchemy.

Unset Implicit Arguments.

(** [d] lies in the inclusive range; an absent bound does not constrain. *)
Definition in_range (start_date end_date : option date) (d : date) : bool :=
  match start_date with Some s => date_leb s d | None => true end
  && match end_date with Some e => date_leb d e | None => true end.

(** The stored transactions dated within the range. *)
Definition rows_in_range (t : Tables) (start_date end_date : option date)
  : list models.Transaction.t :=
  filter (fun r => in_range start_date end_date (models.Transaction.transaction_date r))
         (transactions t).

(** The rows of a range in the order the engine returns them: by the
    index on the date when a bound is given, in table order otherwise. *)
Definition returned_in_range (t : Tables) (start_date end_date : option date)
  : list models.Transaction.t :=
  as_returned models.Transaction.transaction_date
    (match start_date, end_date with None, None => false | _, _ => true end)
    (rows_in_range t start_date end_date).

(** The amounts of the rows of one type, added as doubles from left to
    right, starting from 0. *)
Definition total_of (ty : string) (rows : list models.Transaction.t) : float :=
  fold_left PrimFloat.add
    (map models.Transaction.amount
       (filter (fun r => String.eqb (models.Transaction.type r) ty) rows))
    0%float.

(** The transactions of a category dated within an inclusive range, by
    ascending date: the rows the SUM of a budget status adds up, in the
    order it meets them. *)
Definition spent_rows (t : Tables) (category_id : Z) (start_date end_date : date)
  : list models.Transaction.t :=
  by_date_index models.Transaction.transaction_date
    (filter (fun r => (models.Transaction.category_id r =? category_id)
                      && in_range (Some start_date) (Some end_date)
                           (models.Transaction.transaction_date r))
            (transactions t)).

(** The total spent in a category within an inclusive range: the amounts
    of [spent_rows] added as doubles from left to right, 0.0 over no
    row. *)
Definition spent_total (t : Tables) (category_id : Z) (start_date end_date : date)
  : float :=
  or_else
    (crud.func_sum
       (map models.Transaction.amount (spent_rows t category_id start_date end_date)))
    0%float.

(** What a budget status reports about a budget row: the amounts rounded to
    2 decimals, the percentage to 1, the flag from the unrounded total. *)
Definition status_of (t : Tables) (start_date end_date : date)
  (budget : models.Budget.t) (st : schemas.BudgetStatus.t) : Prop :=
  let spent := spent_total t (models.Budget.category_id budget) start_date end_date in
  schemas.BudgetStatus.budget_id st = models.Budget.budget_id budget
  /\ schemas.BudgetStatus.category_id st = models.Budget.category_id budget
  /\ schemas.BudgetStatus.budget_amount st = models.Budget.amount budget
  /\ schemas.BudgetStatus.spent_amount st = round spent 2
  /\ schemas.BudgetStatus.remaining st
     = round (models.Budget.amount budget - spent)%float 2
  /\ ((0 <? models.Budget.amount budget)%float = true ->
      schemas.BudgetStatus.percentage_used st
      = round (spent / models.Budget.amount budget * 100)%float 1)
  /\ ((0 <? models.Budget.amount budget)%float = false ->
      schemas.BudgetStatus.percentage_used st = 0%float)
  /\ schemas.BudgetStatus.is_over_budget st
     = (models.Budget.amount budget <? spent)%float.

(** Every budget row references a signed 64-bit integer, as the column is
    an SQLite INTEGER, or at any rate the id of a stored category: the
    lookup of its category is one the driver does not refuse. *)
Definition budget_references_fit (t : Tables) : Prop :=
  forall b, In b (budgets t) ->
    fits_int64 (models.Budget.category_id b) = true
    \/ exists c, In c (categories t)
                 /\ models.Category.category_id c = models.Budget.category_id b.

(** The first and the last day of the calendar month of [today]. *)
Definition month_first (today : date) : date := mkdate (year today) (month today) 1.
Definition month_last (today : date) : date :=
  mkdate (year today) (month today)
    (match monthrange (year today) (month today) with Some n => n | None => 0 end).

(** Months counted from January of year 0. *)
Definition month_index (d : date) : Z := 12 * year d + (month d - 1).

(** The stored transactions dated from the first to the last day of month
    [m] of year [y]. *)
Definition month_rows (t : Tables) (y m : Z) : list models.Transaction.t :=
  rows_in_range t (Some (month_first (mkdate y m 1))) (Some (month_last (mkdate y m 1))).

(** What a trend entry reports about the month of index [idx]: the totals
    are those of the rows of the month by ascending date. *)
Definition trend_entry (t : Tables) (idx : Z) (r : schemas.MonthlyTrend.t) : Prop :=
  let y := idx / 12 in
  let m := idx mod 12 + 1 in
  let rows := by_date_index models.Transaction.transaction_date (month_rows t y m) in
  schemas.MonthlyTrend.year r = y
  /\ schemas.MonthlyTrend.month r = nth (Z.to_nat (idx mod 12)) month_names EmptyString
  /\ schemas.MonthlyTrend.income r = round (total_of "INCOME" rows) 2
  /\ schemas.MonthlyTrend.expenses r = round (total_of "EXPENSE" rows) 2
  /\ schemas.MonthlyTrend.balance r
     = round (total_of "INCOME" rows - total_of "EXPENSE" rows)%float 2
  /\ ((forall x, In x (transactions t) ->
                 ~ (year (models.Transaction.transaction_date x) = y
                    /\ month (models.Transaction.transaction_date x) = m)) ->
      schemas.MonthlyTrend.income r = 0%float
      /\ schemas.MonthlyTrend.expenses r = 0%float
      /\ schemas.MonthlyTrend.balance r = 0%float).

(** A computation that only reads: it answers [f] of the committed tables
    and leaves the session as it is. *)
Definition reads {A} (c : M A) (f : Tables -> A) : Prop :=
  forall s, c s = (s, Return (f (database s))).

(** A session with nothing staged: how every request starts. *)
Definition fresh (s : Session) : Prop := unit_of_work s = [].

(** The primary keys and UNIQUE columns declared in [models.py]. *)
Record constraints_hold (t : Tables) : Prop := {
  users_pk : NoDup (map models.User.user_id (users t));
  users_username : NoDup (map models.User.username (users t));
  users_email : NoDup (map models.User.email (users t));
  categories_pk : NoDup (map models.Category.category_id (categories t));
  categories_name : NoDup (map models.Category.name (categories t));
  transactions_pk : NoDup (map models.Transaction.transaction_id (transactions t));
  budgets_pk : NoDup (map models.Budget.budget_id (budgets t));
  budgets_category_id : NoDup (map models.Budget.category_id (budgets t)) }.

(** The partial update as the specification words it: a supplied field
    takes the supplied value, any other keeps its prior value.  [None]
    when a column that cannot be NULL is supplied as [null]. *)
Definition merged (t : models.Transaction.t) (u : schemas.TransactionUpdate.t)
  : option models.Transaction.t :=
  match schemas.TransactionUpdate.amount u,
        schemas.TransactionUpdate.type u,
        schemas.TransactionUpdate.transaction_date u,
        schemas.TransactionUpdate.category_id u with
  | Some None, _, _, _ | _, Some None, _, _ | _, _, Some None, _ | _, _, _, Some None =>
      None
  | a, ty, dt, c =>
      Some (models.Transaction.mk
              (models.Transaction.transaction_id t)
              (match a with Some (Some x) => x | _ => models.Transaction.amount t end)
              (match ty with Some (Some x) => x | _ => models.Transaction.type t end)
              (match schemas.TransactionUpdate.description u with
               | Some x => x
               | None => models.Transaction.description t
               end)
              (match dt with
               | Some (Some x) => x
               | _ => models.Transaction.transaction_date t
               end)
              (match c with Some (Some x) => x | _ => models.Transaction.category_id t end))
  end.

(** Every field the update leaves out has in [t'] the value it has in [t]. *)
Definition retains_unsupplied (t : models.Transaction.t)
  (u : schemas.TransactionUpdate.t) (t' : models.Transaction.t) : Prop :=
  models.Transaction.transaction_id t' = models.Transaction.transaction_id t
  /\ (schemas.TransactionUpdate.amount u = None ->
      models.Transaction.amount t' = models.Transaction.amount t)
  /\ (schemas.TransactionUpdate.type u = None ->
      models.Transaction.type t' = models.Transaction.type t)
  /\ (schemas.TransactionUpdate.description u = None ->
      models.Transaction.description t' = models.Transaction.description t)
  /\ (schemas.TransactionUpdate.transaction_date u = None ->
      models.Transaction.transaction_date t' = models.Transaction.transaction_date t)
  /\ (schemas.TransactionUpdate.category_id u = None ->
      models.Transaction.category_id t' = models.Transaction.category_id t).

(** Every field the update supplies has in [t'] the value supplied. *)
Definition takes_supplied (u : schemas.TransactionUpdate.t)
  (t' : models.Transaction.t) : Prop :=
  (forall x, schemas.TransactionUpdate.amount u = Some x ->
             x = Some (models.Transaction.amount t'))
  /\ (forall x, schemas.TransactionUpdate.type u = Some x ->
                x = Some (models.Transaction.type t'))
  /\ (forall x, schemas.TransactionUpdate.description u = Some x ->
                x = models.Transaction.description t')
  /\ (forall x, schemas.TransactionUpdate.transaction_date u = Some x ->
                x = Some (models.Transaction.transaction_date t'))
  /\ (forall x, schemas.TransactionUpdate.category_id u = Some x ->
                x = Some (models.Transaction.category_id t')).

(** The CHECK constraints of the transactions table on one row. *)
Definition checks_pass (r : models.Transaction.t) : bool :=
  (0 <? models.Transaction.amount r)%float && is_type (models.Transaction.type r).

(** The category a partial update names, when it names one, is a value
    the driver binds. *)
Definition category_fits (u : schemas.TransactionUpdate.t) : bool :=
  match schemas.TransactionUpdate.category_id u with
  | Some (Some c) => fits_int64 c
  | _ => true
  end.

(** The category a partial update names, when it names one, exists. *)
Definition category_resolves (t : Tables) (u : schemas.TransactionUpdate.t) : bool :=
  match schemas.TransactionUpdate.category_id u with
  | None => true
  | Some None => false
  | Some (Some c) => existsb (fun x => models.Category.category_id x =? c) (categories t)
  end.

(** *** Functions of the tables that the code is compared with *)

(** The rows [a] and [b] are in ascending order of date. *)
Definition date_asc {R} (date_of : R -> date) (a b : R) : Prop :=
  date_leb (date_of a) (date_of b) = true.

(** [a] comes no later in a descending listing than [b]. *)
Definition date_desc (a b : models.Transaction.t) : Prop :=
  date_leb (models.Transaction.transaction_date b)
           (models.Transaction.transaction_date a) = true.

(** The UPDATE of a budget, as [flush_one] writes it. *)
Definition set_budget (k : Z) (a : float) (p : string) (r : models.Budget.t)
  : models.Budget.t :=
  if models.Budget.budget_id r =? k
  then models.Budget.mk k (models.Budget.category_id r) a p
  else r.

(** What one turn of the loop computes, as a function of the tables. *)
Definition budget_status_of (start_date end_date : date) (budget : models.Budget.t)
  (t : Tables) : schemas.BudgetStatus.t :=
  let spent :=
    or_else
      (crud.func_sum
         (map models.Transaction.amount
            (by_date_index models.Transaction.transaction_date
               (filter (fun r =>
                          (models.Transaction.category_id r
                           =? models.Budget.category_id budget)
                          && date_geb (models.Transaction.transaction_date r) start_date
                          && date_leb (models.Transaction.transaction_date r) end_date)
                       (transactions t))))) 0%float in
  schemas.BudgetStatus.mk
    (models.Budget.budget_id budget)
    (models.Budget.category_id budget)
    (match find (fun c => models.Category.category_id c
                          =? models.Budget.category_id budget) (categories t) with
     | Some c => models.Category.name c
     | None => "Unknown"
     end)
    (models.Budget.amount budget)
    (round spent 2)
    (round (models.Budget.amount budget - spent)%float 2)
    (round (if (0 <? models.Budget.amount budget)%float
            then (spent / models.Budget.amount budget * 100)%float
            else 0%float) 1)
    (models.Budget.amount budget <? spent)%float.

(** What one turn of the loop computes for month [m] of year [y]. *)
Definition trend_of_month (y m : Z) (t : Tables) : schemas.MonthlyTrend.t :=
  let rows :=
    by_date_index models.Transaction.transaction_date
      (filter (fun r =>
                 date_geb (models.Transaction.transaction_date r)
                          (month_first (mkdate y m 1))
                 && date_leb (models.Transaction.transaction_date r)
                             (month_last (mkdate y m 1)))
              (transactions t)) in
  schemas.MonthlyTrend.mk
    (strftime_B (month_first (mkdate y m 1)))
    y
    (round (crud.sum_of_type "INCOME" rows) 2)
    (round (crud.sum_of_type "EXPENSE" rows) 2)
    (round (crud.sum_of_type "INCOME" rows - crud.sum_of_type "EXPENSE" rows)%float 2).

(** *** The stores of the examples *)

(** The store of the example: one category and two transactions, an
    income of 1.004 and an expense of 0.996, both on 2024-01-15. *)
Definition summary_example : Session :=
  mkSession
    (mkTables []
       [models.Category.mk 1 "Misc" "EXPENSE"]
       [models.Transaction.mk 1 1.004%float "INCOME" None (mkdate 2024 1 15) 1;
        models.Transaction.mk 2 0.996%float "EXPENSE" None (mkdate 2024 1 15) 1]
       [])
    [].

(** The store of the examples: two categories and three transactions. *)
Definition listing_example : Session :=
  mkSession
    (mkTables []
       [models.Category.mk 1 "Salary" "INCOME"; models.Category.mk 2 "Rent" "EXPENSE"]
       [models.Transaction.mk 1 2500%float "INCOME" None (mkdate 2024 1 31) 1;
        models.Transaction.mk 2 900%float "EXPENSE" (Some "flat") (mkdate 2024 2 1) 2;
        models.Transaction.mk 3 2500%float "INCOME" None (mkdate 2024 2 29) 1]
       [])
    [].

(** A store with one registered user. *)
Definition users_example : Session :=
  mkSession
    (mkTables [models.User.mk 1 "alice" "alice@example.org" "h" None true] [] [] [])
    [].

(** A budget of 3 for category 2 and 1 spent in it on 2024-02-01. *)
Definition budget_example : Session :=
  mkSession
    (mkTables []
       [models.Category.mk 2 "Rent" "EXPENSE"]
       [models.Transaction.mk 1 1%float "EXPENSE" None (mkdate 2024 2 1) 2]
       [models.Budget.mk 1 2 3%float "MONTHLY"])
    [].

(** Two budgets of 10000: 4500 spent in February 2024 under the first,
    12000 under the second; one more row lies outside February. *)
Definition ten_thousand_example : Session :=
  mkSession
    (mkTables []
       [models.Category.mk 2 "Rent" "EXPENSE"; models.Category.mk 3 "Food" "EXPENSE"]
       [models.Transaction.mk 1 3000%float "EXPENSE" None (mkdate 2024 2 1) 2;
        models.Transaction.mk 2 12000%float "EXPENSE" None (mkdate 2024 2 10) 3;
        models.Transaction.mk 3 1500%float "EXPENSE" None (mkdate 2024 2 29) 2;
        models.Transaction.mk 4 999%float "EXPENSE" None (mkdate 2024 3 1) 2]
       [models.Budget.mk 1 2 10000%float "MONTHLY";
        models.Budget.mk 2 3 10000%float "MONTHLY"])
    [].

(** Closes [NoDup] of an explicit list of keys or names. *)
Ltac solve_NoDup :=
  repeat (constructor; [cbn; intuition (try discriminate; try lia)|]); constructor.

(** *** Vocabulary of the further properties *)

(** The row [create_transaction] writes for a body, under the next key. *)
Definition new_transaction_row (db : Tables) (tx : schemas.TransactionCreate.t)
  : models.Transaction.t :=
  models.Transaction.mk
    (next_id (map models.Transaction.transaction_id (transactions db)))
    (schemas.TransactionCreate.amount tx)
    (schemas.TransactionCreate.type tx)
    (schemas.TransactionCreate.description tx)
    (schemas.TransactionCreate.transaction_date tx)
    (schemas.TransactionCreate.category_id tx).

(** The catalogue under the keys 1 to 15. *)
Definition seeded_categories : list models.Category.t :=
  map (fun kc => models.Category.mk (Z.of_nat (fst kc)) (fst (snd kc)) (snd (snd kc)))
      (combine (seq 1 15) crud.default_categories).

(** The GROUP BY key of a joined row. *)
Definition key_of (row : models.Transaction.t * models.Category.t) : crud.group_key :=
  (models.Transaction.category_id (fst row),
   models.Category.name (snd row),
   models.Category.type (snd row)).

(** The joined rows a breakdown aggregates: dated in the range and, when a
    type is asked for and is not the empty string, of that type. *)
Definition breakdown_rows (t : Tables) (start_date end_date : option date)
  (transaction_type : option string)
  : list (models.Transaction.t * models.Category.t) :=
  filter (fun p =>
            in_range start_date end_date (models.Transaction.transaction_date (fst p))
            && match transaction_type with
               | Some ty => if truthy ty
                            then String.eqb (models.Transaction.type (fst p)) ty
                            else true
               | None => true
               end)
         (crud.join_Category t).

(** The same rows in the order the engine returns them. *)
Definition breakdown_returned (t : Tables) (start_date end_date : option date)
  (transaction_type : option string)
  : list (models.Transaction.t * models.Category.t) :=
  as_returned (fun r => models.Transaction.transaction_date (fst r))
    (match start_date, end_date with None, None => false | _, _ => true end)
    (breakdown_rows t start_date end_date transaction_type).

(** The joined rows of one key among [rows], and their amounts added as
    doubles from 0.0 in the order of [rows]. *)
Definition rows_of_key (k : crud.group_key)
  (rows : list (models.Transaction.t * models.Category.t))
  : list (models.Transaction.t * models.Category.t) :=
  filter (fun p => crud.group_key_eqb k (key_of p)) rows.

Definition total_of_key (k : crud.group_key)
  (rows : list (models.Transaction.t * models.Category.t)) : float :=
  fold_left PrimFloat.add
    (map (fun p => models.Transaction.amount (fst p)) (rows_of_key k rows))
    0%float.

(** The group a key has in a GROUP BY result, if any. *)
Definition group_find (k : crud.group_key)
  (groups : list (crud.group_key * (float * Z))) : option (float * Z) :=
  option_map snd (find (fun g => crud.group_key_eqb k (fst g)) groups).

(** The key of a breakdown row. *)
Definition breakdown_key (r : schemas.CategoryBreakdown.t) : crud.group_key :=
  (schemas.CategoryBreakdown.category_id r,
   schemas.CategoryBreakdown.category_name r,
   schemas.CategoryBreakdown.type r).

(** The row the handler builds from a group. *)
Definition breakdown_of (g : crud.group_key * (float * Z))
  : schemas.CategoryBreakdown.t :=
  schemas.CategoryBreakdown.mk (fst (fst (fst g))) (snd (fst (fst g))) (snd (fst g))
    (round (fst (snd g)) 2) (snd (snd g)).

(** A store whose one user has the hash of the password "pw" under the
    codec of the examples. *)
Definition login_example : Session :=
  mkSession
    (mkTables [models.User.mk 1 "alice" "alice@example.org" "0123456789abcdefpw" None true]
       [] [] [])
    [].

(* ===================================================================== *)
(** ** Facts about the Python layer                                      *)
(* ===================================================================== *)

Lemma nearest_even_close (num : Z) (den : positive) :
  2 * Z.abs (nearest_even num den * Zpos den - num) <= Zpos den.
Proof.
  unfold nearest_even.
  pose proof (Z.div_mod num (Zpos den) ltac:(lia)) as Hdm.
  pose proof (Z.mod_pos_bound num (Zpos den) ltac:(lia)) as Hb.
  set (f := num / Zpos den) in *. set (r := num mod Zpos den) in *.
  destruct (Z.compare_spec (2 * r) (Zpos den)) as [He|Hl|Hg].
  - destruct (Z.even f); nia.
  - nia.
  - nia.
Qed.

(** [nearest_even] is determined by the value of the fraction. *)
Lemma nearest_even_unique (num : Z) (den : positive) (k : Z) :
  (2 * Z.abs (k * Zpos den - num) < Zpos den
   \/ (2 * Z.abs (k * Zpos den - num) = Zpos den /\ Z.even k = true)) ->
  nearest_even num den = k.
Proof.
  unfold nearest_even.
  pose proof (Z.div_mod num (Zpos den) ltac:(lia)) as Hdm.
  pose proof (Z.mod_pos_bound num (Zpos den) ltac:(lia)) as Hb.
  set (f := num / Zpos den) in *. set (r := num mod Zpos den) in *.
  intros H.
  assert (Hk : k = f \/ k = f + 1) by nia.
  destruct (Z.compare_spec (2 * r) (Zpos den)) as [He|Hl|Hg].
  - destruct Hk as [-> | ->].
    + destruct H as [H|[_ H]]; [nia|]. now rewrite H.
    + destruct H as [H|[_ H]]; [nia|].
      rewrite Z.even_add in H. destruct (Z.even f); [discriminate|reflexivity].
  - destruct Hk as [-> | ->]; [reflexivity|nia].
  - destruct Hk as [-> | ->]; [nia|reflexivity].
Qed.

Lemma nearest_even_char (num : Z) (den : positive) :
  2 * Z.abs (nearest_even num den * Zpos den - num) < Zpos den
  \/ (2 * Z.abs (nearest_even num den * Zpos den - num) = Zpos den
      /\ Z.even (nearest_even num den) = true).
Proof.
  unfold nearest_even.
  pose proof (Z.div_mod num (Zpos den) ltac:(lia)) as Hdm.
  pose proof (Z.mod_pos_bound num (Zpos den) ltac:(lia)) as Hb.
  set (f := num / Zpos den) in *. set (r := num mod Zpos den) in *.
  destruct (Z.compare_spec (2 * r) (Zpos den)) as [He|Hl|Hg].
  - right. destruct (Z.even f) eqn:Ef.
    + split; [nia|assumption].
    + split; [nia|]. rewrite Z.even_add, Ef. reflexivity.
  - left. nia.
  - left. nia.
Qed.

Lemma filter_filter_and {A} (p q : A -> bool) (l : list A) :
  filter q (filter p l) = filter (fun x => p x && q x) l.
Proof.
  induction l as [|x l IH]; simpl; [reflexivity|].
  destruct (p x); simpl; [destruct (q x)|]; now rewrite IH.
Qed.

(** The two conditional date filters select the rows dated in the range. *)
Lemma date_filters_in_range (t : Tables) (start_date end_date : option date) :
  crud.filter_if end_date
    (fun e r => date_leb (models.Transaction.transaction_date r) e)
    (crud.filter_if start_date
       (fun s r => date_geb (models.Transaction.transaction_date r) s)
       (transactions t))
  = rows_in_range t start_date end_date.
Proof.
  unfold rows_in_range, in_range, crud.filter_if, date_geb.
  destruct start_date as [s|], end_date as [e|]; cbn [truthy truthy_date].
  - apply filter_filter_and.
  - apply filter_ext. intros r. now rewrite andb_true_r.
  - reflexivity.
  - induction (transactions t) as [|x l IH]; cbn; [reflexivity|now f_equal].
Qed.

(* ===================================================================== *)
(** ** The order on dates and the sort of [get_transactions]             *)
(* ===================================================================== *)

Lemma date_leb_spec (a b : date) :
  date_leb a b = true
  <-> year a < year b
      \/ (year a = year b
          /\ (month a < month b \/ (month a = month b /\ day a <= day b))).
Proof.
  unfold date_leb, date_compare.
  destruct (Z.compare_spec (year a) (year b));
    destruct (Z.compare_spec (month a) (month b));
    destruct (Z.compare_spec (day a) (day b));
    split; intros; try discriminate; try reflexivity; lia.
Qed.

Lemma date_leb_total (a b : date) : date_leb a b = false -> date_leb b a = true.
Proof.
  intros H. apply date_leb_spec.
  destruct (date_leb a b) eqn:E; [discriminate|].
  assert (N : ~ (date_leb a b = true)) by congruence.
  rewrite date_leb_spec in N. lia.
Qed.

Lemma date_leb_trans (a b c : date) :
  date_leb a b = true -> date_leb b c = true -> date_leb a c = true.
Proof. rewrite !date_leb_spec. lia. Qed.

Lemma date_leb_refl (a : date) : date_leb a a = true.
Proof. apply date_leb_spec. lia. Qed.

Lemma In_firstn {A} (n : nat) (l : list A) (x : A) : In x (firstn n l) -> In x l.
Proof.
  revert l. induction n as [|n IH]; intros [|y l]; simpl; try tauto.
  intros [->|H]; [now left|right; now apply IH].
Qed.

Lemma In_skipn {A} (n : nat) (l : list A) (x : A) : In x (skipn n l) -> In x l.
Proof.
  revert l. induction n as [|n IH]; intros [|y l]; simpl; try tauto.
  intros H. right. now apply IH.
Qed.

Section Sublists.

Context {A : Type} (R : A -> A -> Prop).

Lemma StronglySorted_skipn (n : nat) (l : list A) :
  StronglySorted R l -> StronglySorted R (skipn n l).
Proof.
  revert l. induction n as [|n IH]; intros l H; [exact H|].
  destruct l as [|x l]; [constructor|]. simpl. apply IH.
  now apply StronglySorted_inv in H.
Qed.

Lemma StronglySorted_firstn (n : nat) (l : list A) :
  StronglySorted R l -> StronglySorted R (firstn n l).
Proof.
  revert l. induction n as [|n IH]; intros l H; [constructor|].
  destruct l as [|x l]; [constructor|]. simpl.
  apply StronglySorted_inv in H. destruct H as [Hs Hx].
  constructor; [now apply IH|].
  rewrite Forall_forall in *. intros y Hy. apply Hx. eapply In_firstn, Hy.
Qed.

End Sublists.

Lemma limit_sorted (n : Z) (l : list models.Transaction.t) :
  StronglySorted date_desc l -> StronglySorted date_desc (crud.limit_ n l).
Proof.
  unfold crud.limit_. destruct (n <? 0); [easy|apply StronglySorted_firstn].
Qed.

Lemma In_limit {A} (n : Z) (l : list A) (x : A) : In x (crud.limit_ n l) -> In x l.
Proof.
  unfold crud.limit_. destruct (n <? 0); [easy|apply In_firstn].
Qed.

Lemma In_filter_if {A R} `{Truthy A} (x : option A) (p : A -> R -> bool)
  (rows : list R) (r : R) :
  In r (crud.filter_if x p rows) ->
  In r rows /\ (forall a, x = Some a -> truthy a = true -> p a r = true).
Proof.
  unfold crud.filter_if. destruct x as [a|].
  - destruct (truthy a) eqn:E.
    + rewrite filter_In. intros [Hin Hp]. split; [exact Hin|].
      intros a' [= <-] _. exact Hp.
    + intros Hin. split; [exact Hin|]. intros a' [= <-]. congruence.
  - intros Hin. split; [exact Hin|]. discriminate.
Qed.

(* ===================================================================== *)
(** ** The order in which rows are returned                              *)
(* ===================================================================== *)

Lemma insert_by_date_perm {R} (date_of : R -> date) (x : R) (l : list R) :
  Permutation (insert_by_date date_of x l) (x :: l).
Proof.
  induction l as [|y l IH]; cbn [insert_by_date]; [reflexivity|].
  destruct (date_leb _ _); [reflexivity|].
  rewrite IH. apply perm_swap.
Qed.

Lemma by_date_index_perm {R} (date_of : R -> date) (l : list R) :
  Permutation (by_date_index date_of l) l.
Proof.
  induction l as [|x l IH]; cbn [by_date_index fold_right]; [reflexivity|].
  fold (by_date_index date_of l). rewrite insert_by_date_perm. now constructor.
Qed.

Lemma insert_by_date_sorted {R} (date_of : R -> date) (x : R) (l : list R) :
  StronglySorted (date_asc date_of) l ->
  StronglySorted (date_asc date_of) (insert_by_date date_of x l).
Proof.
  induction 1 as [|y l Hs IH Hy]; cbn [insert_by_date].
  - repeat constructor.
  - destruct (date_leb (date_of x) (date_of y)) eqn:E.
    + constructor; [now constructor|].
      constructor; [exact E|].
      rewrite Forall_forall in *. intros z Hz. unfold date_asc in *.
      eapply date_leb_trans; [exact E|apply Hy, Hz].
    + constructor; [exact IH|].
      rewrite Forall_forall in *. intros z Hz.
      apply (Permutation_in _ (insert_by_date_perm date_of x l)) in Hz.
      destruct Hz as [<-|Hz]; [|now apply Hy].
      unfold date_asc. now apply date_leb_total.
Qed.

Lemma by_date_index_sorted {R} (date_of : R -> date) (l : list R) :
  StronglySorted (date_asc date_of) (by_date_index date_of l).
Proof.
  induction l as [|x l IH]; cbn [by_date_index fold_right]; [constructor|].
  now apply insert_by_date_sorted.
Qed.

Lemma order_by_date_desc_perm (l : list models.Transaction.t) :
  Permutation (crud.order_by_date_desc l) l.
Proof.
  unfold crud.order_by_date_desc.
  rewrite <- Permutation_rev. apply by_date_index_perm.
Qed.

Lemma backward_sorted (l : list models.Transaction.t) :
  StronglySorted (date_asc models.Transaction.transaction_date) l ->
  StronglySorted date_desc (rev l).
Proof.
  induction 1 as [|x l Hs IH Hx]; cbn [rev]; [constructor|].
  assert (Hr : Forall (fun z => date_desc z x) (rev l)).
  { rewrite Forall_forall in *. intros z Hz. apply in_rev in Hz.
    exact (Hx z Hz). }
  clear Hx Hs. induction IH as [|y k Hk IHk Hy]; cbn [app].
  - repeat constructor.
  - apply Forall_cons_iff in Hr. destruct Hr as [Hyx Hr].
    constructor; [now apply IHk|].
    apply Forall_app. split; [exact Hy|]. now constructor.
Qed.

Lemma order_by_date_desc_sorted (l : list models.Transaction.t) :
  StronglySorted date_desc (crud.order_by_date_desc l).
Proof. apply backward_sorted, by_date_index_sorted. Qed.

Lemma as_returned_perm {R} (date_of : R -> date) (dated : bool) (l : list R) :
  Permutation (as_returned date_of dated l) l.
Proof.
  unfold as_returned. destruct dated; [apply by_date_index_perm|reflexivity].
Qed.

Lemma returned_in_range_perm (t : Tables) (start_date end_date : option date) :
  Permutation (returned_in_range t start_date end_date)
              (rows_in_range t start_date end_date).
Proof. apply as_returned_perm. Qed.

(** A listing answered from the index has its dates in ascending order. *)
Lemma returned_in_range_sorted (t : Tables) (start_date end_date : option date) :
  start_date <> None \/ end_date <> None ->
  StronglySorted (date_asc models.Transaction.transaction_date)
                 (returned_in_range t start_date end_date).
Proof.
  unfold returned_in_range, as_returned.
  destruct start_date, end_date; intros H; try apply by_date_index_sorted.
  destruct H as [H|H]; now elim H.
Qed.

(* ===================================================================== *)
(** ** C1: the period summary                                            *)
(* ===================================================================== *)

(** C1, as stated, fails: on [summary_example] the summary reports income
    1.0, expenses 1.0 and balance 0.01, so that
    [balance == total_income - total_expenses] is false. *)
Lemma get_summary_balance_counterexample :
  exists r,
    crud.get_summary None None summary_example = (summary_example, Return r)
    /\ schemas.SummaryResponse.total_income r = 1%float
    /\ schemas.SummaryResponse.total_expenses r = 1%float
    /\ schemas.SummaryResponse.balance r = 0.01%float
    /\ (schemas.SummaryResponse.balance r
        =? schemas.SummaryResponse.total_income r
           - schemas.SummaryResponse.total_expenses r)%float = false.
Proof.
  eexists. split; [vm_compute; reflexivity|].
  cbn [schemas.SummaryResponse.total_income schemas.SummaryResponse.total_expenses
       schemas.SummaryResponse.balance].
  repeat split.
Qed.

(** C1 (amended): for every store and optional inclusive date range the
    summary leaves the session as it is and is computed from the stored
    rows dated in the range, each taken once, in the order the engine
    returns them.  It reports the INCOME amounts among them, added as
    doubles from left to right, rounded to 2 decimals; the EXPENSE amounts
    likewise; the number of rows in range; and as balance the difference
    of the two unrounded totals, rounded to 2 decimals. *)
Theorem get_summary_spec (s : Session) (start_date end_date : option date) :
  exists r,
    crud.get_summary start_date end_date s = (s, Return r)
    /\ let rows := returned_in_range (database s) start_date end_date in
       Permutation rows (rows_in_range (database s) start_date end_date)
       /\ schemas.SummaryResponse.total_income r = round (total_of "INCOME" rows) 2
       /\ schemas.SummaryResponse.total_expenses r = round (total_of "EXPENSE" rows) 2
       /\ schemas.SummaryResponse.transaction_count r
          = Z.of_nat (List.length (rows_in_range (database s) start_date end_date))
       /\ schemas.SummaryResponse.balance r
          = round (total_of "INCOME" rows - total_of "EXPENSE" rows)%float 2.
Proof.
  eexists. split.
  - unfold crud.get_summary, bind, query, ret. cbn beta iota.
    rewrite date_filters_in_range. reflexivity.
  - cbn zeta.
    cbn [schemas.SummaryResponse.total_income schemas.SummaryResponse.total_expenses
         schemas.SummaryResponse.balance schemas.SummaryResponse.transaction_count].
    assert (E : as_returned models.Transaction.transaction_date
                  (truthy start_date || truthy end_date)
                  (rows_in_range (database s) start_date end_date)
                = returned_in_range (database s) start_date end_date)
      by (unfold returned_in_range; now destruct start_date, end_date).
    rewrite E.
    split; [apply returned_in_range_perm|].
    split; [reflexivity|]. split; [reflexivity|].
    split; [|reflexivity].
    apply f_equal, Permutation_length, returned_in_range_perm.
Qed.

(* ===================================================================== *)
(** ** C6 and C9: listing transactions                                   *)
(* ===================================================================== *)




(** C9: a [category_id] of 0 is falsy, so the category filter is skipped:
    the listing is the one obtained with no [category_id] at all, whatever
    the other arguments; in particular, with no other filter and a limit
    that covers the table, every stored transaction is returned, not the
    (empty) set of those of category 0. *)
Theorem get_transactions_category_zero (s : Session) :
  (forall skip limit start_date end_date transaction_type,
     crud.get_transactions skip limit start_date end_date (Some 0) transaction_type s
     = crud.get_transactions skip limit start_date end_date None transaction_type s)
  /\ (forall limit,
        Z.of_nat (List.length (transactions (database s))) <= limit ->
        exists rows,
          crud.get_transactions 0 limit None None (Some 0) None s = (s, Return rows)
          /\ Permutation rows (transactions (database s))).
Proof.
  split; [reflexivity|].
  intros limit Hlimit. eexists. split; [reflexivity|].
  cbn -[crud.order_by_date_desc]. unfold crud.limit_, crud.offset.
  cbn [Z.to_nat skipn].
  destruct (Z.ltb_spec limit 0); [apply order_by_date_desc_perm|].
  rewrite firstn_all2; [apply order_by_date_desc_perm|].
  rewrite (Permutation_length (order_by_date_desc_perm _)). lia.
Qed.

Lemma get_transactions_category_zero_witness :
  exists rows,
    crud.get_transactions 0 3 None None (Some 0) None listing_example
    = (listing_example, Return rows)
    /\ Permutation rows (transactions (database listing_example)).
Proof.
  apply (proj2 (get_transactions_category_zero listing_example) 3).
  simpl. lia.
Defined.

(* ===================================================================== *)
(** ** Facts about the session                                           *)
(* ===================================================================== *)

Lemma next_id_above (ids : list Z) (x : Z) : In x ids -> x < next_id ids.
Proof.
  unfold next_id. induction ids as [|y ids IH]; cbn [fold_right In]; [tauto|].
  intros [->|H]; [lia|]. specialize (IH H). lia.
Qed.

(** After an INSERT, the key just allocated selects the row just written. *)
Lemma find_new_row {R} (key : R -> Z) (rows : list R) (r : R) :
  key r = next_id (map key rows) ->
  find (fun x => key x =? next_id (map key rows)) (rows ++ [r]) = Some r.
Proof.
  intros Hk.
  assert (Hall : forall x, In x rows -> (key x =? next_id (map key rows)) = false).
  { intros x Hin. apply Z.eqb_neq.
    apply (in_map key), next_id_above in Hin. lia. }
  revert Hk Hall. generalize (next_id (map key rows)). intros k Hk Hall.
  induction rows as [|y rows IH]; simpl.
  - now rewrite Hk, Z.eqb_refl.
  - rewrite (Hall y (or_introl eq_refl)). apply IH.
    intros x Hx. apply Hall. now right.
Qed.

Lemma find_existsb {R} (p : R -> bool) (rows : list R) :
  existsb p rows = match find p rows with Some _ => true | None => false end.
Proof.
  induction rows as [|x rows IH]; simpl; [reflexivity|].
  destruct (p x); [reflexivity|exact IH].
Qed.

Lemma find_In_none {R} (p : R -> bool) (rows : list R) :
  (forall r, In r rows -> p r = false) -> find p rows = None.
Proof.
  intros H. destruct (find p rows) as [x|] eqn:E; [|reflexivity].
  apply find_some in E. destruct E as [Hin Hp]. rewrite (H x Hin) in Hp. discriminate.
Qed.

Lemma find_In_some {R} (p : R -> bool) (rows : list R) (r : R) :
  In r rows -> p r = true -> exists x, find p rows = Some x /\ In x rows /\ p x = true.
Proof.
  intros Hin Hp. destruct (find p rows) as [x|] eqn:E.
  - exists x. split; [reflexivity|]. now apply find_some in E.
  - rewrite (find_none _ _ E r Hin) in Hp. discriminate.
Qed.

(** *** Lookups by key *)

Lemma first_by_key_found {R} (table : Tables -> list R) (key : R -> Z) (k : Z)
  (s : Session) (r : R) :
  find (fun x => key x =? k) (table (database s)) = Some r ->
  first_by_key table key k s = (s, Return (Some r)).
Proof. intros E. unfold first_by_key. now rewrite E. Qed.

Lemma first_by_key_absent {R} (table : Tables -> list R) (key : R -> Z) (k : Z)
  (s : Session) :
  (forall r, In r (table (database s)) -> key r <> k) ->
  first_by_key table key k s
  = if fits_int64 k then (s, Return None) else (s, Raise OverflowError).
Proof.
  intros H. unfold first_by_key. rewrite find_In_none; [reflexivity|].
  intros r Hr. apply Z.eqb_neq. now apply H.
Qed.

Lemma first_by_key_In {R} (table : Tables -> list R) (key : R -> Z) (k : Z)
  (s : Session) (r : R) :
  In r (table (database s)) -> key r = k ->
  exists x, first_by_key table key k s = (s, Return (Some x))
            /\ find (fun y => key y =? k) (table (database s)) = Some x
            /\ In x (table (database s)) /\ key x = k.
Proof.
  intros Hin Hk.
  destruct (find_In_some (fun y => key y =? k) (table (database s)) r Hin)
    as (x & E & Hx & Hkx).
  { now apply Z.eqb_eq. }
  exists x. split; [now apply first_by_key_found|].
  split; [exact E|]. split; [exact Hx|now apply Z.eqb_eq].
Qed.

(** A lookup never changes the session, and answers a stored row of the
    key, nothing, or [OverflowError]. *)
Lemma first_by_key_cases {R} (table : Tables -> list R) (key : R -> Z) (k : Z)
  (s : Session) :
  (exists r, first_by_key table key k s = (s, Return (Some r))
             /\ find (fun y => key y =? k) (table (database s)) = Some r)
  \/ (find (fun y => key y =? k) (table (database s)) = None
      /\ fits_int64 k = true
      /\ first_by_key table key k s = (s, Return None))
  \/ (find (fun y => key y =? k) (table (database s)) = None
      /\ fits_int64 k = false
      /\ first_by_key table key k s = (s, Raise OverflowError)).
Proof.
  unfold first_by_key.
  destruct (find (fun y => key y =? k) (table (database s))) as [r|].
  - left. now exists r.
  - right. destruct (fits_int64 k); [left|right]; now repeat split.
Qed.

(* ===================================================================== *)
(** ** C5: the status of a duplicate name and of an unknown category     *)
(* ===================================================================== *)




(* ===================================================================== *)
(** ** C7: registration                                                  *)
(* ===================================================================== *)

(** C7: [create_user] fails with "Username already registered" when the
    username exists, whether or not the email exists too; it fails with
    "Email already registered" when only the email exists; both failures
    leave the session as it was.  When neither exists, and only then, the
    password is hashed (the digest of the 16-character salt followed by the
    password) and the user is appended to the users table. *)
Theorem create_user_spec (sha256_hexdigest : string -> string) (SECRET_KEY : string)
  (s : Session) (username email password : string) (full_name : option string) :
  let register :=
    auth.create_user sha256_hexdigest SECRET_KEY username email password full_name in
  ((exists u, In u (users (database s)) /\ models.User.username u = username) ->
   register s
   = (s, Raise (HTTPException crud.HTTP_400_BAD_REQUEST "Username already registered")))
  /\ ((forall u, In u (users (database s)) -> models.User.username u <> username) ->
      (exists u, In u (users (database s)) /\ models.User.email u = email) ->
      register s
      = (s, Raise (HTTPException crud.HTTP_400_BAD_REQUEST "Email already registered")))
  /\ ((forall u, In u (users (database s)) -> models.User.username u <> username) ->
      (forall u, In u (users (database s)) -> models.User.email u <> email) ->
      fresh s ->
      exists u,
        register s
        = (mkSession
             (mkTables (users (database s) ++ [u]) (categories (database s))
                (transactions (database s)) (budgets (database s)))
             [],
           Return u)
        /\ models.User.username u = username
        /\ models.User.email u = email
        /\ models.User.hashed_password u
           = sha256_hexdigest (substring 0 16 SECRET_KEY ++ password)
        /\ models.User.full_name u = full_name
        /\ models.User.is_active u = true).
Proof.
  cbn zeta. unfold auth.create_user, auth.get_user_by_username,
    auth.get_user_by_email, bind, query. cbn beta iota.
  split; [|split].
  - intros [u [Hin Hu]].
    destruct (find_In_some
                (fun u0 => String.eqb (models.User.username u0) username)
                (users (database s)) u Hin) as [x [-> _]].
    { now apply String.eqb_eq. }
    reflexivity.
  - intros Hname [u [Hin Hu]].
    rewrite find_In_none by (intros u0 H0; apply String.eqb_neq; now apply Hname).
    cbn [truthy truthy_optional].
    destruct (find_In_some
                (fun u0 => String.eqb (models.User.email u0) email)
                (users (database s)) u Hin) as [x [-> _]].
    { now apply String.eqb_eq. }
    reflexivity.
  - intros Hname Hemail Hfresh.
    assert (Fn : find (fun u0 => String.eqb (models.User.username u0) username)
                      (users (database s)) = None)
      by (apply find_In_none; intros u0 H0; apply String.eqb_neq; now apply Hname).
    assert (Fe : find (fun u0 => String.eqb (models.User.email u0) email)
                      (users (database s)) = None)
      by (apply find_In_none; intros u0 H0; apply String.eqb_neq; now apply Hemail).
    rewrite Fn. cbn [truthy truthy_optional]. rewrite Fe. cbn [truthy truthy_optional].
    unfold add, commit, refresh. destruct s as [db uow]. unfold fresh in Hfresh.
    cbn [unit_of_work database] in *. subst uow.
    cbn [app flush flush_one database unit_of_work].
    rewrite !find_existsb, Fn, Fe. cbn [hd database users].
    set (u := models.User.mk (next_id (map models.User.user_id (users db))) username
                email (auth.get_password_hash sha256_hexdigest SECRET_KEY password)
                full_name true).
    exists u.
    rewrite (find_new_row models.User.user_id (users db) u eq_refl).
    repeat split.
Qed.

Lemma create_user_spec_witness :
  auth.create_user (fun x => x) "0123456789abcdefXYZ" "alice" "bob@example.org" "secret1"
    None users_example
  = (users_example,
     Raise (HTTPException crud.HTTP_400_BAD_REQUEST "Username already registered"))
  /\ auth.create_user (fun x => x) "0123456789abcdefXYZ" "bob" "alice@example.org"
       "secret1" None users_example
     = (users_example,
        Raise (HTTPException crud.HTTP_400_BAD_REQUEST "Email already registered"))
  /\ exists u,
       auth.create_user (fun x => x) "0123456789abcdefXYZ" "bob" "bob@example.org"
         "secret1" None users_example
       = (mkSession
            (mkTables (users (database users_example) ++ [u]) [] [] []) [],
          Return u)
       /\ models.User.username u = "bob"
       /\ models.User.email u = "bob@example.org"
       /\ models.User.hashed_password u = "0123456789abcdefsecret1"
       /\ models.User.full_name u = None
       /\ models.User.is_active u = true.
Proof.
  split; [|split].
  - apply (create_user_spec (fun x => x) "0123456789abcdefXYZ" users_example
             "alice" "bob@example.org" "secret1" None).
    eexists. split; [left; reflexivity|reflexivity].
  - apply (create_user_spec (fun x => x) "0123456789abcdefXYZ" users_example
             "bob" "alice@example.org" "secret1" None).
    + intros u [<-|[]]. discriminate.
    + eexists. split; [left; reflexivity|reflexivity].
  - apply (create_user_spec (fun x => x) "0123456789abcdefXYZ" users_example
             "bob" "bob@example.org" "secret1" None).
    + intros u [<-|[]]. discriminate.
    + intros u [<-|[]]. discriminate.
    + reflexivity.
Defined.

(* ===================================================================== *)
(** ** C8: partial update of a transaction                               *)
(* ===================================================================== *)

Lemma find_key_unique {R} (key : R -> Z) (rows : list R) (r : R) :
  NoDup (map key rows) -> In r rows ->
  find (fun x => key x =? key r) rows = Some r.
Proof.
  induction rows as [|y rows IH]; simpl; [tauto|].
  intros Hnd [->|Hin].
  - now rewrite Z.eqb_refl.
  - inversion Hnd as [|? ? Hy Hnd']; subst.
    destruct (Z.eqb_spec (key y) (key r)) as [E|_]; [|now apply IH].
    exfalso. apply Hy. rewrite E. now apply in_map.
Qed.

Lemma find_replace_row {R} (key : R -> Z) (k : Z) (r' : R) (rows : list R) :
  key r' = k -> (exists r, In r rows /\ key r = k) ->
  find (fun x => key x =? k) (replace_row key k r' rows) = Some r'.
Proof.
  intros Hk [r [Hin Hr]]. unfold replace_row.
  induction rows as [|y rows IH]; simpl; [destruct Hin|].
  destruct (Z.eqb_spec (key y) k) as [E|N].
  - now rewrite Hk, Z.eqb_refl.
  - destruct (Z.eqb_spec (key y) k) as [E|_]; [contradiction|].
    destruct Hin as [->|Hin]; [contradiction|now apply IH].
Qed.

Lemma In_replace_row {R} (key : R -> Z) (k : Z) (r' : R) (rows : list R) (x : R) :
  key r' = k -> (exists r, In r rows /\ key r = k) ->
  In x (replace_row key k r' rows) <-> x = r' \/ (In x rows /\ key x <> k).
Proof.
  intros Hk Hex. unfold replace_row. rewrite in_map_iff. split.
  - intros [y [Hy Hin]]. destruct (Z.eqb_spec (key y) k) as [E|N].
    + left. now symmetry.
    + right. subst y. now split.
  - intros [->|[Hin N]].
    + destruct Hex as [r [Hin Hr]]. exists r. split; [|exact Hin].
      now destruct (Z.eqb_spec (key r) k).
    + exists x. split; [|exact Hin]. now destruct (Z.eqb_spec (key x) k).
Qed.

(** What the flush of the staged assignments does, in the words of
    [merged] and [checks_pass]. *)
Lemma flush_setattr_items (db : Tables) (t : models.Transaction.t)
  (u : schemas.TransactionUpdate.t) :
  match merged t u with
  | None => flush_one db (crud.setattr_items t u) = inr "NOT NULL"
  | Some r =>
      if checks_pass r
      then flush_one db (crud.setattr_items t u)
           = inl (mkTables (users db) (categories db)
                    (replace_row models.Transaction.transaction_id
                       (models.Transaction.transaction_id t) r (transactions db))
                    (budgets db),
                  models.Transaction.transaction_id t)
      else exists c, flush_one db (crud.setattr_items t u) = inr c
  end.
Proof.
  destruct u as [a ty d dt c]. unfold merged, crud.setattr_items, checks_pass.
  cbn [schemas.TransactionUpdate.amount schemas.TransactionUpdate.type
       schemas.TransactionUpdate.description schemas.TransactionUpdate.transaction_date
       schemas.TransactionUpdate.category_id].
  destruct a as [[a|]|], ty as [[ty|]|], dt as [[dt|]|], c as [[c|]|];
    cbn [flush_one models.Transaction.amount models.Transaction.type];
    try reflexivity;
    match goal with
    | |- context [PrimFloat.ltb 0 ?x] =>
        destruct (PrimFloat.ltb 0 x); cbn [negb andb];
        [match goal with
         | |- context [is_type ?y] =>
             destruct (is_type y); cbn [negb]; [reflexivity|eexists; reflexivity]
         end
        |eexists; reflexivity]
    end.
Qed.

Lemma update_transaction_found (db : Tables) (transaction_id : Z)
  (u : schemas.TransactionUpdate.t) (t : models.Transaction.t) :
  find (fun r => models.Transaction.transaction_id r =? transaction_id)
       (transactions db) = Some t ->
  crud.update_transaction transaction_id u (mkSession db [])
  = if negb (category_resolves db u)
    then if category_fits u
         then (mkSession db [],
               Raise (HTTPException crud.HTTP_400_BAD_REQUEST
                        ("Category with ID "
                           ++ crud.str_optional_int
                                (match schemas.TransactionUpdate.category_id u with
                                 | Some v => v
                                 | None => None
                                 end)
                           ++ " not found")))
         else (mkSession db [], Raise OverflowError)
    else match flush_one db (crud.setattr_items t u) with
         | inl (db', _) =>
             refresh transactions models.Transaction.transaction_id
               (models.Transaction.transaction_id t) (mkSession db' [])
         | inr c =>
             (mkSession db [],
              Raise (HTTPException crud.HTTP_400_BAD_REQUEST ("Database error: " ++ c)))
         end.
Proof.
  intros Hfind.
  unfold crud.update_transaction, crud.get_transaction, bind at 1.
  rewrite (first_by_key_found transactions models.Transaction.transaction_id
             transaction_id (mkSession db []) t Hfind).
  unfold crud.get_category, first_by_key, category_resolves, category_fits,
    bind, query, ret, raise.
  destruct (schemas.TransactionUpdate.category_id u) as [[c|]|];
    cbn [database unit_of_work];
    [rewrite find_existsb; destruct (find _ (categories db));
     [|destruct (fits_int64 c)]| |];
    cbn [truthy truthy_optional truthy_Category negb]; try reflexivity;
    unfold add, try_except_IntegrityError, commit, rollback, refresh;
    cbn [database unit_of_work app flush];
    (destruct (flush_one db (crud.setattr_items t u)) as [[db' k]|e];
     cbn [database];
     [destruct (find _ (transactions db')); reflexivity|reflexivity]).
Qed.

Lemma merged_fields (t : models.Transaction.t) (u : schemas.TransactionUpdate.t)
  (t' : models.Transaction.t) :
  merged t u = Some t' -> retains_unsupplied t u t' /\ takes_supplied u t'.
Proof.
  destruct u as [a ty d dt c]. unfold merged, retains_unsupplied, takes_supplied.
  cbn [schemas.TransactionUpdate.amount schemas.TransactionUpdate.type
       schemas.TransactionUpdate.description schemas.TransactionUpdate.transaction_date
       schemas.TransactionUpdate.category_id].
  destruct a as [[a|]|], ty as [[ty|]|], dt as [[dt|]|], c as [[c|]|];
    try discriminate; intros [= <-]; cbn;
    repeat split; try discriminate; try reflexivity;
    try (intros x [= <-]; reflexivity); destruct d; intros; congruence.
Qed.



(** The tables of [listing_example] satisfy their key constraints. *)
Lemma listing_example_constraints : constraints_hold (database listing_example).
Proof. constructor; cbn; solve_NoDup. Qed.


(* ===================================================================== *)
(** ** The key constraints are an invariant of every write               *)
(* ===================================================================== *)

Lemma NoDup_snoc {A} (l : list A) (x : A) : NoDup l -> ~ In x l -> NoDup (l ++ [x]).
Proof.
  intros Hl Hx. apply NoDup_app; [exact Hl|repeat constructor; intros []|].
  intros y Hy [<-|[]]. contradiction.
Qed.

Lemma NoDup_new_key {R} (key : R -> Z) (rows : list R) (r : R) :
  NoDup (map key rows) -> key r = next_id (map key rows) ->
  NoDup (map key (rows ++ [r])).
Proof.
  intros Hnd Hk. rewrite map_app. apply NoDup_snoc; [exact Hnd|].
  intros Hin. apply next_id_above in Hin. lia.
Qed.

Lemma NoDup_new_string {R} (f : R -> string) (rows : list R) (r : R) :
  NoDup (map f rows) ->
  existsb (fun x => String.eqb (f x) (f r)) rows = false ->
  NoDup (map f (rows ++ [r])).
Proof.
  intros Hnd Hex. rewrite map_app. apply NoDup_snoc; [exact Hnd|].
  intros Hin. apply in_map_iff in Hin. destruct Hin as [x [Hx Hin]].
  assert (E : existsb (fun x => String.eqb (f x) (f r)) rows = true)
    by (apply existsb_exists; exists x; split; [exact Hin|now apply String.eqb_eq]).
  congruence.
Qed.

Lemma NoDup_new_int {R} (f : R -> Z) (rows : list R) (r : R) :
  NoDup (map f rows) ->
  existsb (fun x => f x =? f r) rows = false ->
  NoDup (map f (rows ++ [r])).
Proof.
  intros Hnd Hex. rewrite map_app. apply NoDup_snoc; [exact Hnd|].
  intros Hin. apply in_map_iff in Hin. destruct Hin as [x [Hx Hin]].
  assert (E : existsb (fun x => f x =? f r) rows = true)
    by (apply existsb_exists; exists x; split; [exact Hin|now apply Z.eqb_eq]).
  congruence.
Qed.

(** Rewriting rows in place keeps a column that the rewrite preserves. *)
Lemma map_rewrite_rows {R B} (f : R -> B) (g : R -> R) (rows : list R) :
  (forall r, f (g r) = f r) -> map f (map g rows) = map f rows.
Proof.
  intros H. rewrite map_map. apply map_ext. exact H.
Qed.

Lemma flush_one_constraints (t t' : Tables) (p : pending) (k : Z) :
  constraints_hold t -> flush_one t p = inl (t', k) -> constraints_hold t'.
Proof.
  intros [U1 U2 U3 C1 C2 T1 B1 B2]. destruct p; cbn [flush_one].
  - destruct (existsb _ (users t)) eqn:E1; [discriminate|].
    destruct (existsb (fun r => String.eqb (models.User.email r) email) (users t)) eqn:E2;
      [discriminate|].
    intros [= <- _]. constructor; cbn [users categories transactions budgets]; try assumption.
    + now apply NoDup_new_key.
    + now apply NoDup_new_string.
    + now apply NoDup_new_string.
  - destruct (existsb _ (categories t)) eqn:E1; [discriminate|].
    destruct (negb (is_type type)); [discriminate|].
    intros [= <- _]. constructor; cbn [users categories transactions budgets]; try assumption.
    + now apply NoDup_new_key.
    + now apply NoDup_new_string.
  - destruct (negb (0 <? amount)%float); [discriminate|].
    destruct (negb (is_type type)); [discriminate|].
    intros [= <- _]. constructor; cbn [users categories transactions budgets]; try assumption.
    now apply NoDup_new_key.
  - destruct (existsb _ (budgets t)) eqn:E1; [discriminate|].
    destruct (negb (0 <? amount)%float); [discriminate|].
    intros [= <- _]. constructor; cbn [users categories transactions budgets]; try assumption.
    + now apply NoDup_new_key.
    + now apply NoDup_new_int.
  - destruct amount as [a|]; [|discriminate].
    destruct type as [ty|]; [|discriminate].
    destruct transaction_date as [dt|]; [|discriminate].
    destruct category_id as [c|]; [|discriminate].
    destruct (negb (0 <? a)%float); [discriminate|].
    destruct (negb (is_type ty)); [discriminate|].
    intros [= <- _]. constructor; cbn [users categories transactions budgets]; try assumption.
    unfold replace_row. rewrite map_map.
    erewrite map_ext; [exact T1|].
    intros r. cbn beta.
    destruct (Z.eqb_spec (models.Transaction.transaction_id r) transaction_id);
      [now cbn|reflexivity].
  - destruct (negb (0 <? amount)%float); [discriminate|].
    intros [= <- _]. constructor; cbn [users categories transactions budgets]; try assumption.
    + rewrite map_rewrite_rows; [exact B1|].
      intros r. destruct (Z.eqb_spec (models.Budget.budget_id r) budget_id);
        [now cbn|reflexivity].
    + rewrite map_rewrite_rows; [exact B2|].
      intros r. destruct (models.Budget.budget_id r =? budget_id); reflexivity.
Qed.

Lemma flush_constraints (ps : list pending) (t t' : Tables) (ks : list Z) :
  constraints_hold t -> flush t ps = inl (t', ks) -> constraints_hold t'.
Proof.
  revert t t' ks. induction ps as [|p ps IH]; intros t t' ks Hc; cbn [flush].
  - now intros [= <- _].
  - destruct (flush_one t p) as [[t1 k]|c] eqn:E1; [|discriminate].
    destruct (flush t1 ps) as [[t2 ks']|c] eqn:E2; [|discriminate].
    intros [= <- _]. eapply IH; [|exact E2]. eapply flush_one_constraints; eassumption.
Qed.

(** [commit] is the only operation that changes the committed tables, and
    it keeps their key constraints. *)
Lemma commit_constraints (s s' : Session) (o : outcome (list Z)) :
  constraints_hold (database s) -> commit s = (s', o) -> constraints_hold (database s').
Proof.
  unfold commit. intros Hc.
  destruct (flush (database s) (unit_of_work s)) as [[t' ks]|c] eqn:E.
  - intros [= <- _]. cbn. eapply flush_constraints; eassumption.
  - now intros [= <- _].
Qed.

(* ===================================================================== *)
(** ** C4: the budget upsert                                             *)
(* ===================================================================== *)

Lemma key_injective {R} (key : R -> Z) (rows : list R) (x y : R) :
  NoDup (map key rows) -> In x rows -> In y rows -> key x = key y -> x = y.
Proof.
  induction rows as [|z rows IH]; cbn [map In]; [tauto|].
  intros Hnd Hx Hy E. inversion Hnd as [|? ? Hz Hnd']; subst.
  destruct Hx as [->|Hx], Hy as [->|Hy].
  - reflexivity.
  - exfalso. apply Hz. rewrite E. now apply in_map.
  - exfalso. apply Hz. rewrite <- E. now apply in_map.
  - now apply IH.
Qed.

Lemma find_set_budget (rows : list models.Budget.t) (e : models.Budget.t)
  (a : float) (p : string) :
  NoDup (map models.Budget.budget_id rows) -> In e rows ->
  find (fun r => models.Budget.budget_id r =? models.Budget.budget_id e)
       (map (set_budget (models.Budget.budget_id e) a p) rows)
  = Some (models.Budget.mk (models.Budget.budget_id e)
            (models.Budget.category_id e) a p).
Proof.
  intros Hnd Hin.
  induction rows as [|x rows IH]; cbn [map find]; [destruct Hin|].
  destruct (Z.eqb_spec (models.Budget.budget_id x) (models.Budget.budget_id e)) as [E|N].
  - assert (x = e) as ->
      by exact (key_injective models.Budget.budget_id (x :: rows) x e Hnd
                  (or_introl eq_refl) Hin E).
    assert (S : set_budget (models.Budget.budget_id e) a p e
                = models.Budget.mk (models.Budget.budget_id e)
                    (models.Budget.category_id e) a p)
      by (unfold set_budget; now rewrite Z.eqb_refl).
    rewrite S. cbn [models.Budget.budget_id]. now rewrite Z.eqb_refl.
  - assert (S : set_budget (models.Budget.budget_id e) a p x = x).
    { unfold set_budget.
      now destruct (Z.eqb_spec (models.Budget.budget_id x) (models.Budget.budget_id e)). }
    rewrite S.
    destruct (Z.eqb_spec (models.Budget.budget_id x) (models.Budget.budget_id e));
      [contradiction|].
    destruct Hin as [->|Hin]; [contradiction|].
    inversion Hnd; subst. now apply IH.
Qed.

Lemma In_set_budget (rows : list models.Budget.t) (e : models.Budget.t)
  (a : float) (p : string) :
  In e rows ->
  In (models.Budget.mk (models.Budget.budget_id e) (models.Budget.category_id e) a p)
     (map (set_budget (models.Budget.budget_id e) a p) rows).
Proof.
  intros Hin. apply in_map_iff. exists e. split; [|exact Hin].
  unfold set_budget. now rewrite Z.eqb_refl.
Qed.

(** Writing to a row the values it already has changes nothing. *)
Lemma set_budget_same (rows : list models.Budget.t) (e : models.Budget.t) :
  NoDup (map models.Budget.budget_id rows) -> In e rows ->
  map (set_budget (models.Budget.budget_id e) (models.Budget.amount e)
         (models.Budget.period e)) rows = rows.
Proof.
  intros Hnd Hin. rewrite <- (map_id rows) at 2. apply map_ext_in.
  intros x Hx. unfold set_budget.
  destruct (Z.eqb_spec (models.Budget.budget_id x) (models.Budget.budget_id e)) as [E|N];
    [|reflexivity].
  rewrite (key_injective models.Budget.budget_id rows x e Hnd Hx Hin E).
  now destruct e.
Qed.

Lemma filter_unique {R} (key : R -> Z) (rows : list R) (r : R) :
  NoDup (map key rows) -> In r rows ->
  filter (fun x => key x =? key r) rows = [r].
Proof.
  induction rows as [|y rows IH]; cbn [map In filter]; [tauto|].
  intros Hnd Hin. inversion Hnd as [|? ? Hy Hnd']; subst.
  destruct (Z.eqb_spec (key y) (key r)) as [E|N].
  - assert (y = r) as ->.
    { apply (key_injective key (y :: rows)); cbn; auto. }
    f_equal.
    clear IH Hin E Hnd. induction rows as [|z rows IH]; [reflexivity|].
    cbn [filter]. destruct (Z.eqb_spec (key z) (key r)) as [E|_].
    + exfalso. apply Hy. rewrite <- E. cbn. now left.
    + inversion Hnd'; subst. apply IH; [|assumption].
      intros H. apply Hy. cbn. now right.
  - destruct Hin as [->|Hin]; [contradiction|now apply IH].
Qed.

(** The session commands of the update branch and of the insert branch. *)
Lemma budget_update_branch (db : Tables) (b : schemas.BudgetCreate.t)
  (cat : models.Category.t) (e : models.Budget.t) :
  constraints_hold db ->
  In cat (categories db) ->
  models.Category.category_id cat = schemas.BudgetCreate.category_id b ->
  models.Category.type cat = "EXPENSE" ->
  (0 <? schemas.BudgetCreate.amount b)%float = true ->
  In e (budgets db) ->
  models.Budget.category_id e = schemas.BudgetCreate.category_id b ->
  crud.create_or_update_budget b (mkSession db [])
  = (mkSession
       (mkTables (users db) (categories db) (transactions db)
          (map (set_budget (models.Budget.budget_id e) (schemas.BudgetCreate.amount b)
                  (schemas.BudgetCreate.period b)) (budgets db)))
       [],
     Return (models.Budget.mk (models.Budget.budget_id e) (models.Budget.category_id e)
               (schemas.BudgetCreate.amount b) (schemas.BudgetCreate.period b))).
Proof.
  intros Hc Hcat Hid Hty Hamt He Hec.
  unfold crud.create_or_update_budget, crud.get_category, first_by_key, bind, query.
  cbn [database].
  pose proof (find_key_unique models.Category.category_id (categories db) cat
                (categories_pk _ Hc) Hcat) as Fc.
  rewrite Hid in Fc. rewrite Fc, Hty, String.eqb_refl. cbn [negb database].
  pose proof (find_key_unique models.Budget.category_id (budgets db) e
                (budgets_category_id _ Hc) He) as Fb.
  rewrite Hec in Fb. rewrite Fb.
  unfold add, commit, refresh.
  cbn [database unit_of_work app flush flush_one]. rewrite Hamt. cbn [negb].
  cbn [database budgets].
  fold (set_budget (models.Budget.budget_id e) (schemas.BudgetCreate.amount b)
          (schemas.BudgetCreate.period b)).
  rewrite (find_set_budget (budgets db) e _ _ (budgets_pk _ Hc) He).
  reflexivity.
Qed.

Lemma budget_insert_branch (db : Tables) (b : schemas.BudgetCreate.t)
  (cat : models.Category.t) :
  constraints_hold db ->
  In cat (categories db) ->
  models.Category.category_id cat = schemas.BudgetCreate.category_id b ->
  models.Category.type cat = "EXPENSE" ->
  (0 <? schemas.BudgetCreate.amount b)%float = true ->
  (forall e, In e (budgets db) ->
             models.Budget.category_id e <> schemas.BudgetCreate.category_id b) ->
  let r := models.Budget.mk (next_id (map models.Budget.budget_id (budgets db)))
             (schemas.BudgetCreate.category_id b) (schemas.BudgetCreate.amount b)
             (schemas.BudgetCreate.period b) in
  crud.create_or_update_budget b (mkSession db [])
  = (mkSession
       (mkTables (users db) (categories db) (transactions db) (budgets db ++ [r])) [],
     Return r).
Proof.
  intros Hc Hcat Hid Hty Hamt Hnone r.
  unfold crud.create_or_update_budget, crud.get_category, first_by_key, bind, query.
  cbn [database].
  pose proof (find_key_unique models.Category.category_id (categories db) cat
                (categories_pk _ Hc) Hcat) as Fc.
  rewrite Hid in Fc. rewrite Fc, Hty, String.eqb_refl. cbn [negb database].
  assert (Fb : find (fun b0 => models.Budget.category_id b0
                               =? schemas.BudgetCreate.category_id b) (budgets db)
               = None)
    by (apply find_In_none; intros e He; apply Z.eqb_neq; now apply Hnone).
  rewrite Fb.
  unfold try_except_IntegrityError, add, commit, refresh.
  cbn [database unit_of_work app flush flush_one].
  rewrite find_existsb, Fb, Hamt. cbn [negb hd database budgets].
  fold r.
  rewrite (find_new_row models.Budget.budget_id (budgets db) r eq_refl).
  reflexivity.
Qed.

(** A call for a category that already has the budget row [e]. *)
Lemma budget_update_outcome (db : Tables) (b : schemas.BudgetCreate.t)
  (cat : models.Category.t) (e : models.Budget.t) :
  constraints_hold db ->
  In cat (categories db) ->
  models.Category.category_id cat = schemas.BudgetCreate.category_id b ->
  models.Category.type cat = "EXPENSE" ->
  (0 <? schemas.BudgetCreate.amount b)%float = true ->
  In e (budgets db) ->
  models.Budget.category_id e = schemas.BudgetCreate.category_id b ->
  exists s' r,
    crud.create_or_update_budget b (mkSession db []) = (s', Return r)
    /\ fresh s'
    /\ constraints_hold (database s')
    /\ categories (database s') = categories db
    /\ filter (fun x => models.Budget.category_id x
                        =? schemas.BudgetCreate.category_id b)
              (budgets (database s')) = [r]
    /\ models.Budget.amount r = schemas.BudgetCreate.amount b
    /\ models.Budget.period r = schemas.BudgetCreate.period b
    /\ models.Budget.budget_id r = models.Budget.budget_id e
    /\ (schemas.BudgetCreate.amount b = models.Budget.amount e ->
        schemas.BudgetCreate.period b = models.Budget.period e ->
        s' = mkSession db []).
Proof.
  intros Hc Hcat Hid Hty Hamt He Hec.
  do 2 eexists. split; [now apply (budget_update_branch db b cat e)|].
  cbn [database unit_of_work categories budgets
       models.Budget.amount models.Budget.period models.Budget.budget_id].
  assert (Hc' : constraints_hold
                  (mkTables (users db) (categories db) (transactions db)
                     (map (set_budget (models.Budget.budget_id e)
                             (schemas.BudgetCreate.amount b)
                             (schemas.BudgetCreate.period b)) (budgets db)))).
  { apply (flush_one_constraints db _
             (dirty_Budget (models.Budget.budget_id e) (schemas.BudgetCreate.amount b)
                (schemas.BudgetCreate.period b)) (models.Budget.budget_id e) Hc).
    cbn [flush_one]. rewrite Hamt. reflexivity. }
  split; [reflexivity|]. split; [exact Hc'|]. split; [reflexivity|].
  split; [|repeat split].
  - rewrite <- Hec.
    apply (filter_unique models.Budget.category_id _
             (models.Budget.mk (models.Budget.budget_id e) (models.Budget.category_id e)
                (schemas.BudgetCreate.amount b) (schemas.BudgetCreate.period b))).
    + exact (budgets_category_id _ Hc').
    + now apply In_set_budget.
  - intros -> ->. now rewrite (set_budget_same (budgets db) e (budgets_pk _ Hc) He);
      destruct db.
Qed.

(** C4: in a fresh session over tables that satisfy their key constraints,
    for a category that exists and is of type EXPENSE and two validated
    budget bodies (amount > 0) for it, the first call succeeds, the second
    call succeeds too, and after it exactly one budget row has that
    category: it carries the second call's amount and period and the id the
    first call returned.  When the second body repeats the first one's
    amount and period, the second call leaves the session the first call
    left. *)
Theorem create_or_update_budget_twice (s : Session)
  (b1 b2 : schemas.BudgetCreate.t) (cat : models.Category.t) :
  fresh s ->
  constraints_hold (database s) ->
  In cat (categories (database s)) ->
  models.Category.category_id cat = schemas.BudgetCreate.category_id b1 ->
  models.Category.type cat = "EXPENSE" ->
  schemas.BudgetCreate.category_id b2 = schemas.BudgetCreate.category_id b1 ->
  (0 <? schemas.BudgetCreate.amount b1)%float = true ->
  (0 <? schemas.BudgetCreate.amount b2)%float = true ->
  exists s1 r1 s2 r2,
    crud.create_or_update_budget b1 s = (s1, Return r1)
    /\ crud.create_or_update_budget b2 s1 = (s2, Return r2)
    /\ filter (fun x => models.Budget.category_id x
                        =? schemas.BudgetCreate.category_id b1)
              (budgets (database s2)) = [r2]
    /\ models.Budget.amount r2 = schemas.BudgetCreate.amount b2
    /\ models.Budget.period r2 = schemas.BudgetCreate.period b2
    /\ models.Budget.budget_id r2 = models.Budget.budget_id r1
    /\ (schemas.BudgetCreate.amount b2 = schemas.BudgetCreate.amount b1 ->
        schemas.BudgetCreate.period b2 = schemas.BudgetCreate.period b1 ->
        s2 = s1).
Proof.
  destruct s as [db uow]. unfold fresh. cbn [database unit_of_work].
  intros -> Hc Hcat Hid Hty Hb2 Hamt1 Hamt2.
  (* the first call, and the row [r1] it leaves for the category *)
  assert (First : exists db1 r1,
            crud.create_or_update_budget b1 (mkSession db []) = (mkSession db1 [], Return r1)
            /\ constraints_hold db1
            /\ categories db1 = categories db
            /\ In r1 (budgets db1)
            /\ models.Budget.category_id r1 = schemas.BudgetCreate.category_id b1
            /\ models.Budget.amount r1 = schemas.BudgetCreate.amount b1
            /\ models.Budget.period r1 = schemas.BudgetCreate.period b1).
  { destruct (find (fun x => models.Budget.category_id x
                             =? schemas.BudgetCreate.category_id b1) (budgets db))
      as [e|] eqn:Fb.
    - apply find_some in Fb. destruct Fb as [He Hec]. apply Z.eqb_eq in Hec.
      do 2 eexists. split; [now apply (budget_update_branch db b1 cat e)|].
      split; [|split; [reflexivity|split; [now apply In_set_budget|now repeat split]]].
      apply (flush_one_constraints db _
               (dirty_Budget (models.Budget.budget_id e) (schemas.BudgetCreate.amount b1)
                  (schemas.BudgetCreate.period b1)) (models.Budget.budget_id e) Hc).
      cbn [flush_one]. rewrite Hamt1. reflexivity.
    - assert (Hnone : forall e, In e (budgets db) ->
                models.Budget.category_id e <> schemas.BudgetCreate.category_id b1).
      { intros e He. apply Z.eqb_neq. exact (find_none _ _ Fb e He). }
      do 2 eexists. split; [now apply (budget_insert_branch db b1 cat)|].
      split; [|split; [reflexivity|split; [apply in_or_app; right; now left
                                          |now repeat split]]].
      apply (flush_one_constraints db _
               (new_Budget (schemas.BudgetCreate.category_id b1)
                  (schemas.BudgetCreate.amount b1) (schemas.BudgetCreate.period b1))
               (next_id (map models.Budget.budget_id (budgets db))) Hc).
      cbn [flush_one]. rewrite find_existsb, Fb, Hamt1. reflexivity. }
  destruct First as (db1 & r1 & E1 & Hc1 & Hcats & Hr1 & Hr1c & Hr1a & Hr1p).
  rewrite <- Hcats in Hcat. rewrite <- Hb2 in Hid, Hr1c.
  destruct (budget_update_outcome db1 b2 cat r1 Hc1 Hcat Hid Hty Hamt2 Hr1 Hr1c)
    as (s2 & r2 & E2 & _ & _ & _ & Hfilter & Ha & Hp & Hk & Hsame).
  exists (mkSession db1 []), r1, s2, r2.
  rewrite <- Hb2. repeat split; try assumption.
  intros Ea Ep. apply Hsame; congruence.
Qed.

Lemma create_or_update_budget_twice_witness :
  exists s1 r1 s2 r2,
    crud.create_or_update_budget (schemas.BudgetCreate.mk 2 500%float "MONTHLY")
      listing_example = (s1, Return r1)
    /\ crud.create_or_update_budget (schemas.BudgetCreate.mk 2 650%float "WEEKLY") s1
       = (s2, Return r2)
    /\ filter (fun x => models.Budget.category_id x =? 2) (budgets (database s2)) = [r2]
    /\ models.Budget.amount r2 = 650%float
    /\ models.Budget.period r2 = "WEEKLY"
    /\ models.Budget.budget_id r2 = models.Budget.budget_id r1
    /\ (650%float = 500%float -> "WEEKLY" = "MONTHLY" -> s2 = s1).
Proof.
  apply (create_or_update_budget_twice listing_example
           (schemas.BudgetCreate.mk 2 500%float "MONTHLY")
           (schemas.BudgetCreate.mk 2 650%float "WEEKLY")
           (models.Category.mk 2 "Rent" "EXPENSE")).
  - reflexivity.
  - exact listing_example_constraints.
  - cbn. tauto.
  - reflexivity.
  - reflexivity.
  - reflexivity.
  - reflexivity.
  - reflexivity.
Defined.

(* ===================================================================== *)
(** ** Computations that only read                                       *)
(* ===================================================================== *)

Lemma reads_for_each {A B} (xs : list A) (body : A -> M B) (f : A -> Tables -> B) :
  (forall x, In x xs -> reads (body x) (f x)) ->
  reads (for_each xs body) (fun t => map (fun x => f x t) xs).
Proof.
  induction xs as [|x xs IH]; intros H s; cbn [for_each map].
  - reflexivity.
  - unfold bind. rewrite (H x (or_introl eq_refl)).
    rewrite IH by (intros y Hy; apply H; now right). reflexivity.
Qed.

(* ===================================================================== *)
(** ** C2 and C10: budgets with their spending status                    *)
(* ===================================================================== *)

Lemma for_each_returns {A B} (xs : list A) (body : A -> M B) (f : A -> B)
  (s : Session) :
  (forall x, In x xs -> body x s = (s, Return (f x))) ->
  for_each xs body s = (s, Return (map f xs)).
Proof.
  induction xs as [|x xs IH]; intros H; cbn [for_each map].
  - reflexivity.
  - unfold bind. rewrite (H x (or_introl eq_refl)).
    rewrite IH by (intros y Hy; apply H; now right). reflexivity.
Qed.

(** One turn of the loop only reads, provided the driver binds the
    category id of the budget row. *)
Lemma budget_status_returns (start_date end_date : date) (budget : models.Budget.t)
  (s : Session) :
  fits_int64 (models.Budget.category_id budget) = true
  \/ (exists c, In c (categories (database s))
                /\ models.Category.category_id c = models.Budget.category_id budget) ->
  crud.budget_status start_date end_date budget s
  = (s, Return (budget_status_of start_date end_date budget (database s))).
Proof.
  intros Hfit. unfold crud.budget_status, crud.get_category, first_by_key,
    budget_status_of, bind, query, ret, as_returned.
  destruct (find _ (categories (database s))) eqn:E; [reflexivity|].
  destruct Hfit as [->|(c & Hc & Hid)]; [reflexivity|].
  apply Z.eqb_eq in Hid. now rewrite (find_none _ _ E c Hc) in Hid.
Qed.

Lemma budget_status_of_spec (t : Tables) (start_date end_date : date)
  (budget : models.Budget.t) :
  status_of t start_date end_date budget
    (budget_status_of start_date end_date budget t).
Proof.
  unfold status_of, budget_status_of. cbn zeta.
  cbn [schemas.BudgetStatus.budget_id schemas.BudgetStatus.category_id
       schemas.BudgetStatus.budget_amount schemas.BudgetStatus.spent_amount
       schemas.BudgetStatus.remaining schemas.BudgetStatus.percentage_used
       schemas.BudgetStatus.is_over_budget].
  assert (E : filter (fun r =>
                        (models.Transaction.category_id r
                         =? models.Budget.category_id budget)
                        && date_geb (models.Transaction.transaction_date r) start_date
                        && date_leb (models.Transaction.transaction_date r) end_date)
                     (transactions t)
              = filter (fun r =>
                          (models.Transaction.category_id r
                           =? models.Budget.category_id budget)
                          && in_range (Some start_date) (Some end_date)
                               (models.Transaction.transaction_date r))
                       (transactions t)).
  { apply filter_ext. intros r. unfold in_range, date_geb. now rewrite andb_assoc. }
  rewrite E.
  fold (spent_rows t (models.Budget.category_id budget) start_date end_date).
  fold (spent_total t (models.Budget.category_id budget) start_date end_date).
  do 5 (split; [reflexivity|]).
  split; [intros ->; reflexivity|].
  split; [intros ->; reflexivity|reflexivity].
Qed.

(** Over the range [lo .. hi] that [default_range] answers, the listing is
    the loop body mapped over the budget rows, and the session is left as
    it is. *)
Lemma get_budgets_with_status_returns (today : date)
  (start_date end_date : option date) (lo hi : date) (s : Session) :
  budget_references_fit (database s) ->
  crud.default_range today start_date end_date s = (s, Return (lo, hi)) ->
  crud.get_budgets_with_status today start_date end_date s
  = (s, Return (map (fun b => budget_status_of lo hi b (database s))
                    (budgets (database s)))).
Proof.
  intros Hfit Hrange.
  unfold crud.get_budgets_with_status, bind, query. rewrite Hrange. cbn [fst snd].
  apply for_each_returns. intros b Hb. apply budget_status_returns, Hfit, Hb.
Qed.

Lemma statuses_of_budgets (t : Tables) (lo hi : date) (bs : list models.Budget.t) :
  Forall2 (status_of t lo hi) bs (map (fun b => budget_status_of lo hi b t) bs).
Proof.
  induction bs as [|b bs IH]; cbn [map]; constructor; [|exact IH].
  apply budget_status_of_spec.
Qed.


(** The two worked cases of a budget of 10000. *)
Lemma status_of_ten_thousand (t : Tables) (start_date end_date : date)
  (budget : models.Budget.t) (st : schemas.BudgetStatus.t) :
  status_of t start_date end_date budget st ->
  models.Budget.amount budget = 10000%float ->
  (spent_total t (models.Budget.category_id budget) start_date end_date = 4500%float ->
   schemas.BudgetStatus.spent_amount st = 4500%float
   /\ schemas.BudgetStatus.remaining st = 5500%float
   /\ schemas.BudgetStatus.percentage_used st = 45%float
   /\ schemas.BudgetStatus.is_over_budget st = false)
  /\ (spent_total t (models.Budget.category_id budget) start_date end_date
      = 12000%float ->
      schemas.BudgetStatus.is_over_budget st = true
      /\ schemas.BudgetStatus.remaining st = (-2000)%float).
Proof.
  unfold status_of. cbn zeta.
  intros (_ & _ & _ & Hs & Hr & Hp & _ & Ho) Ha.
  rewrite Ha in Hr, Hp, Ho. specialize (Hp eq_refl).
  split; intros Hsp; rewrite Hsp in Hs, Hr, Hp, Ho.
  - rewrite Hs, Hr, Hp, Ho. repeat split.
  - rewrite Hr, Ho. split; reflexivity.
Qed.


(** The budget rows of [ten_thousand_example] reference categories 2 and 3. *)
Lemma ten_thousand_example_fits : budget_references_fit (database ten_thousand_example).
Proof. intros b [<-|[<-|[]]]; left; reflexivity. Qed.


(** Within the range of years, the first and the last day of a month are dates. *)
Lemma month_bounds_are_dates (y m : Z) :
  MINYEAR <= y <= MAXYEAR -> 1 <= m <= 12 ->
  exists last,
    monthrange y m = Some last
    /\ 28 <= last <= 31
    /\ date_new y m 1 = Some (mkdate y m 1)
    /\ date_new y m last = Some (mkdate y m last).
Proof.
  intros Hy Hm. unfold date_new, monthrange.
  assert (E1 : (MINYEAR <=? y) && (y <=? MAXYEAR) = true)
    by (apply andb_true_iff; rewrite !Z.leb_le; exact Hy).
  assert (E2 : (1 <=? m) && (m <=? 12) = true)
    by (apply andb_true_iff; rewrite !Z.leb_le; exact Hm).
  rewrite E1, E2. eexists. split; [reflexivity|].
  set (last := nth (Z.to_nat m) mdays 0 + (if (m =? 2) && isleap y then 1 else 0)).
  assert (Hl : 28 <= last <= 31).
  { unfold last.
    assert (Hc : m = 1 \/ m = 2 \/ m = 3 \/ m = 4 \/ m = 5 \/ m = 6 \/ m = 7
                 \/ m = 8 \/ m = 9 \/ m = 10 \/ m = 11 \/ m = 12) by lia.
    destruct (isleap y);
      repeat (destruct Hc as [Hc | Hc]; [rewrite Hc; vm_compute; split; discriminate|]);
      rewrite Hc; vm_compute; split; discriminate. }
  split; [exact Hl|].
  assert (E3 : (1 <=? 1) && (1 <=? last) = true)
    by (apply andb_true_iff; rewrite !Z.leb_le; lia).
  assert (E4 : (1 <=? last) && (last <=? last) = true)
    by (apply andb_true_iff; rewrite !Z.leb_le; lia).
  rewrite E3, E4. split; reflexivity.
Qed.

Lemma is_date_fields (d : date) :
  is_date d ->
  MINYEAR <= year d <= MAXYEAR
  /\ 1 <= month d <= 12
  /\ exists last, monthrange (year d) (month d) = Some last
                  /\ 28 <= last <= 31 /\ 1 <= day d <= last.
Proof.
  unfold is_date, date_new.
  destruct ((MINYEAR <=? year d) && (year d <=? MAXYEAR)) eqn:Ey; [|discriminate].
  destruct (monthrange (year d) (month d)) as [last|] eqn:Em; [|discriminate].
  destruct ((1 <=? day d) && (day d <=? last)) eqn:Ed; [|discriminate].
  intros _. apply andb_true_iff in Ey, Ed.
  rewrite !Z.leb_le in Ey, Ed. split; [exact Ey|].
  assert (Hm : 1 <= month d <= 12).
  { unfold monthrange in Em.
    destruct ((1 <=? month d) && (month d <=? 12)) eqn:Emo; [|discriminate].
    apply andb_true_iff in Emo. now rewrite !Z.leb_le in Emo. }
  split; [exact Hm|].
  destruct (month_bounds_are_dates (year d) (month d) Ey Hm) as (l & El & Hl & _).
  exists last. split; [reflexivity|]. split; [|exact Ed]. congruence.
Qed.

(** The range [default_range] answers for a date [today]. *)
Lemma default_range_spec (today : date) (start_date end_date : option date)
  (s : Session) :
  is_date today ->
  crud.default_range today start_date end_date s
  = (s, Return (match start_date with Some d => d | None => month_first today end,
                match end_date with Some d => d | None => month_last today end))
  /\ is_date (month_first today)
  /\ is_date (month_last today)
  /\ (forall d, is_date d ->
        (date_leb (month_first today) d = true /\ date_leb d (month_last today) = true
         <-> year d = year today /\ month d = month today)).
Proof.
  intros Ht.
  destruct (is_date_fields today Ht) as (Hy & Hm & last & El & Hl & Hd).
  destruct (month_bounds_are_dates (year today) (month today) Hy Hm)
    as (last' & El' & _ & Efirst & Elast).
  assert (last' = last) as -> by congruence.
  assert (Hlast : month_last today = mkdate (year today) (month today) last)
    by (unfold month_last; now rewrite El).
  split; [|split; [exact Efirst|split; [rewrite Hlast; exact Elast|]]].
  - unfold crud.default_range, bind, crud.or_ValueError, ret.
    destruct start_date, end_date; rewrite ?Efirst, ?El, ?Elast, ?Hlast; reflexivity.
  - intros d Hdate.
    destruct (is_date_fields d Hdate) as (_ & _ & ld & Eld & _ & Hdd).
    rewrite Hlast, !date_leb_spec. unfold month_first. cbn [year month day].
    split.
    + lia.
    + intros [Ey Em]. rewrite Ey, Em in Eld.
      assert (ld = last) as -> by congruence. lia.
Qed.

(** C10: for a date [today] and a store in which the category id of every
    budget row is a signed 64-bit integer or the id of a stored category,
    the two bounds default independently.  With only [start_date] supplied, every budget's status
    is computed over the range from that date to the last day of the month
    of [today]; with only [end_date] supplied, over the range from the
    first day of that month to that date; with neither, over the whole
    month; with both, over the range supplied.  The two defaults are dates,
    and they enclose exactly the dates of the month of [today]. *)
Theorem budget_range_defaults_independently (today : date) (s : Session) :
  is_date today ->
  budget_references_fit (database s) ->
  (forall start_date,
     exists sts,
       crud.get_budgets_with_status today (Some start_date) None s = (s, Return sts)
       /\ Forall2 (status_of (database s) start_date (month_last today))
                  (budgets (database s)) sts)
  /\ (forall end_date,
        exists sts,
          crud.get_budgets_with_status today None (Some end_date) s = (s, Return sts)
          /\ Forall2 (status_of (database s) (month_first today) end_date)
                     (budgets (database s)) sts)
  /\ (exists sts,
        crud.get_budgets_with_status today None None s = (s, Return sts)
        /\ Forall2 (status_of (database s) (month_first today) (month_last today))
                   (budgets (database s)) sts)
  /\ (forall start_date end_date,
        exists sts,
          crud.get_budgets_with_status today (Some start_date) (Some end_date) s
          = (s, Return sts)
          /\ Forall2 (status_of (database s) start_date end_date)
                     (budgets (database s)) sts)
  /\ is_date (month_first today)
  /\ is_date (month_last today)
  /\ (forall d, is_date d ->
        (date_leb (month_first today) d = true /\ date_leb d (month_last today) = true
         <-> year d = year today /\ month d = month today)).
Proof.
  intros Ht Hfit.
  assert (L : forall start_date end_date,
            exists sts,
              crud.get_budgets_with_status today start_date end_date s
              = (s, Return sts)
              /\ Forall2
                   (status_of (database s)
                      (match start_date with Some d => d | None => month_first today end)
                      (match end_date with Some d => d | None => month_last today end))
                   (budgets (database s)) sts).
  { intros sd ed. eexists. split.
    - apply (get_budgets_with_status_returns today sd ed
               (match sd with Some d => d | None => month_first today end)
               (match ed with Some d => d | None => month_last today end) s Hfit).
      apply (default_range_spec today sd ed s Ht).
    - apply statuses_of_budgets. }
  destruct (default_range_spec today None None s Ht) as (_ & Hf & Hl & Hm).
  split; [intros sd; apply (L (Some sd) None)|].
  split; [intros ed; apply (L None (Some ed))|].
  split; [apply (L None None)|].
  split; [intros sd ed; apply (L (Some sd) (Some ed))|].
  split; [exact Hf|]. split; [exact Hl|exact Hm].
Qed.

(** On [ten_thousand_example] and 2024-02-10: from 2024-02-05 on, category
    2 has spent the 1500 of 2024-02-29, not the 3000 of 2024-02-01 nor the
    999 of March; up to 2024-02-15 it has spent the 3000. *)
Lemma budget_range_defaults_independently_witness :
  (exists st1 st2,
     crud.get_budgets_with_status (mkdate 2024 2 10) (Some (mkdate 2024 2 5)) None
       ten_thousand_example
     = (ten_thousand_example, Return [st1; st2])
     /\ schemas.BudgetStatus.spent_amount st1 = 1500%float)
  /\ (exists st1 st2,
        crud.get_budgets_with_status (mkdate 2024 2 10) None (Some (mkdate 2024 2 15))
          ten_thousand_example
        = (ten_thousand_example, Return [st1; st2])
        /\ schemas.BudgetStatus.spent_amount st1 = 3000%float).
Proof.
  destruct (budget_range_defaults_independently (mkdate 2024 2 10)
              ten_thousand_example eq_refl ten_thousand_example_fits)
    as (H1 & H2 & _).
  split.
  - destruct (H1 (mkdate 2024 2 5)) as (sts & E & F).
    cbn [ten_thousand_example database budgets] in F.
    inversion F as [|b1 st1 bs1 sts1 S1 F1]; subst.
    inversion F1 as [|b2 st2 bs2 sts2 S2 F2]; subst.
    inversion F2; subst.
    exists st1, st2. split; [exact E|].
    destruct S1 as (_ & _ & _ & Hs & _). rewrite Hs. reflexivity.
  - destruct (H2 (mkdate 2024 2 15)) as (sts & E & F).
    cbn [ten_thousand_example database budgets] in F.
    inversion F as [|b1 st1 bs1 sts1 S1 F1]; subst.
    inversion F1 as [|b2 st2 bs2 sts2 S2 F2]; subst.
    inversion F2; subst.
    exists st1, st2. split; [exact E|].
    destruct S1 as (_ & _ & _ & Hs & _). rewrite Hs. reflexivity.
Defined.

(* ===================================================================== *)
(** ** C3: the monthly trend                                             *)
(* ===================================================================== *)

(** The loop [while month <= 0: month += 12; year -= 1] in closed form. *)
Lemma wrap_month_spec (m y : Z) :
  m <= 12 -> crud.wrap_month m y = ((m - 1) mod 12 + 1, y + (m - 1) / 12).
Proof.
  funelim (crud.wrap_month m y); intros Hm.
  - match goal with
    | IH : _ -> crud.wrap_month _ _ = _ |- _ => rewrite IH by lia
    end.
    f_equal; Z.div_mod_to_equations; lia.
  - rewrite Z.mod_small, Z.div_small by lia. f_equal; ring.
Qed.

Lemma month_trend_reads (today : date) (i y m : Z) :
  crud.wrap_month (month today - i) (year today) = (m, y) ->
  MINYEAR <= y <= MAXYEAR -> 1 <= m <= 12 ->
  reads (crud.month_trend today i) (trend_of_month y m).
Proof.
  intros Hw Hy Hm s. unfold crud.month_trend. rewrite Hw.
  destruct (month_bounds_are_dates y m Hy Hm) as (last & El & _ & Efirst & Elast).
  unfold bind, crud.or_ValueError, query, ret. rewrite Efirst, El, Elast.
  unfold trend_of_month, month_first, month_last. cbn [year month day].
  rewrite El. reflexivity.
Qed.

Lemma filter_none {A} (p : A -> bool) (l : list A) :
  (forall x, In x l -> p x = false) -> filter p l = [].
Proof.
  induction l as [|x l IH]; intros H; cbn [filter]; [reflexivity|].
  rewrite (H x (or_introl eq_refl)). apply IH. intros y Hy. apply H. now right.
Qed.

Lemma trend_of_month_entry (t : Tables) (y m : Z) :
  1 <= m <= 12 -> trend_entry t (12 * y + (m - 1)) (trend_of_month y m t).
Proof.
  intros Hm. unfold trend_entry. cbn zeta.
  assert (Ey : (12 * y + (m - 1)) / 12 = y) by (Z.div_mod_to_equations; lia).
  assert (Em : (12 * y + (m - 1)) mod 12 = m - 1) by (Z.div_mod_to_equations; lia).
  rewrite Ey, Em. replace (m - 1 + 1) with m by ring.
  unfold trend_of_month.
  cbn [schemas.MonthlyTrend.year schemas.MonthlyTrend.month schemas.MonthlyTrend.income
       schemas.MonthlyTrend.expenses schemas.MonthlyTrend.balance].
  assert (Hrows :
    filter (fun r =>
              date_geb (models.Transaction.transaction_date r)
                       (month_first (mkdate y m 1))
              && date_leb (models.Transaction.transaction_date r)
                          (month_last (mkdate y m 1)))
           (transactions t)
    = month_rows t y m) by reflexivity.
  rewrite Hrows.
  do 5 (split; [reflexivity|]).
  intros Hnone.
  assert (Hnil : month_rows t y m = []).
  { unfold month_rows, rows_in_range. apply filter_none. intros x Hx.
    destruct (in_range _ _ _) eqn:E; [|reflexivity]. exfalso.
    apply (Hnone x Hx). unfold in_range in E. apply andb_true_iff in E.
    rewrite !date_leb_spec in E. unfold month_first, month_last in E.
    cbn [year month day] in E. lia. }
  rewrite Hnil. repeat split.
Qed.

Lemma nth_error_range_down (n : Z) (k : nat) :
  (k < Z.to_nat n)%nat ->
  nth_error (crud.range_down n) k = Some (n - 1 - Z.of_nat k).
Proof.
  intros Hk. unfold crud.range_down.
  rewrite nth_error_map, (nth_error_nth' _ 0%nat) by now rewrite length_seq.
  rewrite seq_nth by exact Hk. reflexivity.
Qed.

Lemma In_range_down (n i : Z) : In i (crud.range_down n) -> 0 <= i <= n - 1.
Proof.
  unfold crud.range_down. rewrite in_map_iff. intros [k [<- Hk]].
  apply in_seq in Hk. lia.
Qed.

(** C3: for a date [today] and n >= 1 months, none of them before January
    of year 1 (the first month a [date] can name), the trend leaves the
    session as it is and returns exactly n entries; entry i (from 0) is the
    entry of the calendar month n - 1 - i months before the month of
    [today], so the months are consecutive, oldest first, and end at the
    current one, each exactly once, also across year boundaries; an entry
    carries the year and the name of its month, the INCOME and the EXPENSE
    amounts of the rows dated from the first to the last day of that month,
    added as doubles by ascending date and rounded to 2 decimals, and the
    rounded difference of the two totals; a month with no transaction
    reports zeros.  The route admits 1 to 24 months, which [date.today()]
    always has behind it. *)
Theorem get_monthly_trend_spec (s : Session) (today : date) (n : Z) :
  is_date today ->
  1 <= n ->
  12 * MINYEAR <= month_index today - (n - 1) ->
  exists entries,
    crud.get_monthly_trend today n s = (s, Return entries)
    /\ Z.of_nat (List.length entries) = n
    /\ forall i, 0 <= i < n ->
         exists r, nth_error entries (Z.to_nat i) = Some r
                   /\ trend_entry (database s) (month_index today - (n - 1) + i) r.
Proof.
  intros Ht Hn Hmin.
  destruct (is_date_fields today Ht) as (Hy & Hm & _).
  unfold month_index, MINYEAR, MAXYEAR in *.
  assert (Hbody : forall i, In i (crud.range_down n) ->
            reads (crud.month_trend today i)
                  (trend_of_month (year today + (month today - i - 1) / 12)
                                  ((month today - i - 1) mod 12 + 1))).
  { intros i Hi. apply In_range_down in Hi.
    apply month_trend_reads.
    - now rewrite wrap_month_spec by lia.
    - unfold MINYEAR, MAXYEAR. Z.div_mod_to_equations. lia.
    - Z.div_mod_to_equations. lia. }
  eexists. split; [|split].
  - unfold crud.get_monthly_trend.
    apply (reads_for_each (crud.range_down n) (crud.month_trend today) _ Hbody).
  - cbn beta. rewrite length_map. unfold crud.range_down.
    rewrite length_map, length_seq. lia.
  - intros i Hi. cbn beta.
    rewrite nth_error_map, (nth_error_range_down n (Z.to_nat i)) by lia.
    cbn [option_map]. eexists. split; [reflexivity|].
    rewrite Z2Nat.id by lia.
    set (j := month today - (n - 1 - i) - 1).
    replace (12 * year today + (month today - 1) - (n - 1) + i)
      with (12 * (year today + j / 12) + ((j mod 12 + 1) - 1))
      by (unfold j; Z.div_mod_to_equations; lia).
    apply trend_of_month_entry. Z.div_mod_to_equations. lia.
Qed.

(** Every number of months the route admits (1 to 24) is in range at any
    date from year 3 on. *)
Remark admitted_months_in_range (today : date) (n : Z) :
  is_date today -> 3 <= year today -> 1 <= n <= 24 ->
  12 * MINYEAR <= month_index today - (n - 1).
Proof.
  intros Ht Hy Hn. destruct (is_date_fields today Ht) as (_ & Hm & _).
  unfold month_index, MINYEAR. lia.
Qed.

Lemma get_monthly_trend_spec_witness :
  exists entries,
    crud.get_monthly_trend (mkdate 2024 2 10) 3 ten_thousand_example
    = (ten_thousand_example, Return entries)
    /\ Z.of_nat (List.length entries) = 3
    /\ forall i, 0 <= i < 3 ->
         exists r, nth_error entries (Z.to_nat i) = Some r
                   /\ trend_entry (database ten_thousand_example)
                        (month_index (mkdate 2024 2 10) - (3 - 1) + i) r.
Proof.
  apply (get_monthly_trend_spec ten_thousand_example (mkdate 2024 2 10) 3).
  - reflexivity.
  - lia.
  - vm_compute. discriminate.
Defined.

(** The three months ending in February 2024 are December 2023, January
    2024 and February 2024, in that order. *)
Example get_monthly_trend_february :
  exists entries,
    crud.get_monthly_trend (mkdate 2024 2 10) 3 listing_example
    = (listing_example, Return entries)
    /\ map (fun r => (schemas.MonthlyTrend.month r, schemas.MonthlyTrend.year r)) entries
       = [("December", 2023); ("January", 2024); ("February", 2024)]
    /\ map schemas.MonthlyTrend.income entries = [0%float; 2500%float; 2500%float]
    /\ map schemas.MonthlyTrend.expenses entries = [0%float; 0%float; 900%float].
Proof.
  eexists. split; [vm_compute; reflexivity|]. repeat split.
Qed.

(** A year and more back: the walk crosses two year boundaries. *)
Example wrap_month_two_years : crud.wrap_month (2 - 15) 2024 = (11, 2022).
Proof. reflexivity. Qed.

(* ===================================================================== *)
(** ** The listing of categories                                         *)
(* ===================================================================== *)

Lemma ascii_compare_refl (a : ascii) : Ascii.compare a a = Eq.
Proof. unfold Ascii.compare. apply N.compare_refl. Qed.

Lemma ascii_compare_Lt_trans (a b c : ascii) :
  Ascii.compare a b = Lt -> Ascii.compare b c = Lt -> Ascii.compare a c = Lt.
Proof.
  unfold Ascii.compare. rewrite !N.compare_lt_iff. apply N.lt_trans.
Qed.

Lemma string_compare_Lt_trans (s1 s2 s3 : string) :
  String.compare s1 s2 = Lt -> String.compare s2 s3 = Lt -> String.compare s1 s3 = Lt.
Proof.
  revert s2 s3. induction s1 as [|a s1 IH]; intros [|b s2] [|c s3]; cbn;
    try discriminate; try reflexivity.
  destruct (Ascii.compare a b) eqn:Eab; try discriminate.
  - apply Ascii.compare_eq_iff in Eab. subst b.
    destruct (Ascii.compare a c) eqn:Eac; try discriminate; [|reflexivity].
    apply IH.
  - intros _. destruct (Ascii.compare b c) eqn:Ebc; try discriminate.
    + apply Ascii.compare_eq_iff in Ebc. subst c. now rewrite Eab.
    + intros _. now rewrite (ascii_compare_Lt_trans a b c Eab Ebc).
Qed.

Lemma string_compare_Gt_Lt (s1 s2 : string) :
  String.compare s1 s2 = Gt <-> String.compare s2 s1 = Lt.
Proof.
  rewrite (String.compare_antisym s2 s1).
  destruct (String.compare s1 s2); cbn; split; congruence.
Qed.

Lemma string_leb_trans (s1 s2 s3 : string) :
  String.leb s1 s2 = true -> String.leb s2 s3 = true -> String.leb s1 s3 = true.
Proof.
  unfold String.leb.
  destruct (String.compare s1 s2) eqn:E12; try discriminate; intros _;
    destruct (String.compare s2 s3) eqn:E23; try discriminate; intros _.
  - apply String.compare_eq_iff in E12, E23. subst.
    destruct (String.compare s3 s3) eqn:E; try reflexivity.
    apply string_compare_Gt_Lt in E as E'. congruence.
  - apply String.compare_eq_iff in E12. subst. now rewrite E23.
  - apply String.compare_eq_iff in E23. subst. now rewrite E12.
  - now rewrite (string_compare_Lt_trans s1 s2 s3 E12 E23).
Qed.

Lemma category_leb_total (a b : models.Category.t) :
  crud.category_leb a b = false -> crud.category_leb b a = true.
Proof.
  unfold crud.category_leb.
  rewrite (String.compare_antisym (models.Category.type b) (models.Category.type a)).
  destruct (String.compare (models.Category.type a) (models.Category.type b));
    cbn [CompOpp]; try discriminate; try reflexivity.
  intros H. destruct (String.leb_total (models.Category.name a) (models.Category.name b));
    congruence.
Qed.

Lemma category_leb_trans (a b c : models.Category.t) :
  crud.category_leb a b = true -> crud.category_leb b c = true ->
  crud.category_leb a c = true.
Proof.
  unfold crud.category_leb.
  destruct (String.compare (models.Category.type a) (models.Category.type b)) eqn:Eab;
    try discriminate;
    destruct (String.compare (models.Category.type b) (models.Category.type c)) eqn:Ebc;
    try discriminate.
  - apply String.compare_eq_iff in Eab, Ebc. rewrite Eab, Ebc.
    destruct (String.compare (models.Category.type c) (models.Category.type c)) eqn:E.
    + apply string_leb_trans.
    + reflexivity.
    + apply string_compare_Gt_Lt in E as E'. congruence.
  - apply String.compare_eq_iff in Eab. rewrite Eab, Ebc. reflexivity.
  - apply String.compare_eq_iff in Ebc. rewrite <- Ebc, Eab. reflexivity.
  - now rewrite (string_compare_Lt_trans _ _ _ Eab Ebc).
Qed.

Lemma insert_category_perm (x : models.Category.t) (l : list models.Category.t) :
  Permutation (crud.insert_category x l) (x :: l).
Proof.
  induction l as [|y l IH]; cbn; [reflexivity|].
  destruct (crud.category_leb x y); [reflexivity|].
  rewrite IH. apply perm_swap.
Qed.

Lemma order_by_type_name_perm (l : list models.Category.t) :
  Permutation (crud.order_by_type_name l) l.
Proof.
  induction l as [|x l IH]; cbn; [reflexivity|].
  rewrite insert_category_perm. now constructor.
Qed.

Lemma insert_category_sorted (x : models.Category.t) (l : list models.Category.t) :
  StronglySorted (fun a b => crud.category_leb a b = true) l ->
  StronglySorted (fun a b => crud.category_leb a b = true) (crud.insert_category x l).
Proof.
  induction 1 as [|y l Hs IH Hy]; cbn.
  - repeat constructor.
  - destruct (crud.category_leb x y) eqn:E.
    + constructor; [now constructor|].
      constructor; [exact E|].
      rewrite Forall_forall in *. intros z Hz.
      eapply category_leb_trans; [exact E|now apply Hy].
    + constructor; [exact IH|].
      rewrite Forall_forall in *. intros z Hz.
      apply (Permutation_in _ (insert_category_perm x l)) in Hz.
      destruct Hz as [<-|Hz]; [now apply category_leb_total|now apply Hy].
Qed.

Lemma order_by_type_name_sorted (l : list models.Category.t) :
  StronglySorted (fun a b => crud.category_leb a b = true) (crud.order_by_type_name l).
Proof.
  induction l as [|x l IH]; cbn; [constructor|now apply insert_category_sorted].
Qed.

Lemma StronglySorted_split {A} (R : A -> A -> Prop) (l1 l2 l3 : list A) (a b : A) :
  StronglySorted R (l1 ++ a :: l2 ++ b :: l3) -> R a b.
Proof.
  induction l1 as [|x l1 IH]; cbn; intros H.
  - apply StronglySorted_inv in H. destruct H as [_ H].
    rewrite Forall_forall in H. apply H. apply in_or_app. right. now left.
  - apply StronglySorted_inv in H. now apply IH.
Qed.

(** X1. [get_categories] leaves the session as it is and lists every stored
    category exactly once, in ascending order of type and then name; since
    "EXPENSE" sorts before "INCOME", no income category is listed before an
    expense category. *)
Theorem get_categories_sorted (s : Session) :
  exists rows,
    crud.get_categories s = (s, Return rows)
    /\ Permutation rows (categories (database s))
    /\ StronglySorted (fun a b => crud.category_leb a b = true) rows
    /\ (forall l1 a l2 b l3,
          rows = (l1 ++ a :: l2 ++ b :: l3)%list ->
          models.Category.type a = "INCOME" ->
          models.Category.type b <> "EXPENSE").
Proof.
  eexists. split; [reflexivity|]. split; [apply order_by_type_name_perm|].
  split; [apply order_by_type_name_sorted|].
  intros l1 a l2 b l3 E Ha Hb.
  pose proof (order_by_type_name_sorted (categories (database s))) as Hs.
  rewrite E in Hs. apply StronglySorted_split in Hs.
  unfold crud.category_leb in Hs. rewrite Ha, Hb in Hs. discriminate Hs.
Qed.

(* ===================================================================== *)
(** ** Creating and deleting transactions                                *)
(* ===================================================================== *)

Lemma NoDup_keys_kept {Row Key} (key : Row -> Key) (keep : Row -> bool)
  (rows : list Row) (Hkeys : NoDup (map key rows)) :
  NoDup (map key (filter keep rows)).
Proof.
  induction rows as [|r rows IH]; cbn [map filter]; [exact Hkeys|].
  inversion Hkeys as [|? ? Hr Hrows]; subst.
  destruct (keep r); [|now apply IH].
  cbn [map]. constructor; [|now apply IH].
  intros Hin. apply Hr. apply in_map_iff in Hin. destruct Hin as [y [E Hy]].
  apply filter_In in Hy. rewrite <- E. apply in_map. tauto.
Qed.

Lemma delete_transaction_found (db : Tables) (transaction_id : Z)
  (t : models.Transaction.t) :
  find (fun r => models.Transaction.transaction_id r =? transaction_id)
       (transactions db) = Some t ->
  crud.delete_transaction transaction_id (mkSession db [])
  = (mkSession
       (mkTables (users db) (categories db)
          (filter (fun r => negb (models.Transaction.transaction_id r =? transaction_id))
                  (transactions db))
          (budgets db))
       [],
     Return true).
Proof.
  intros Hfind.
  unfold crud.delete_transaction, crud.get_transaction, first_by_key, bind, query.
  cbn [database]. rewrite Hfind.
  unfold delete_Transaction_commit, ret. cbn [database unit_of_work flush].
  apply find_some in Hfind. destruct Hfind as [_ E]. apply Z.eqb_eq in E.
  now rewrite E.
Qed.

Lemma delete_transaction_absent (s : Session) (transaction_id : Z) :
  (forall r, In r (transactions (database s)) ->
             models.Transaction.transaction_id r <> transaction_id) ->
  crud.delete_transaction transaction_id s
  = if fits_int64 transaction_id
    then (s, Raise (HTTPException crud.HTTP_404_NOT_FOUND
                      ("Transaction with ID " ++ str_int transaction_id
                         ++ " not found")))
    else (s, Raise OverflowError).
Proof.
  intros Hnone.
  unfold crud.delete_transaction, crud.get_transaction, bind.
  rewrite (first_by_key_absent transactions models.Transaction.transaction_id
             transaction_id s Hnone).
  now destruct (fits_int64 transaction_id).
Qed.

(** X3. [delete_transaction] on an id no row has leaves the session as it
    is and fails: with 404 when the id is a signed 64-bit integer, with the
    driver's [OverflowError] when it is not.  In a fresh session, on an id
    some row has, it answers True and removes the rows of that id and
    nothing else: every other transaction and the other three tables are
    kept, and the key constraints still hold.  Deleting the same id, a
    signed 64-bit integer as stored keys are, again then fails with 404. *)
Theorem delete_transaction_spec (s : Session) (transaction_id : Z) :
  fresh s ->
  ((forall r, In r (transactions (database s)) ->
              models.Transaction.transaction_id r <> transaction_id) ->
   crud.delete_transaction transaction_id s
   = if fits_int64 transaction_id
     then (s, Raise (HTTPException crud.HTTP_404_NOT_FOUND
                       ("Transaction with ID " ++ str_int transaction_id
                          ++ " not found")))
     else (s, Raise OverflowError))
  /\ ((exists r, In r (transactions (database s))
                 /\ models.Transaction.transaction_id r = transaction_id) ->
      exists s',
        crud.delete_transaction transaction_id s = (s', Return true)
        /\ fresh s'
        /\ (forall r, In r (transactions (database s')) <->
                      In r (transactions (database s))
                      /\ models.Transaction.transaction_id r <> transaction_id)
        /\ users (database s') = users (database s)
        /\ categories (database s') = categories (database s)
        /\ budgets (database s') = budgets (database s)
        /\ (constraints_hold (database s) -> constraints_hold (database s'))
        /\ (fits_int64 transaction_id = true ->
            crud.delete_transaction transaction_id s'
            = (s', Raise (HTTPException crud.HTTP_404_NOT_FOUND
                            ("Transaction with ID " ++ str_int transaction_id
                               ++ " not found"))))).
Proof.
  destruct s as [db uow]. unfold fresh. cbn [database unit_of_work]. intros ->.
  split; [apply (delete_transaction_absent (mkSession db []))|].
  intros [r [Hin Hid]].
  destruct (find_In_some
              (fun x => models.Transaction.transaction_id x =? transaction_id)
              (transactions db) r Hin) as [t [Hfind _]].
  { now apply Z.eqb_eq. }
  eexists. split; [exact (delete_transaction_found db transaction_id t Hfind)|].
  cbn [database unit_of_work users categories transactions budgets].
  assert (Hiff : forall x,
             In x (filter (fun r0 => negb (models.Transaction.transaction_id r0
                                           =? transaction_id)) (transactions db))
             <-> In x (transactions db)
                 /\ models.Transaction.transaction_id x <> transaction_id).
  { intros x. rewrite filter_In, negb_true_iff, Z.eqb_neq. reflexivity. }
  split; [reflexivity|]. split; [exact Hiff|].
  split; [reflexivity|]. split; [reflexivity|]. split; [reflexivity|]. split.
  - intros [U1 U2 U3 C1 C2 T1 B1 B2]. constructor;
      cbn [users categories transactions budgets]; try assumption.
    now apply NoDup_keys_kept.
  - intros Hfit. rewrite <- Hfit at 2.
    rewrite (delete_transaction_absent (mkSession _ [])).
    + now rewrite Hfit.
    + cbn [database transactions]. intros x Hx. now apply Hiff in Hx.
Qed.

Lemma delete_transaction_spec_witness :
  crud.delete_transaction 99 listing_example
  = (listing_example,
     Raise (HTTPException crud.HTTP_404_NOT_FOUND "Transaction with ID 99 not found"))
  /\ crud.delete_transaction (2 ^ 63) listing_example
     = (listing_example, Raise OverflowError)
  /\ exists s',
       crud.delete_transaction 2 listing_example = (s', Return true)
       /\ map models.Transaction.transaction_id (transactions (database s')) = [1; 3].
Proof.
  destruct (delete_transaction_spec listing_example 2 eq_refl) as [_ H].
  destruct H as (s' & E & _).
  { exists (models.Transaction.mk 2 900%float "EXPENSE" (Some "flat") (mkdate 2024 2 1) 2).
    cbn. tauto. }
  split; [|split].
  - apply (proj1 (delete_transaction_spec listing_example 99 eq_refl)).
    cbn. intros r [<-|[<-|[<-|[]]]]; cbn; lia.
  - apply (proj1 (delete_transaction_spec listing_example (2 ^ 63) eq_refl)).
    cbn. intros r [<-|[<-|[<-|[]]]]; cbn; lia.
  - exists s'. split; [exact E|].
    vm_compute in E. injection E as <-. reflexivity.
Defined.

Lemma filter_new_row {R} (key : R -> Z) (rows : list R) (r : R) :
  key r = next_id (map key rows) ->
  filter (fun x => negb (key x =? next_id (map key rows))) (rows ++ [r]) = rows.
Proof.
  intros Hk.
  assert (Hall : forall x, In x rows -> (key x =? next_id (map key rows)) = false).
  { intros x Hin. apply Z.eqb_neq.
    apply (in_map key), next_id_above in Hin. lia. }
  revert Hk Hall. generalize (next_id (map key rows)). intros k Hk Hall.
  induction rows as [|y rows IH]; cbn [app filter].
  - now rewrite Hk, Z.eqb_refl.
  - rewrite (Hall y (or_introl eq_refl)). cbn [negb]. f_equal. apply IH.
    intros x Hx. apply Hall. now right.
Qed.

Lemma create_transaction_outcome (db : Tables) (tx : schemas.TransactionCreate.t) :
  (exists c, In c (categories db)
             /\ models.Category.category_id c = schemas.TransactionCreate.category_id tx) ->
  crud.create_transaction tx (mkSession db [])
  = if (0 <? schemas.TransactionCreate.amount tx)%float
    then if is_type (schemas.TransactionCreate.type tx)
         then (mkSession
                 (mkTables (users db) (categories db)
                    (transactions db ++ [new_transaction_row db tx]) (budgets db))
                 [],
               Return (new_transaction_row db tx))
         else (mkSession db [],
               Raise (HTTPException 400 "Database error: check_transaction_type"))
    else (mkSession db [],
          Raise (HTTPException 400 "Database error: check_amount_positive")).
Proof.
  intros [c [Hin Hid]].
  unfold crud.create_transaction, crud.get_category, first_by_key, bind, query. cbn [database].
  destruct (find_In_some
              (fun c0 => models.Category.category_id c0
                         =? schemas.TransactionCreate.category_id tx)
              (categories db) c Hin) as [x [-> _]].
  { now apply Z.eqb_eq. }
  cbn [truthy truthy_optional truthy_Category negb].
  unfold try_except_IntegrityError, add, commit, rollback, refresh, raise.
  cbn [database unit_of_work app flush flush_one].
  destruct (0 <? schemas.TransactionCreate.amount tx)%float; cbn [negb];
    [|reflexivity].
  destruct (is_type (schemas.TransactionCreate.type tx)); cbn [negb];
    [|reflexivity].
  cbn [hd database transactions].
  fold (new_transaction_row db tx).
  rewrite (find_new_row models.Transaction.transaction_id (transactions db)
             (new_transaction_row db tx) eq_refl).
  reflexivity.
Qed.

(** X4. In a fresh session, for a body whose category exists:
    [create_transaction] with a positive amount and a type INCOME or EXPENSE
    appends one row that carries the body's fields under a key larger than
    every key in the table, touches nothing else, and [get_transaction] on
    the returned id then answers that row; with an amount that is not
    positive or another type it fails with 400 and leaves the session as it
    was. *)
Theorem create_transaction_spec (s : Session) (tx : schemas.TransactionCreate.t) :
  fresh s ->
  (exists c, In c (categories (database s))
             /\ models.Category.category_id c
                = schemas.TransactionCreate.category_id tx) ->
  ((0 <? schemas.TransactionCreate.amount tx)%float = true ->
   is_type (schemas.TransactionCreate.type tx) = true ->
   exists s' row,
     crud.create_transaction tx s = (s', Return row)
     /\ fresh s'
     /\ models.Transaction.amount row = schemas.TransactionCreate.amount tx
     /\ models.Transaction.type row = schemas.TransactionCreate.type tx
     /\ models.Transaction.description row = schemas.TransactionCreate.description tx
     /\ models.Transaction.transaction_date row
        = schemas.TransactionCreate.transaction_date tx
     /\ models.Transaction.category_id row = schemas.TransactionCreate.category_id tx
     /\ (forall r, In r (transactions (database s)) ->
                   models.Transaction.transaction_id r
                   < models.Transaction.transaction_id row)
     /\ transactions (database s') = (transactions (database s) ++ [row])%list
     /\ users (database s') = users (database s)
     /\ categories (database s') = categories (database s)
     /\ budgets (database s') = budgets (database s)
     /\ crud.get_transaction (models.Transaction.transaction_id row) s'
        = (s', Return (Some row)))
  /\ ((0 <? schemas.TransactionCreate.amount tx)%float = false
      \/ is_type (schemas.TransactionCreate.type tx) = false ->
      exists detail,
        crud.create_transaction tx s
        = (s, Raise (HTTPException crud.HTTP_400_BAD_REQUEST detail))).
Proof.
  destruct s as [db uow]. unfold fresh. cbn [database unit_of_work].
  intros -> Hcat. rewrite (create_transaction_outcome db tx Hcat). split.
  - intros -> ->. do 2 eexists. split; [reflexivity|].
    cbn [database unit_of_work users categories transactions budgets
         new_transaction_row models.Transaction.amount models.Transaction.type
         models.Transaction.description models.Transaction.transaction_date
         models.Transaction.category_id models.Transaction.transaction_id].
    repeat split.
    + intros r Hr. apply next_id_above. now apply in_map.
    + unfold crud.get_transaction, first_by_key, query. cbn [database transactions].
      fold (new_transaction_row db tx).
      now rewrite (find_new_row models.Transaction.transaction_id (transactions db)
                     (new_transaction_row db tx) eq_refl).
  - intros [-> | Hty].
    + eexists. reflexivity.
    + rewrite Hty. destruct (0 <? schemas.TransactionCreate.amount tx)%float;
        eexists; reflexivity.
Qed.

Lemma create_transaction_spec_witness :
  (exists s' row,
     crud.create_transaction
       (schemas.TransactionCreate.mk 37.5%float "EXPENSE" (Some "lunch") (mkdate 2024 3 2) 2)
       listing_example = (s', Return row)
     /\ models.Transaction.transaction_id row = 4
     /\ crud.get_transaction 4 s' = (s', Return (Some row)))
  /\ exists detail,
       crud.create_transaction
         (schemas.TransactionCreate.mk (-5)%float "EXPENSE" None (mkdate 2024 3 2) 2)
         listing_example
       = (listing_example, Raise (HTTPException crud.HTTP_400_BAD_REQUEST detail)).
Proof.
  split.
  - destruct (create_transaction_spec listing_example
                (schemas.TransactionCreate.mk 37.5%float "EXPENSE" (Some "lunch")
                   (mkdate 2024 3 2) 2) eq_refl) as [H _].
    { exists (models.Category.mk 2 "Rent" "EXPENSE"). cbn. tauto. }
    destruct (H eq_refl eq_refl) as (s' & row & E & _ & _ & _ & _ & _ & _ & _ & _ & _ & _ & _ & G).
    exists s', row. split; [exact E|].
    vm_compute in E. injection E as <- <-. split; [reflexivity|exact G].
  - apply (create_transaction_spec listing_example
             (schemas.TransactionCreate.mk (-5)%float "EXPENSE" None (mkdate 2024 3 2) 2)
             eq_refl).
    + exists (models.Category.mk 2 "Rent" "EXPENSE"). cbn. tauto.
    + left. reflexivity.
Defined.

(** X5. In a fresh session, creating a valid transaction and deleting it by
    the id returned brings every table back to what it was. *)
Theorem create_then_delete_transaction (s : Session) (tx : schemas.TransactionCreate.t) :
  fresh s ->
  (exists c, In c (categories (database s))
             /\ models.Category.category_id c
                = schemas.TransactionCreate.category_id tx) ->
  (0 <? schemas.TransactionCreate.amount tx)%float = true ->
  is_type (schemas.TransactionCreate.type tx) = true ->
  bind (crud.create_transaction tx)
       (fun row => crud.delete_transaction (models.Transaction.transaction_id row)) s
  = (s, Return true).
Proof.
  destruct s as [db uow]. unfold fresh. cbn [database unit_of_work].
  intros -> Hcat Ha Hty. unfold bind at 1.
  rewrite (create_transaction_outcome db tx Hcat), Ha, Hty.
  cbn [new_transaction_row models.Transaction.transaction_id].
  rewrite (delete_transaction_found _ _ (new_transaction_row db tx)).
  - cbn [users categories transactions budgets].
    fold (new_transaction_row db tx).
    rewrite (filter_new_row models.Transaction.transaction_id (transactions db)
               (new_transaction_row db tx) eq_refl).
    now destruct db.
  - cbn [transactions]. fold (new_transaction_row db tx).
    apply (find_new_row models.Transaction.transaction_id (transactions db)
             (new_transaction_row db tx) eq_refl).
Qed.

Lemma create_then_delete_transaction_witness :
  bind (crud.create_transaction
          (schemas.TransactionCreate.mk 37.5%float "EXPENSE" (Some "lunch")
             (mkdate 2024 3 2) 2))
       (fun row => crud.delete_transaction (models.Transaction.transaction_id row))
       listing_example
  = (listing_example, Return true).
Proof.
  apply (create_then_delete_transaction listing_example
           (schemas.TransactionCreate.mk 37.5%float "EXPENSE" (Some "lunch")
              (mkdate 2024 3 2) 2) eq_refl).
  - exists (models.Category.mk 2 "Rent" "EXPENSE"). cbn. tauto.
  - reflexivity.
  - reflexivity.
Defined.

(* ===================================================================== *)
(** ** Creating categories                                               *)
(* ===================================================================== *)

(** X6. In a fresh session, [create_category] with a name no category has
    and a type INCOME or EXPENSE appends one row under a new key and touches
    nothing else; the key constraints are kept; [get_category] on the
    returned id answers the row; and creating a category of that name again,
    of whatever type, fails with 400 "already exists" and changes nothing. *)
Theorem create_category_spec (s : Session) (category : schemas.CategoryCreate.t) :
  fresh s ->
  (forall c, In c (categories (database s)) ->
             models.Category.name c <> schemas.CategoryCreate.name category) ->
  is_type (schemas.CategoryCreate.type category) = true ->
  exists s' row,
    crud.create_category category s = (s', Return row)
    /\ fresh s'
    /\ models.Category.name row = schemas.CategoryCreate.name category
    /\ models.Category.type row = schemas.CategoryCreate.type category
    /\ categories (database s') = (categories (database s) ++ [row])%list
    /\ users (database s') = users (database s)
    /\ transactions (database s') = transactions (database s)
    /\ budgets (database s') = budgets (database s)
    /\ (constraints_hold (database s) -> constraints_hold (database s'))
    /\ crud.get_category (models.Category.category_id row) s' = (s', Return (Some row))
    /\ (forall type',
          crud.create_category
            (schemas.CategoryCreate.mk (schemas.CategoryCreate.name category) type') s'
          = (s', Raise (HTTPException crud.HTTP_400_BAD_REQUEST
                          ("Category '" ++ schemas.CategoryCreate.name category
                             ++ "' already exists")))).
Proof.
  destruct s as [db uow]. unfold fresh. cbn [database unit_of_work].
  intros -> Hnone Hty.
  set (row := models.Category.mk
                (next_id (map models.Category.category_id (categories db)))
                (schemas.CategoryCreate.name category)
                (schemas.CategoryCreate.type category)).
  assert (Fn : find (fun c => String.eqb (models.Category.name c)
                                         (schemas.CategoryCreate.name category))
                    (categories db) = None)
    by (apply find_In_none; intros c Hc; apply String.eqb_neq; now apply Hnone).
  assert (Hflush : flush_one db (new_Category (schemas.CategoryCreate.name category)
                                   (schemas.CategoryCreate.type category))
                   = inl (mkTables (users db) (categories db ++ [row])
                            (transactions db) (budgets db),
                          models.Category.category_id row)).
  { cbn [flush_one]. now rewrite find_existsb, Fn, Hty. }
  exists (mkSession (mkTables (users db) (categories db ++ [row])
                       (transactions db) (budgets db)) []), row.
  split.
  { unfold crud.create_category, bind, query. cbn [database]. rewrite Fn.
    cbn [truthy truthy_optional].
    unfold try_except_IntegrityError, add, commit, refresh.
    cbn [database unit_of_work app flush]. rewrite Hflush.
    cbn [hd database categories models.Category.category_id row].
    now rewrite (find_new_row models.Category.category_id (categories db) row eq_refl). }
  cbn [database unit_of_work users categories transactions budgets
       models.Category.name models.Category.type row].
  do 7 (split; [reflexivity|]). split; [|split].
  - intros Hc. exact (flush_one_constraints db _ _ _ Hc Hflush).
  - unfold crud.get_category, first_by_key, query. cbn [database categories].
    change (models.Category.category_id row)
      with (next_id (map models.Category.category_id (categories db))).
    now rewrite (find_new_row models.Category.category_id (categories db) row eq_refl).
  - intros type'. unfold crud.create_category, bind, query.
    cbn [database categories schemas.CategoryCreate.name].
    destruct (find_In_some
                (fun c => String.eqb (models.Category.name c)
                                     (schemas.CategoryCreate.name category))
                (categories db ++ [row]) row) as [x [-> _]].
    + apply in_or_app. right. now left.
    + apply String.eqb_refl.
    + reflexivity.
Qed.

Lemma create_category_spec_witness :
  exists s' row,
    crud.create_category (schemas.CategoryCreate.mk "Travel" "EXPENSE") listing_example
    = (s', Return row)
    /\ models.Category.category_id row = 3
    /\ crud.create_category (schemas.CategoryCreate.mk "Travel" "INCOME") s'
       = (s', Raise (HTTPException crud.HTTP_400_BAD_REQUEST
                       "Category 'Travel' already exists")).
Proof.
  destruct (create_category_spec listing_example
              (schemas.CategoryCreate.mk "Travel" "EXPENSE") eq_refl)
    as (s' & row & E & _ & _ & _ & _ & _ & _ & _ & _ & _ & H).
  - cbn. intros c [<-|[<-|[]]]; discriminate.
  - reflexivity.
  - exists s', row. split; [exact E|]. split; [|exact (H "INCOME")].
    vm_compute in E. injection E as _ <-. reflexivity.
Defined.

(* ===================================================================== *)
(** ** Seeding the default categories                                    *)
(* ===================================================================== *)

Lemma create_default_categories_empty (db : Tables) :
  categories db = [] ->
  crud.create_default_categories (mkSession db [])
  = (mkSession (mkTables (users db) seeded_categories (transactions db) (budgets db)) [],
     Return seeded_categories).
Proof.
  destruct db as [u c t b]. cbn [categories users transactions budgets].
  intros ->. vm_compute. reflexivity.
Qed.

Lemma create_default_categories_nonempty (s : Session) :
  categories (database s) <> [] ->
  crud.create_default_categories s = (s, Return []).
Proof.
  intros Hne. unfold crud.create_default_categories, bind, query.
  destruct (categories (database s)) as [|c cs] eqn:E; [contradiction|].
  cbn [List.length]. destruct (Z.ltb_spec 0 (Z.of_nat (S (List.length cs)))); [reflexivity|lia].
Qed.

(** X7. In a fresh session, [create_default_categories] does nothing and
    answers the empty list when the categories table has a row; on an empty
    table it writes the 15 catalogue entries, in catalogue order, under the
    keys 1 to 15, and answers them.  Either way the other tables are
    untouched, the key constraints are kept, and a second call does nothing:
    seeding is idempotent. *)
Theorem create_default_categories_spec (s : Session) :
  fresh s ->
  exists s1 created,
    crud.create_default_categories s = (s1, Return created)
    /\ crud.create_default_categories s1 = (s1, Return [])
    /\ (categories (database s) <> [] -> s1 = s /\ created = [])
    /\ (categories (database s) = [] ->
        categories (database s1) = created
        /\ map (fun c => (models.Category.name c, models.Category.type c)) created
           = crud.default_categories
        /\ map models.Category.category_id created = map Z.of_nat (seq 1 15))
    /\ users (database s1) = users (database s)
    /\ transactions (database s1) = transactions (database s)
    /\ budgets (database s1) = budgets (database s)
    /\ (constraints_hold (database s) -> constraints_hold (database s1)).
Proof.
  destruct s as [db uow]. unfold fresh. cbn [database unit_of_work]. intros ->.
  destruct (categories db) as [|c cs] eqn:E.
  - exists (mkSession (mkTables (users db) seeded_categories (transactions db)
                         (budgets db)) []), seeded_categories.
    split; [now apply create_default_categories_empty|].
    split; [now apply create_default_categories_nonempty|].
    split; [intros H; now contradiction H|].
    split; [intros _; repeat split|].
    cbn [database users transactions budgets categories].
    do 3 (split; [reflexivity|]).
    intros [U1 U2 U3 C1 C2 T1 B1 B2]. constructor;
      cbn [users categories transactions budgets]; try assumption;
      vm_compute; solve_NoDup.
  - exists (mkSession db []), [].
    assert (Hne : categories (database (mkSession db [])) <> [])
      by (cbn [database]; rewrite E; discriminate).
    split; [now apply create_default_categories_nonempty|].
    split; [now apply create_default_categories_nonempty|].
    split; [intros _; now split|]. split; [discriminate|].
    do 3 (split; [reflexivity|]). trivial.
Qed.

Lemma create_default_categories_spec_witness :
  exists s1 created,
    crud.create_default_categories users_example = (s1, Return created)
    /\ crud.create_default_categories s1 = (s1, Return [])
    /\ List.length created = 15%nat.
Proof.
  destruct (create_default_categories_spec users_example eq_refl)
    as (s1 & created & E & E' & _ & H & _).
  exists s1, created. split; [exact E|]. split; [exact E'|].
  destruct (H eq_refl) as (_ & _ & Hk).
  rewrite <- (length_map models.Category.category_id), Hk. reflexivity.
Defined.

(* ===================================================================== *)
(** ** The breakdown by category                                         *)
(* ===================================================================== *)

Lemma group_key_eqb_eq (a b : crud.group_key) : crud.group_key_eqb a b = true <-> a = b.
Proof.
  destruct a as [[a1 a2] a3], b as [[b1 b2] b3]. unfold crud.group_key_eqb.
  cbn [fst snd]. rewrite !andb_true_iff, Z.eqb_eq, !String.eqb_eq.
  split; [intros [[-> ->] ->]; reflexivity|intros [= -> -> ->]; tauto].
Qed.

Lemma group_key_eqb_refl (a : crud.group_key) : crud.group_key_eqb a a = true.
Proof. now apply group_key_eqb_eq. Qed.

Lemma group_key_eqb_neq (a b : crud.group_key) : crud.group_key_eqb a b = false <-> a <> b.
Proof.
  rewrite <- group_key_eqb_eq. destruct (crud.group_key_eqb a b); split; congruence.
Qed.

Lemma group_add_keys (k : crud.group_key) (a : float) (g : list (crud.group_key * (float * Z)))
  (k' : crud.group_key) :
  In k' (map fst (crud.group_add k a g)) <-> k' = k \/ In k' (map fst g).
Proof.
  induction g as [|[k0 [t c]] g IH]; cbn [crud.group_add map In fst].
  - intuition congruence.
  - destruct (crud.group_key_eqb k k0) eqn:E; cbn [map In fst].
    + apply group_key_eqb_eq in E. subst k0. intuition congruence.
    + rewrite IH. intuition congruence.
Qed.

Lemma group_add_NoDup (k : crud.group_key) (a : float) (g : list (crud.group_key * (float * Z))) :
  NoDup (map fst g) -> NoDup (map fst (crud.group_add k a g)).
Proof.
  induction g as [|[k0 [t c]] g IH]; cbn [crud.group_add map fst]; intros H.
  - repeat constructor. intros [].
  - inversion H as [|? ? Hk Hg]; subst.
    destruct (crud.group_key_eqb k k0) eqn:E; cbn [map fst].
    + now constructor.
    + constructor; [|now apply IH].
      rewrite group_add_keys. apply group_key_eqb_neq in E. intros [->|Hin]; tauto.
Qed.

Lemma group_find_add_same (k : crud.group_key) (a : float)
  (g : list (crud.group_key * (float * Z))) :
  group_find k (crud.group_add k a g)
  = match group_find k g with
    | Some (t, c) => Some ((t + a)%float, c + 1)
    | None => Some ((0 + a)%float, 1)
    end.
Proof.
  unfold group_find.
  induction g as [|[k0 [t c]] g IH]; cbn [crud.group_add find fst].
  - now rewrite group_key_eqb_refl.
  - destruct (crud.group_key_eqb k k0) eqn:E; cbn [find fst]; rewrite E.
    + reflexivity.
    + exact IH.
Qed.

Lemma group_find_add_other (k k' : crud.group_key) (a : float)
  (g : list (crud.group_key * (float * Z))) :
  k' <> k -> group_find k' (crud.group_add k a g) = group_find k' g.
Proof.
  intros Hne. unfold group_find.
  induction g as [|[k0 [t c]] g IH]; cbn [crud.group_add find fst].
  - apply group_key_eqb_neq in Hne. now rewrite Hne.
  - destruct (crud.group_key_eqb k k0) eqn:E; cbn [find fst].
    + apply group_key_eqb_eq in E. subst k0.
      apply group_key_eqb_neq in Hne. now rewrite Hne.
    + destruct (crud.group_key_eqb k' k0); [reflexivity|exact IH].
Qed.

Lemma group_by_snoc (rows : list (models.Transaction.t * models.Category.t))
  (r : models.Transaction.t * models.Category.t) :
  crud.group_by (rows ++ [r])
  = crud.group_add (key_of r) (models.Transaction.amount (fst r)) (crud.group_by rows).
Proof. unfold crud.group_by. now rewrite fold_left_app. Qed.

Lemma group_by_NoDup (rows : list (models.Transaction.t * models.Category.t)) :
  NoDup (map fst (crud.group_by rows)).
Proof.
  induction rows as [|r rows IH] using rev_ind; [constructor|].
  rewrite group_by_snoc. now apply group_add_NoDup.
Qed.

(** The group of a key holds the SUM and the COUNT of the joined rows of
    that key; a key without rows has no group. *)
Lemma group_by_find (rows : list (models.Transaction.t * models.Category.t))
  (k : crud.group_key) :
  match group_find k (crud.group_by rows) with
  | Some (t, c) =>
      t = total_of_key k rows
      /\ c = Z.of_nat (List.length (rows_of_key k rows))
      /\ 1 <= c
  | None => rows_of_key k rows = []
  end.
Proof.
  unfold total_of_key, rows_of_key.
  induction rows as [|r rows IH] using rev_ind; [reflexivity|].
  rewrite group_by_snoc, filter_app. cbn [filter].
  destruct (crud.group_key_eqb k (key_of r)) eqn:E.
  - apply group_key_eqb_eq in E. subst k. rewrite group_find_add_same.
    destruct (group_find (key_of r) (crud.group_by rows)) as [[t c]|].
    + destruct IH as (Ht & Hc & H1).
      rewrite map_app, fold_left_app, length_app. cbn [map fold_left List.length].
      split; [now rewrite Ht|]. split; lia.
    + rewrite IH. cbn. split; [reflexivity|]. split; [reflexivity|lia].
  - apply group_key_eqb_neq in E. rewrite (group_find_add_other _ _ _ _ E).
    now rewrite app_nil_r.
Qed.

Lemma insert_group_perm (g : crud.group_key * (float * Z))
  (groups : list (crud.group_key * (float * Z))) :
  Permutation (crud.insert_group g groups) (g :: groups).
Proof.
  induction groups as [|h groups IH]; cbn [crud.insert_group]; [reflexivity|].
  destruct (crud.group_key_leb (fst g) (fst h)); [reflexivity|].
  rewrite IH. apply perm_swap.
Qed.

(** Ordering the groups keeps each of them, once. *)
Lemma by_group_key_perm (groups : list (crud.group_key * (float * Z))) :
  Permutation (crud.by_group_key groups) groups.
Proof.
  induction groups as [|g groups IH]; cbn [crud.by_group_key fold_right];
    [reflexivity|].
  fold (crud.by_group_key groups). rewrite insert_group_perm. now constructor.
Qed.

Lemma counts_reordered (l l' : list Z) :
  Permutation l l' -> fold_right Z.add 0 l = fold_right Z.add 0 l'.
Proof.
  induction 1 as [|x l l' _ IH|x y l|l l' l'' _ IH1 _ IH2]; cbn [fold_right];
    [reflexivity|now rewrite IH|lia|congruence].
Qed.

(** Selecting among the rows in another order selects the same rows. *)
Lemma filter_reordered {A} (keep : A -> bool) (rows rows' : list A) :
  Permutation rows rows' -> Permutation (filter keep rows) (filter keep rows').
Proof.
  induction 1 as [|x l l' _ IH|x y l|l l' l'' _ IH1 _ IH2]; cbn [filter].
  - constructor.
  - destruct (keep x); [now constructor|exact IH].
  - destruct (keep x), (keep y); try reflexivity. apply perm_swap.
  - now transitivity (filter keep l').
Qed.

Lemma group_find_In (groups : list (crud.group_key * (float * Z))) (k : crud.group_key)
  (v : float * Z) :
  NoDup (map fst groups) -> In (k, v) groups -> group_find k groups = Some v.
Proof.
  unfold group_find. induction groups as [|[k0 v0] g IH]; cbn [map In find fst];
    [tauto|].
  intros Hnd [[= -> ->]|Hin].
  - now rewrite group_key_eqb_refl.
  - inversion Hnd as [|? ? Hk Hg]; subst.
    destruct (crud.group_key_eqb k k0) eqn:E; [|now apply IH].
    apply group_key_eqb_eq in E. subst k0. exfalso. apply Hk.
    apply in_map_iff. now exists (k, v).
Qed.

Lemma group_add_total (k : crud.group_key) (a : float) (g : list (crud.group_key * (float * Z))) :
  fold_right Z.add 0 (map (fun x => snd (snd x)) (crud.group_add k a g))
  = fold_right Z.add 0 (map (fun x => snd (snd x)) g) + 1.
Proof.
  induction g as [|[k0 [t c]] g IH]; cbn [crud.group_add map fold_right snd];
    [reflexivity|].
  destruct (crud.group_key_eqb k k0); cbn [map fold_right snd]; [lia|].
  rewrite IH. lia.
Qed.

Lemma group_by_total (rows : list (models.Transaction.t * models.Category.t)) :
  fold_right Z.add 0 (map (fun x => snd (snd x)) (crud.group_by rows))
  = Z.of_nat (List.length rows).
Proof.
  induction rows as [|r rows IH] using rev_ind; [reflexivity|].
  rewrite group_by_snoc, group_add_total, IH, length_app. cbn [List.length]. lia.
Qed.

(** The COUNTs of the groups answered add up to the number of joined rows. *)
Lemma breakdown_counts_total (rows : list (models.Transaction.t * models.Category.t)) :
  fold_right Z.add 0
    (map schemas.CategoryBreakdown.transaction_count
       (map breakdown_of (crud.by_group_key (crud.group_by rows))))
  = Z.of_nat (List.length rows).
Proof.
  rewrite map_map, <- group_by_total.
  apply counts_reordered.
  change (fun x => schemas.CategoryBreakdown.transaction_count (breakdown_of x))
    with (fun x : crud.group_key * (float * Z) => snd (snd x)).
  apply Permutation_map, by_group_key_perm.
Qed.

Lemma filter_true {A} (l : list A) : filter (fun _ => true) l = l.
Proof. induction l as [|x l IH]; cbn; [reflexivity|now f_equal]. Qed.

Lemma filter_if_as_filter {A R} `{Truthy A} (x : option A) (p : A -> R -> bool)
  (rows : list R) :
  crud.filter_if x p rows
  = filter (fun r => match x with
                     | Some a => if truthy a then p a r else true
                     | None => true
                     end) rows.
Proof.
  unfold crud.filter_if. destruct x as [a|]; [destruct (truthy a)|];
    now rewrite ?filter_true.
Qed.

(** The three conditional filters of the breakdown select [breakdown_rows]. *)
Lemma breakdown_filters (t : Tables) (start_date end_date : option date)
  (transaction_type : option string) :
  crud.filter_if transaction_type
    (fun ty r => String.eqb (models.Transaction.type (fst r)) ty)
    (crud.filter_if end_date
       (fun e r => date_leb (models.Transaction.transaction_date (fst r)) e)
       (crud.filter_if start_date
          (fun s r => date_geb (models.Transaction.transaction_date (fst r)) s)
          (crud.join_Category t)))
  = breakdown_rows t start_date end_date transaction_type.
Proof.
  rewrite !filter_if_as_filter, !filter_filter_and.
  unfold breakdown_rows, in_range, date_geb. apply filter_ext. intros r.
  destruct start_date, end_date; cbn [truthy truthy_date];
    rewrite ?andb_assoc; reflexivity.
Qed.

Lemma group_find_Some_key (groups : list (crud.group_key * (float * Z)))
  (k : crud.group_key) (v : float * Z) :
  group_find k groups = Some v -> In k (map fst groups).
Proof.
  unfold group_find. destruct (find _ groups) as [g|] eqn:E; [|discriminate].
  intros _. apply find_some in E. destruct E as [Hin Hk].
  apply group_key_eqb_eq in Hk. subst k. now apply in_map.
Qed.

Lemma breakdown_key_of (g : crud.group_key * (float * Z)) :
  breakdown_key (breakdown_of g) = fst g.
Proof. now destruct g as [[[a b] c] v]. Qed.

Lemma get_category_breakdown_reads (start_date end_date : option date)
  (transaction_type : option string) :
  reads (crud.get_category_breakdown start_date end_date transaction_type)
        (fun t => map breakdown_of
                    (crud.by_group_key
                       (crud.group_by
                          (breakdown_returned t start_date end_date
                             transaction_type)))).
Proof.
  intros s. unfold crud.get_category_breakdown, bind, query, ret. cbn beta iota zeta.
  rewrite breakdown_filters. unfold breakdown_returned.
  now destruct start_date, end_date.
Qed.

Lemma breakdown_returned_perm (t : Tables) (start_date end_date : option date)
  (transaction_type : option string) :
  Permutation (breakdown_returned t start_date end_date transaction_type)
              (breakdown_rows t start_date end_date transaction_type).
Proof. apply as_returned_perm. Qed.

(** X8. [get_category_breakdown] leaves the session as it is and answers one
    row for each category key (id, name, type) that occurs among the joined
    transactions dated in the range and of the type asked for, and no row
    for any other: the keys of the rows are distinct, every joined
    transaction falls under one of them, each row counts at least one
    transaction and its count is the number of joined transactions of its
    key; its total is their amounts, added as doubles from 0.0 in the order
    the engine meets them and rounded to 2 decimals; the counts add up to
    the number of joined transactions selected. *)
Theorem get_category_breakdown_spec (s : Session) (start_date end_date : option date)
  (transaction_type : option string) :
  exists rows,
    crud.get_category_breakdown start_date end_date transaction_type s
    = (s, Return rows)
    /\ NoDup (map breakdown_key rows)
    /\ (forall r, In r rows ->
          1 <= schemas.CategoryBreakdown.transaction_count r
          /\ schemas.CategoryBreakdown.transaction_count r
             = Z.of_nat (List.length
                 (rows_of_key (breakdown_key r)
                    (breakdown_rows (database s) start_date end_date
                       transaction_type)))
          /\ schemas.CategoryBreakdown.total_amount r
             = round (total_of_key (breakdown_key r)
                        (breakdown_returned (database s) start_date end_date
                           transaction_type)) 2)
    /\ (forall p, In p (breakdown_rows (database s) start_date end_date transaction_type) ->
          In (key_of p) (map breakdown_key rows))
    /\ fold_right Z.add 0 (map schemas.CategoryBreakdown.transaction_count rows)
       = Z.of_nat (List.length
           (breakdown_rows (database s) start_date end_date transaction_type)).
Proof.
  eexists. split; [apply get_category_breakdown_reads|]. cbn beta.
  pose proof (breakdown_returned_perm (database s) start_date end_date
                transaction_type) as Hperm.
  set (joined := breakdown_returned (database s) start_date end_date transaction_type)
    in *.
  pose proof (by_group_key_perm (crud.group_by joined)) as Hord.
  assert (Hkeys : map breakdown_key
                    (map breakdown_of (crud.by_group_key (crud.group_by joined)))
                  = map fst (crud.by_group_key (crud.group_by joined))).
  { rewrite map_map. apply map_ext. apply breakdown_key_of. }
  split.
  { rewrite Hkeys.
    apply (Permutation_NoDup (Permutation_map fst (Permutation_sym Hord))).
    apply group_by_NoDup. }
  split; [|split].
  - intros r Hr. apply in_map_iff in Hr. destruct Hr as [[k [t c]] [<- Hg]].
    apply (Permutation_in _ Hord) in Hg.
    rewrite breakdown_key_of. cbn [fst breakdown_of snd
      schemas.CategoryBreakdown.transaction_count
      schemas.CategoryBreakdown.total_amount].
    pose proof (group_by_find joined k) as Hf.
    rewrite (group_find_In _ k (t, c) (group_by_NoDup joined) Hg) in Hf.
    destruct Hf as (Ht & Hc & H1). split; [exact H1|]. split; [|now rewrite Ht].
    rewrite Hc. unfold rows_of_key.
    apply f_equal, Permutation_length, filter_reordered, Hperm.
  - intros p Hp. rewrite Hkeys.
    apply (Permutation_in _ (Permutation_map fst (Permutation_sym Hord))).
    apply (Permutation_in _ (Permutation_sym Hperm)) in Hp.
    pose proof (group_by_find joined (key_of p)) as Hf.
    destruct (group_find (key_of p) (crud.group_by joined)) as [v|] eqn:E.
    + now apply (group_find_Some_key _ _ v).
    + exfalso. assert (Hin : In p (rows_of_key (key_of p) joined))
        by (apply filter_In; split; [exact Hp|apply group_key_eqb_refl]).
      rewrite Hf in Hin. destruct Hin.
  - rewrite breakdown_counts_total.
    apply f_equal, Permutation_length, Hperm.
Qed.

(** The breakdown of February 2024 on [ten_thousand_example]: 4500 in two
    rows under Rent, 12000 in one under Food, in the order of the keys. *)
Example get_category_breakdown_february :
  crud.get_category_breakdown (Some (mkdate 2024 2 1)) (Some (mkdate 2024 2 29))
    (Some "EXPENSE") ten_thousand_example
  = (ten_thousand_example,
     Return [schemas.CategoryBreakdown.mk 2 "Rent" "EXPENSE" 4500 2;
             schemas.CategoryBreakdown.mk 3 "Food" "EXPENSE" 12000 1]).
Proof. reflexivity. Qed.

Lemma filter_flat_map_pairs {A B} (g : A -> bool) (cs : A -> list B) (l : list A) :
  filter (fun p => g (fst p)) (flat_map (fun r => map (fun c => (r, c)) (cs r)) l)
  = flat_map (fun r => map (fun c => (r, c)) (cs r)) (filter g l).
Proof.
  induction l as [|x l IH]; cbn [flat_map filter]; [reflexivity|].
  rewrite filter_app, IH.
  assert (Hx : filter (fun p : A * B => g (fst p)) (map (fun c => (x, c)) (cs x))
               = if g x then map (fun c => (x, c)) (cs x) else []).
  { induction (cs x) as [|c l' IH']; cbn [map filter fst].
    - now destruct (g x).
    - rewrite IH'. now destruct (g x). }
  rewrite Hx. now destruct (g x).
Qed.

Lemma length_flat_map_singletons {A B} (f : A -> list B) (l : list A) :
  (forall x, In x l -> List.length (f x) = 1%nat) ->
  List.length (flat_map f l) = List.length l.
Proof.
  induction l as [|x l IH]; intros H; cbn [flat_map List.length]; [reflexivity|].
  rewrite length_app, (H x (or_introl eq_refl)), IH; [reflexivity|].
  intros y Hy. apply H. now right.
Qed.

(** X9. When the category keys are unique and every transaction references
    a stored category, the counts of the breakdown over a date range, with
    no type asked for, add up to the [transaction_count] of the summary over
    the same range: no transaction is lost or counted twice by the join. *)
Theorem breakdown_counts_match_summary (s : Session) (start_date end_date : option date) :
  constraints_hold (database s) ->
  (forall r, In r (transactions (database s)) ->
     exists c, In c (categories (database s))
               /\ models.Category.category_id c = models.Transaction.category_id r) ->
  exists rows summary,
    crud.get_category_breakdown start_date end_date None s = (s, Return rows)
    /\ crud.get_summary start_date end_date s = (s, Return summary)
    /\ fold_right Z.add 0 (map schemas.CategoryBreakdown.transaction_count rows)
       = schemas.SummaryResponse.transaction_count summary.
Proof.
  intros Hc Hfk. do 2 eexists.
  split; [apply get_category_breakdown_reads|].
  split; [unfold crud.get_summary, bind, query, ret; cbn beta iota zeta;
          rewrite date_filters_in_range; reflexivity|].
  cbn [schemas.SummaryResponse.transaction_count]. cbn beta.
  rewrite (Permutation_length
             (as_returned_perm models.Transaction.transaction_date
                (truthy start_date || truthy end_date)
                (rows_in_range (database s) start_date end_date))).
  transitivity (Z.of_nat (List.length
                  (breakdown_rows (database s) start_date end_date None)));
    [rewrite breakdown_counts_total;
     apply f_equal, Permutation_length, breakdown_returned_perm|].
  f_equal.
  unfold breakdown_rows, crud.join_Category, rows_in_range.
  rewrite (filter_ext _
             (fun p => (fun r => in_range start_date end_date
                                   (models.Transaction.transaction_date r)) (fst p)))
    by (intros p; cbn beta; apply andb_true_r).
  rewrite (filter_flat_map_pairs
             (fun r => in_range start_date end_date (models.Transaction.transaction_date r))
             (fun r => filter (fun c => models.Category.category_id c
                                        =? models.Transaction.category_id r)
                              (categories (database s)))).
  apply length_flat_map_singletons.
  intros r Hr. apply filter_In in Hr. destruct Hr as [Hr _].
  destruct (Hfk r Hr) as [c [Hin Hid]]. rewrite length_map, <- Hid.
  now rewrite (filter_unique models.Category.category_id (categories (database s)) c
                 (categories_pk _ Hc) Hin).
Qed.

Lemma breakdown_counts_match_summary_witness :
  exists rows summary,
    crud.get_category_breakdown None (Some (mkdate 2024 2 15)) None listing_example
    = (listing_example, Return rows)
    /\ crud.get_summary None (Some (mkdate 2024 2 15)) listing_example
       = (listing_example, Return summary)
    /\ fold_right Z.add 0 (map schemas.CategoryBreakdown.transaction_count rows)
       = schemas.SummaryResponse.transaction_count summary.
Proof.
  apply (breakdown_counts_match_summary listing_example None (Some (mkdate 2024 2 15))
           listing_example_constraints).
  cbn. intros r [<-|[<-|[<-|[]]]]; cbn.
  - exists (models.Category.mk 1 "Salary" "INCOME"). tauto.
  - exists (models.Category.mk 2 "Rent" "EXPENSE"). tauto.
  - exists (models.Category.mk 1 "Salary" "INCOME"). tauto.
Defined.

(* ===================================================================== *)
(** ** Pages of the transaction listing and the routes that read         *)
(* ===================================================================== *)

Lemma firstn_plus {A} (a b : nat) (l : list A) :
  firstn (a + b) l = (firstn a l ++ firstn b (skipn a l))%list.
Proof.
  revert l. induction a as [|a IH]; intros l; [reflexivity|].
  destruct l as [|x l]; cbn [Nat.add firstn skipn app]; [now rewrite firstn_nil|].
  now rewrite IH.
Qed.





(** X12. The route for one transaction never changes the session.  It
    answers a stored row of the id asked for, the first in table order; or,
    no stored row having that id, it fails: with 404 when the id is a
    signed 64-bit integer, with the driver's [OverflowError] when it is
    not. *)
Theorem main_get_transaction_spec (s : Session) (transaction_id : Z) :
  (exists row,
     main.get_transaction transaction_id s = (s, Return row)
     /\ In row (transactions (database s))
     /\ models.Transaction.transaction_id row = transaction_id)
  \/ ((forall r, In r (transactions (database s)) ->
                 models.Transaction.transaction_id r <> transaction_id)
      /\ main.get_transaction transaction_id s
         = if fits_int64 transaction_id
           then (s, Raise (HTTPException crud.HTTP_404_NOT_FOUND
                             ("Transaction with ID " ++ str_int transaction_id
                                ++ " not found")))
           else (s, Raise OverflowError)).
Proof.
  unfold main.get_transaction, crud.get_transaction, first_by_key, bind, query.
  destruct (find (fun r => models.Transaction.transaction_id r =? transaction_id)
                 (transactions (database s))) as [row|] eqn:E.
  - left. exists row. split; [reflexivity|].
    apply find_some in E. destruct E as [Hin Hid]. now apply Z.eqb_eq in Hid.
  - right. split.
    + intros r Hr. apply Z.eqb_neq. exact (find_none _ _ E r Hr).
    + now destruct (fits_int64 transaction_id).
Qed.

Lemma replace_row_same {R} (key : R -> Z) (rows : list R) (r : R) :
  NoDup (map key rows) -> In r rows -> replace_row key (key r) r rows = rows.
Proof.
  intros Hnd Hin. unfold replace_row. rewrite <- (map_id rows) at 2.
  apply map_ext_in. intros x Hx.
  destruct (Z.eqb_spec (key x) (key r)) as [E|_]; [|reflexivity].
  symmetry. exact (key_injective key rows x r Hnd Hx Hin E).
Qed.

(** X13. An update that supplies no field changes nothing: in a fresh
    session over tables with unique keys, for a stored row that passes the
    table's CHECK constraints, [update_transaction] with every field left
    out answers the row as it is and leaves the session as it was. *)
Theorem update_transaction_nothing_supplied (s : Session) (t : models.Transaction.t) :
  fresh s ->
  constraints_hold (database s) ->
  In t (transactions (database s)) ->
  checks_pass t = true ->
  crud.update_transaction (models.Transaction.transaction_id t)
    (schemas.TransactionUpdate.mk None None None None None) s
  = (s, Return t).
Proof.
  destruct s as [db uow]. unfold fresh. cbn [database unit_of_work].
  intros -> Hc Hin Hchk.
  pose proof (find_key_unique models.Transaction.transaction_id (transactions db) t
                (transactions_pk _ Hc) Hin) as Hfind.
  rewrite (update_transaction_found db _ _ t Hfind).
  cbn [category_resolves schemas.TransactionUpdate.category_id negb].
  pose proof (flush_setattr_items db t
                (schemas.TransactionUpdate.mk None None None None None)) as Hflush.
  assert (Hm : merged t (schemas.TransactionUpdate.mk None None None None None) = Some t)
    by now destruct t.
  rewrite Hm, Hchk in Hflush. rewrite Hflush.
  rewrite (replace_row_same models.Transaction.transaction_id (transactions db) t
             (transactions_pk _ Hc) Hin).
  unfold refresh. cbn [database transactions]. rewrite Hfind. now destruct db.
Qed.

Lemma update_transaction_nothing_supplied_witness :
  crud.update_transaction 2 (schemas.TransactionUpdate.mk None None None None None)
    listing_example
  = (listing_example,
     Return (models.Transaction.mk 2 900%float "EXPENSE" (Some "flat") (mkdate 2024 2 1) 2)).
Proof.
  apply (update_transaction_nothing_supplied listing_example
           (models.Transaction.mk 2 900%float "EXPENSE" (Some "flat") (mkdate 2024 2 1) 2)
           eq_refl listing_example_constraints).
  - cbn. tauto.
  - reflexivity.
Defined.

(** X14. [create_or_update_budget] refuses, without touching the session,
    a category id no category has, with 400 ("not found") when the id is a
    signed 64-bit integer and with the driver's [OverflowError] when it is
    not; and, when the category keys are unique, it refuses with 400 a
    category whose type is not EXPENSE ("Budgets can only be set for
    expense categories"), whether or not a budget for it exists. *)
Theorem create_or_update_budget_rejects (s : Session) (budget : schemas.BudgetCreate.t) :
  ((forall c, In c (categories (database s)) ->
              models.Category.category_id c <> schemas.BudgetCreate.category_id budget) ->
   crud.create_or_update_budget budget s
   = if fits_int64 (schemas.BudgetCreate.category_id budget)
     then (s, Raise (HTTPException crud.HTTP_400_BAD_REQUEST
                       ("Category with ID "
                          ++ str_int (schemas.BudgetCreate.category_id budget)
                          ++ " not found")))
     else (s, Raise OverflowError))
  /\ (forall c,
        constraints_hold (database s) ->
        In c (categories (database s)) ->
        models.Category.category_id c = schemas.BudgetCreate.category_id budget ->
        models.Category.type c <> "EXPENSE" ->
        crud.create_or_update_budget budget s
        = (s, Raise (HTTPException crud.HTTP_400_BAD_REQUEST
                       "Budgets can only be set for expense categories"))).
Proof.
  unfold crud.create_or_update_budget, crud.get_category, first_by_key, bind, query. split.
  - intros Hnone. rewrite find_In_none.
    + now destruct (fits_int64 (schemas.BudgetCreate.category_id budget)).
    + intros c Hc. apply Z.eqb_neq. now apply Hnone.
  - intros c Hc Hin Hid Hty.
    pose proof (find_key_unique models.Category.category_id (categories (database s)) c
                  (categories_pk _ Hc) Hin) as Fc.
    rewrite Hid in Fc. rewrite Fc.
    apply String.eqb_neq in Hty. now rewrite Hty.
Qed.

Lemma create_or_update_budget_rejects_witness :
  crud.create_or_update_budget (schemas.BudgetCreate.mk 9 100%float "MONTHLY") listing_example
  = (listing_example,
     Raise (HTTPException crud.HTTP_400_BAD_REQUEST "Category with ID 9 not found"))
  /\ crud.create_or_update_budget (schemas.BudgetCreate.mk (2 ^ 63) 100%float "MONTHLY")
       listing_example
     = (listing_example, Raise OverflowError)
  /\ crud.create_or_update_budget (schemas.BudgetCreate.mk 1 100%float "MONTHLY")
       listing_example
     = (listing_example,
        Raise (HTTPException crud.HTTP_400_BAD_REQUEST
                 "Budgets can only be set for expense categories")).
Proof.
  split; [|split].
  - apply (proj1 (create_or_update_budget_rejects listing_example
                    (schemas.BudgetCreate.mk 9 100%float "MONTHLY"))).
    cbn. intros c [<-|[<-|[]]]; cbn; lia.
  - apply (proj1 (create_or_update_budget_rejects listing_example
                    (schemas.BudgetCreate.mk (2 ^ 63) 100%float "MONTHLY"))).
    cbn. intros c [<-|[<-|[]]]; cbn; lia.
  - apply (proj2 (create_or_update_budget_rejects listing_example
                    (schemas.BudgetCreate.mk 1 100%float "MONTHLY"))
             (models.Category.mk 1 "Salary" "INCOME") listing_example_constraints).
    + cbn. tauto.
    + reflexivity.
    + discriminate.
Defined.

(** X15. For a date [today], any combination of supplied and missing
    bounds, and budget rows whose category id is a signed 64-bit integer or
    the id of a stored category, [get_budgets_with_status] does not fail and does not
    change the session; it answers one status per budget row, in table
    order, carrying the budget's id, category id and amount, and as name
    the name of a stored category of that id, or "Unknown" when there is
    none. *)
Theorem get_budgets_with_status_total (s : Session) (today : date)
  (start_date end_date : option date) :
  is_date today ->
  budget_references_fit (database s) ->
  exists sts,
    crud.get_budgets_with_status today start_date end_date s = (s, Return sts)
    /\ Forall2
         (fun b st =>
            schemas.BudgetStatus.budget_id st = models.Budget.budget_id b
            /\ schemas.BudgetStatus.category_id st = models.Budget.category_id b
            /\ schemas.BudgetStatus.budget_amount st = models.Budget.amount b
            /\ ((exists c, In c (categories (database s))
                           /\ models.Category.category_id c = models.Budget.category_id b
                           /\ schemas.BudgetStatus.category_name st
                              = models.Category.name c)
                \/ ((forall c, In c (categories (database s)) ->
                               models.Category.category_id c
                               <> models.Budget.category_id b)
                    /\ schemas.BudgetStatus.category_name st = "Unknown")))
         (budgets (database s)) sts.
Proof.
  intros Ht Hfit. eexists. split.
  - apply (get_budgets_with_status_returns today start_date end_date _ _ s Hfit
             (proj1 (default_range_spec today start_date end_date s Ht))).
  - induction (budgets (database s)) as [|bud l IH]; cbn [map]; constructor; [|exact IH].
    unfold budget_status_of. cbn zeta.
    cbn [schemas.BudgetStatus.budget_id schemas.BudgetStatus.category_id
         schemas.BudgetStatus.budget_amount schemas.BudgetStatus.category_name].
    do 3 (split; [reflexivity|]).
    destruct (find _ (categories (database s))) as [c|] eqn:E.
    + left. apply find_some in E. destruct E as [Hin Hid]. apply Z.eqb_eq in Hid.
      exists c. now repeat split.
    + right. split; [|reflexivity].
      intros c Hc. apply Z.eqb_neq. exact (find_none _ _ E c Hc).
Qed.

Lemma get_budgets_with_status_total_witness :
  exists sts,
    crud.get_budgets_with_status (mkdate 2024 2 10) None None ten_thousand_example
    = (ten_thousand_example, Return sts)
    /\ map schemas.BudgetStatus.budget_id sts = [1; 2].
Proof.
  destruct (get_budgets_with_status_total ten_thousand_example (mkdate 2024 2 10)
              None None eq_refl ten_thousand_example_fits) as (sts & E & _).
  exists sts. split; [exact E|]. vm_compute in E. injection E as <-. reflexivity.
Defined.

(* ===================================================================== *)
(** ** The trend behind its route                                        *)
(* ===================================================================== *)

Lemma get_monthly_trend_reads (today : date) (n : Z) :
  is_date today ->
  12 * MINYEAR <= month_index today - (n - 1) ->
  reads (crud.get_monthly_trend today n)
        (fun t => map (fun i => trend_of_month (year today + (month today - i - 1) / 12)
                                               ((month today - i - 1) mod 12 + 1) t)
                      (crud.range_down n)).
Proof.
  intros Ht Hmin.
  destruct (is_date_fields today Ht) as (Hy & Hm & _).
  unfold month_index, MINYEAR, MAXYEAR in *.
  unfold crud.get_monthly_trend. apply reads_for_each.
  intros i Hi. apply In_range_down in Hi. apply month_trend_reads.
  - now rewrite wrap_month_spec by lia.
  - unfold MINYEAR, MAXYEAR. Z.div_mod_to_equations. lia.
  - Z.div_mod_to_equations. lia.
Qed.

(** X16. Behind its route the trend cannot fail on a date: for a date
    [today] of year 3 or later, the route answers 422 when [months] is
    outside 1..24 and otherwise exactly [months] entries, the last of which
    is the entry of the month of [today]; [ValueError] never escapes and the
    session is never changed. *)
Theorem main_get_monthly_trend_total (s : Session) (today : date) (months : Z) :
  is_date today ->
  3 <= year today ->
  (months < 1 \/ 24 < months ->
   main.get_monthly_trend today months s = (s, Raise main.validation_error))
  /\ (1 <= months <= 24 ->
      exists entries last,
        main.get_monthly_trend today months s = (s, Return entries)
        /\ Z.of_nat (List.length entries) = months
        /\ nth_error entries (Z.to_nat (months - 1)) = Some last
        /\ schemas.MonthlyTrend.year last = year today
        /\ schemas.MonthlyTrend.month last
           = nth (Z.to_nat (month today - 1)) month_names EmptyString).
Proof.
  intros Ht Hy. unfold main.get_monthly_trend. split.
  - intros H. destruct (Z.leb_spec 1 months), (Z.leb_spec months 24); cbn [andb];
      try reflexivity; lia.
  - intros Hm. destruct (Z.leb_spec 1 months), (Z.leb_spec months 24); cbn [andb];
      try lia.
    destruct (is_date_fields today Ht) as (_ & Hmo & _).
    rewrite (get_monthly_trend_reads today months Ht
               (admitted_months_in_range today months Ht Hy Hm)).
    do 2 eexists. split; [reflexivity|]. split; [|split].
    + rewrite length_map. unfold crud.range_down. rewrite length_map, length_seq. lia.
    + rewrite nth_error_map, (nth_error_range_down months (Z.to_nat (months - 1))) by lia.
      reflexivity.
    + rewrite Z2Nat.id by lia.
      replace (months - 1 - (months - 1)) with 0 by ring.
      replace (month today - 0 - 1) with (month today - 1) by ring.
      rewrite Z.div_small, Z.mod_small by lia.
      unfold trend_of_month, strftime_B, month_first.
      cbn [schemas.MonthlyTrend.year schemas.MonthlyTrend.month py.month].
      split; [ring|]. f_equal. f_equal. ring.
Qed.

Lemma main_get_monthly_trend_total_witness :
  main.get_monthly_trend (mkdate 2024 2 10) 25 listing_example
  = (listing_example, Raise main.validation_error)
  /\ exists entries last,
       main.get_monthly_trend (mkdate 2024 2 10) 24 listing_example
       = (listing_example, Return entries)
       /\ Z.of_nat (List.length entries) = 24
       /\ nth_error entries (Z.to_nat (24 - 1)) = Some last
       /\ schemas.MonthlyTrend.year last = 2024
       /\ schemas.MonthlyTrend.month last = "February".
Proof.
  split.
  - apply (proj1 (main_get_monthly_trend_total listing_example (mkdate 2024 2 10) 25
                    eq_refl ltac:(cbn; lia))). lia.
  - apply (proj2 (main_get_monthly_trend_total listing_example (mkdate 2024 2 10) 24
                    eq_refl ltac:(cbn; lia))). lia.
Defined.

(* ===================================================================== *)
(** ** Authentication                                                    *)
(* ===================================================================== *)

Section Authentication.

Variable sha256_hexdigest : string -> string.
Variable SECRET_KEY : string.

Local Abbreviation hash := (auth.hash_password sha256_hexdigest SECRET_KEY).
Local Abbreviation authenticate_user :=
  (auth.authenticate_user sha256_hexdigest SECRET_KEY).
Local Abbreviation create_user := (auth.create_user sha256_hexdigest SECRET_KEY).

Lemma find_string_unique {R} (f : R -> string) (rows : list R) (r : R) :
  NoDup (map f rows) -> In r rows ->
  find (fun x => String.eqb (f x) (f r)) rows = Some r.
Proof.
  induction rows as [|y rows IH]; cbn [map In find]; [tauto|].
  intros Hnd [->|Hin].
  - now rewrite String.eqb_refl.
  - inversion Hnd as [|? ? Hy Hnd']; subst.
    destruct (String.eqb_spec (f y) (f r)) as [E|_]; [|now apply IH].
    exfalso. apply Hy. rewrite E. now apply in_map.
Qed.

Lemma authenticate_user_outcome (s : Session) (username password : string) :
  authenticate_user username password s
  = (s, Return
          match find (fun u => String.eqb (models.User.username u) username)
                     (users (database s)) with
          | Some u => if String.eqb (hash password) (models.User.hashed_password u)
                      then Some u else None
          | None => None
          end).
Proof.
  unfold auth.authenticate_user, auth.get_user_by_username,
    auth.verify_password, bind, query, ret.
  destruct (find _ (users (database s))) as [u|]; [|reflexivity].
  now destruct (String.eqb _ (models.User.hashed_password u)).
Qed.

(** X17. [authenticate_user] never changes the session and never fails.  A
    user it answers is stored, has the username asked for and a stored hash
    equal to the hash of the password given; it answers nobody when no user
    has the username; and when usernames are unique, it answers the user of
    that name exactly when the hash of the password is the stored one. *)
Theorem authenticate_user_spec (s : Session) (username password : string) :
  exists o,
    authenticate_user username password s = (s, Return o)
    /\ (forall u, o = Some u ->
          In u (users (database s))
          /\ models.User.username u = username
          /\ models.User.hashed_password u = hash password)
    /\ ((forall u, In u (users (database s)) -> models.User.username u <> username) ->
        o = None)
    /\ (forall u,
          NoDup (map models.User.username (users (database s))) ->
          In u (users (database s)) ->
          models.User.username u = username ->
          (o = Some u <-> models.User.hashed_password u = hash password)).
Proof.
  eexists. split; [apply authenticate_user_outcome|]. split; [|split].
  - intros u. destruct (find _ (users (database s))) as [x|] eqn:E; [|discriminate].
    apply find_some in E. destruct E as [Hin Hn]. apply String.eqb_eq in Hn.
    destruct (String.eqb_spec (hash password) (models.User.hashed_password x));
      [|discriminate].
    intros [= <-]. now repeat split.
  - intros Hnone. rewrite find_In_none; [reflexivity|].
    intros u Hu. apply String.eqb_neq. now apply Hnone.
  - intros u Hnd Hin Hn.
    pose proof (find_string_unique models.User.username (users (database s)) u Hnd Hin)
      as F.
    rewrite Hn in F. rewrite F.
    destruct (String.eqb_spec (hash password) (models.User.hashed_password u)) as [E|N].
    + split; [now intros _|reflexivity].
    + split; [discriminate|]. intros E. now contradiction N.
Qed.

Lemma create_user_outcome (db : Tables) (username email password : string)
  (full_name : option string) :
  create_user username email password full_name (mkSession db [])
  = match find (fun u => String.eqb (models.User.username u) username) (users db) with
    | Some _ =>
        (mkSession db [],
         Raise (HTTPException crud.HTTP_400_BAD_REQUEST "Username already registered"))
    | None =>
        match find (fun u => String.eqb (models.User.email u) email) (users db) with
        | Some _ =>
            (mkSession db [],
             Raise (HTTPException crud.HTTP_400_BAD_REQUEST "Email already registered"))
        | None =>
            let u := models.User.mk (next_id (map models.User.user_id (users db)))
                       username email (hash password) full_name true in
            (mkSession (mkTables (users db ++ [u]) (categories db) (transactions db)
                          (budgets db)) [],
             Return u)
        end
    end.
Proof.
  unfold auth.create_user, auth.get_user_by_username,
    auth.get_user_by_email, bind, query. cbn [database].
  destruct (find (fun u => String.eqb (models.User.username u) username) (users db))
    as [x|] eqn:Fn; [reflexivity|].
  cbn [truthy truthy_optional database].
  destruct (find (fun u => String.eqb (models.User.email u) email) (users db))
    as [y|] eqn:Fe; [reflexivity|].
  cbn [truthy truthy_optional].
  unfold add, commit, refresh. cbn [database unit_of_work app flush flush_one].
  rewrite !find_existsb, Fn, Fe. cbn [hd database users]. cbn zeta.
  unfold auth.get_password_hash.
  set (u := models.User.mk (next_id (map models.User.user_id (users db))) username
              email (auth.hash_password sha256_hexdigest SECRET_KEY password)
              full_name true).
  now rewrite (find_new_row models.User.user_id (users db) u eq_refl).
Qed.

Lemma find_app_none {R} (p : R -> bool) (l1 l2 : list R) :
  find p l1 = None -> find p (l1 ++ l2) = find p l2.
Proof.
  induction l1 as [|x l1 IH]; cbn [app find]; [reflexivity|].
  destruct (p x); [discriminate|exact IH].
Qed.

Lemma find_app_some {R} (p : R -> bool) (l1 l2 : list R) (x : R) :
  find p l1 = Some x -> find p (l1 ++ l2) = Some x.
Proof.
  induction l1 as [|y l1 IH]; cbn [app find]; [discriminate|].
  destruct (p y); [trivial|exact IH].
Qed.

(** X18. Registration and login compose: once [create_user] has succeeded
    in a fresh session, [authenticate_user] with the same username and
    password answers the user just created, and with a password of another
    hash it answers nobody. *)
Theorem register_then_authenticate (s s1 : Session) (username email password : string)
  (full_name : option string) (u : models.User.t) :
  fresh s ->
  create_user username email password full_name s = (s1, Return u) ->
  authenticate_user username password s1 = (s1, Return (Some u))
  /\ (forall password', hash password' <> hash password ->
        authenticate_user username password' s1 = (s1, Return None)).
Proof.
  destruct s as [db uow]. unfold fresh. cbn [unit_of_work]. intros ->.
  rewrite create_user_outcome.
  destruct (find (fun x => String.eqb (models.User.username x) username) (users db))
    eqn:Fn; [discriminate|].
  destruct (find (fun x => String.eqb (models.User.email x) email) (users db))
    eqn:Fe; [discriminate|].
  cbn zeta. intros [= <- <-].
  assert (F : find (fun x => String.eqb (models.User.username x) username)
                   (users db ++ [models.User.mk
                                   (next_id (map models.User.user_id (users db)))
                                   username email (hash password) full_name true])
              = Some (models.User.mk (next_id (map models.User.user_id (users db)))
                        username email (hash password) full_name true)).
  { rewrite (find_app_none _ _ _ Fn). cbn [find models.User.username].
    now rewrite String.eqb_refl. }
  split.
  - rewrite authenticate_user_outcome. cbn [database users]. rewrite F.
    cbn [models.User.hashed_password]. now rewrite String.eqb_refl.
  - intros password' Hne. rewrite authenticate_user_outcome. cbn [database users].
    rewrite F. cbn [models.User.hashed_password].
    apply String.eqb_neq in Hne. now rewrite Hne.
Qed.

(** X19. Registering twice fails the second time: once [create_user] has
    succeeded in a fresh session, registering the same username again, with
    whatever email, fails with "Username already registered", and
    registering the same email under a username nobody has fails with
    "Email already registered"; neither attempt changes the session. *)
Theorem register_twice (s s1 : Session) (username email password : string)
  (full_name : option string) (u : models.User.t) :
  fresh s ->
  create_user username email password full_name s = (s1, Return u) ->
  (forall email' password' full_name',
     create_user username email' password' full_name' s1
     = (s1, Raise (HTTPException crud.HTTP_400_BAD_REQUEST "Username already registered")))
  /\ (forall username' password' full_name',
        username' <> username ->
        (forall x, In x (users (database s)) -> models.User.username x <> username') ->
        create_user username' email password' full_name' s1
        = (s1, Raise (HTTPException crud.HTTP_400_BAD_REQUEST "Email already registered"))).
Proof.
  destruct s as [db uow]. unfold fresh. cbn [unit_of_work database]. intros ->.
  rewrite create_user_outcome.
  destruct (find (fun x => String.eqb (models.User.username x) username) (users db))
    eqn:Fn; [discriminate|].
  destruct (find (fun x => String.eqb (models.User.email x) email) (users db))
    eqn:Fe; [discriminate|].
  cbn zeta. intros [= <- <-]. split.
  - intros email' password' full_name'. rewrite create_user_outcome. cbn [users].
    rewrite (find_app_none _ _ _ Fn). cbn [find models.User.username].
    now rewrite String.eqb_refl.
  - intros username' password' full_name' Hne Hnone. rewrite create_user_outcome.
    cbn [users].
    rewrite (find_app_none _ (users db)) by
      (apply find_In_none; intros x Hx; apply String.eqb_neq; now apply Hnone).
    cbn [find models.User.username].
    assert (E : String.eqb username username' = false)
      by (apply String.eqb_neq; congruence).
    rewrite E. rewrite (find_app_none _ _ _ Fe). cbn [find models.User.email].
    now rewrite String.eqb_refl.
Qed.

End Authentication.

Lemma authenticate_user_spec_witness :
  exists o,
    auth.authenticate_user (fun x => x) "0123456789abcdefXYZ" "alice" "wrong" users_example
    = (users_example, Return o)
    /\ (o = Some (models.User.mk 1 "alice" "alice@example.org" "h" None true)
        <-> "h" = auth.hash_password (fun x => x) "0123456789abcdefXYZ" "wrong").
Proof.
  destruct (authenticate_user_spec (fun x => x) "0123456789abcdefXYZ" users_example
              "alice" "wrong") as (o & E & _ & _ & H).
  exists o. split; [exact E|].
  apply (H (models.User.mk 1 "alice" "alice@example.org" "h" None true)).
  - cbn. solve_NoDup.
  - cbn. tauto.
  - reflexivity.
Defined.

Lemma register_then_authenticate_witness :
  exists s1 u,
    auth.create_user (fun x => x) "0123456789abcdefXYZ" "bob" "bob@example.org" "secret1"
      None users_example = (s1, Return u)
    /\ auth.authenticate_user (fun x => x) "0123456789abcdefXYZ" "bob" "secret1" s1
       = (s1, Return (Some u)).
Proof.
  eexists. eexists. split; [vm_compute; reflexivity|].
  apply (register_then_authenticate (fun x => x) "0123456789abcdefXYZ" users_example _
           "bob" "bob@example.org" "secret1" None _ eq_refl).
  vm_compute. reflexivity.
Defined.

Lemma register_twice_witness :
  exists s1 u,
    auth.create_user (fun x => x) "0123456789abcdefXYZ" "bob" "bob@example.org" "secret1"
      None users_example = (s1, Return u)
    /\ auth.create_user (fun x => x) "0123456789abcdefXYZ" "bob" "other@example.org"
         "secret2" None s1
       = (s1, Raise (HTTPException crud.HTTP_400_BAD_REQUEST "Username already registered"))
    /\ auth.create_user (fun x => x) "0123456789abcdefXYZ" "carol" "bob@example.org"
         "secret3" None s1
       = (s1, Raise (HTTPException crud.HTTP_400_BAD_REQUEST "Email already registered")).
Proof.
  eexists. eexists. split; [vm_compute; reflexivity|].
  destruct (register_twice (fun x => x) "0123456789abcdefXYZ" users_example _
              "bob" "bob@example.org" "secret1" None _ eq_refl
              ltac:(vm_compute; reflexivity)) as [H1 H2].
  split; [apply H1|]. apply H2.
  - discriminate.
  - cbn. intros x [<-|[]]. discriminate.
Defined.

(* ===================================================================== *)
(** ** Tokens and the routes that use them                               *)
(* ===================================================================== *)

Section Tokens.

Variable sha256_hexdigest : string -> string.
Variable SECRET_KEY : string.
Variable jwt_encode : auth.Claims -> string -> string -> string.
Variable jwt_decode : string -> string -> list string -> option auth.Claims.

(** X20. The two ways of resolving a token agree: whatever the token,
    [get_current_user] answers without failing, and
    [get_current_user_required] answers the same user when there is one and
    raises 401 "Could not validate credentials" exactly when there is none,
    as is the case for no token, an empty one and one the library rejects;
    neither changes the session. *)
Theorem current_user_required_agrees (s : Session) (token : option string) :
  exists o,
    auth.get_current_user SECRET_KEY jwt_decode token s = (s, Return o)
    /\ auth.get_current_user_required SECRET_KEY jwt_decode token s
       = match o with
         | Some user => (s, Return user)
         | None => (s, Raise (HTTPException 401 "Could not validate credentials"))
         end
    /\ (token = None \/ token = Some EmptyString -> o = None)
    /\ (forall tok, token = Some tok ->
          jwt_decode tok SECRET_KEY ["HS256"] = None -> o = None).
Proof.
  unfold auth.get_current_user, auth.get_current_user_required, auth.decode_token,
    auth.get_user_by_username, auth.credentials_exception, bind, query, ret, raise,
    auth.ALGORITHM.
  destruct token as [tok|]; cbn [truthy truthy_optional negb].
  - unfold truthy, truthy_str.
    destruct (String.eqb_spec tok EmptyString) as [->|Hne]; cbn [negb].
    + eexists. split; [reflexivity|]. split; [reflexivity|]. split; [reflexivity|].
      reflexivity.
    + destruct (jwt_decode tok SECRET_KEY ["HS256"]) as [payload|] eqn:D.
      * destruct (auth.sub payload) as [username|].
        -- eexists. split; [reflexivity|]. split.
           ++ now destruct (find _ (users (database s))).
           ++ split; [intros [H|[= H]]; [discriminate|contradiction]|].
              intros tok' [= <-] D'. congruence.
        -- eexists. split; [reflexivity|]. split; [reflexivity|].
           split; reflexivity.
      * eexists. split; [reflexivity|]. split; [reflexivity|]. split; reflexivity.
  - eexists. split; [reflexivity|]. split; [reflexivity|]. split; reflexivity.
Qed.

(** X21. A login fails in one way only: when every stored user of the
    username, of which there may be none, has a stored hash other than the
    hash of the password, [login] raises 401 "Incorrect username or
    password", the same for an unknown name and a wrong password, and leaves
    the session as it was. *)
Theorem login_failure_uniform (s : Session) (utcnow : Z) (username password : string) :
  (forall u, In u (users (database s)) ->
             models.User.username u = username ->
             models.User.hashed_password u
             <> auth.hash_password sha256_hexdigest SECRET_KEY password) ->
  main.login sha256_hexdigest SECRET_KEY jwt_encode utcnow username password s
  = (s, Raise (HTTPException 401 "Incorrect username or password")).
Proof.
  intros Hbad. unfold main.login, bind.
  rewrite authenticate_user_outcome.
  destruct (find _ (users (database s))) as [u|] eqn:E; [|reflexivity].
  apply find_some in E. destruct E as [Hin Hn]. apply String.eqb_eq in Hn.
  specialize (Hbad u Hin Hn).
  destruct (String.eqb_spec (auth.hash_password sha256_hexdigest SECRET_KEY password)
              (models.User.hashed_password u)) as [E|_]; [|reflexivity].
  now contradiction Hbad.
Qed.

(** X22. A token issued at login opens the protected route: when [login]
    succeeds, the token carries the username as subject and an expiry 24
    hours (86400 seconds) after [utcnow]; and provided the library decodes
    that token to the claims it was made from and the token is not the
    empty string, [get_current_user_info] with it answers the user whose
    data the login answered, and [verify_token] answers valid with that
    username.  The session is never changed. *)
Theorem login_then_current_user (s s' : Session) (utcnow : Z)
  (username password : string) (tok : schemas.Token.t) :
  main.login sha256_hexdigest SECRET_KEY jwt_encode utcnow username password s
  = (s', Return tok) ->
  let claims := auth.mkClaims (Some username) (Some (utcnow + 86400)) in
  s' = s
  /\ schemas.Token.access_token tok = jwt_encode claims SECRET_KEY "HS256"
  /\ schemas.Token.token_type tok = "bearer"
  /\ schemas.UserResponse.username (schemas.Token.user tok) = username
  /\ (jwt_decode (schemas.Token.access_token tok) SECRET_KEY ["HS256"] = Some claims ->
      schemas.Token.access_token tok <> EmptyString ->
      exists user,
        main.get_current_user_info SECRET_KEY jwt_decode
          (Some (schemas.Token.access_token tok)) s = (s, Return user)
        /\ main.model_validate user = schemas.Token.user tok
        /\ main.verify_token SECRET_KEY jwt_decode
             (Some (schemas.Token.access_token tok)) s
           = (s, Return (true, Some username))).
Proof.
  unfold main.login, bind. rewrite authenticate_user_outcome.
  destruct (find (fun u => String.eqb (models.User.username u) username)
                 (users (database s))) as [u|] eqn:F; [|discriminate].
  destruct (String.eqb _ (models.User.hashed_password u)); [|discriminate].
  cbn [truthy truthy_optional truthy_User negb]. unfold ret.
  intros [= <- <-]. cbn zeta.
  apply find_some in F as F'. destruct F' as [_ Hn]. apply String.eqb_eq in Hn.
  assert (Htok : schemas.Token.access_token (main.issue_token SECRET_KEY jwt_encode utcnow u)
                 = jwt_encode (auth.mkClaims (Some username) (Some (utcnow + 86400)))
                     SECRET_KEY "HS256").
  { unfold main.issue_token, auth.create_access_token. cbn. now rewrite Hn. }
  split; [reflexivity|]. split; [exact Htok|]. split; [reflexivity|].
  split; [exact Hn|].
  rewrite Htok. intros Hdec Hne. exists u.
  unfold main.get_current_user_info, main.verify_token, auth.get_current_user_required,
    auth.get_current_user, auth.decode_token, auth.get_user_by_username,
    bind, query, ret, auth.ALGORITHM.
  cbn [truthy truthy_optional]. unfold truthy, truthy_str.
  apply String.eqb_neq in Hne. rewrite Hne. cbn [negb].
  rewrite Hdec. cbn [auth.sub]. rewrite F. cbn [negb].
  split; [reflexivity|]. split; [reflexivity|]. now rewrite Hn.
Qed.

End Tokens.

Lemma login_failure_uniform_witness :
  main.login (fun x => x) "0123456789abcdefXYZ" (fun _ _ _ => "t") 1000 "nobody" "pw"
    users_example
  = (users_example, Raise (HTTPException 401 "Incorrect username or password"))
  /\ main.login (fun x => x) "0123456789abcdefXYZ" (fun _ _ _ => "t") 1000 "alice" "pw"
       users_example
     = (users_example, Raise (HTTPException 401 "Incorrect username or password")).
Proof.
  split.
  - apply (login_failure_uniform (fun x => x) "0123456789abcdefXYZ" (fun _ _ _ => "t")
             users_example 1000 "nobody" "pw").
    cbn. intros u [<-|[]]. discriminate.
  - apply (login_failure_uniform (fun x => x) "0123456789abcdefXYZ" (fun _ _ _ => "t")
             users_example 1000 "alice" "pw").
    cbn. intros u [<-|[]] _. discriminate.
Defined.

Lemma login_then_current_user_witness :
  exists tok user,
    main.login (fun x => x) "0123456789abcdefXYZ" (fun _ _ _ => "t") 1000 "alice" "pw"
      login_example = (login_example, Return tok)
    /\ main.get_current_user_info "0123456789abcdefXYZ"
         (fun _ _ _ => Some (auth.mkClaims (Some "alice") (Some (1000 + 86400))))
         (Some (schemas.Token.access_token tok)) login_example
       = (login_example, Return user)
    /\ main.model_validate user = schemas.Token.user tok.
Proof.
  eexists.
  destruct (login_then_current_user (fun x => x) "0123456789abcdefXYZ" (fun _ _ _ => "t")
              (fun _ _ _ => Some (auth.mkClaims (Some "alice") (Some (1000 + 86400))))
              login_example login_example 1000 "alice" "pw" _
              ltac:(vm_compute; reflexivity)) as (_ & _ & _ & _ & H).
  destruct (H eq_refl ltac:(discriminate)) as (user & E & V & _).
  exists user. split; [reflexivity|]. split; [exact E|exact V].
Defined.

(* ===================================================================== *)
(** ** An empty range, a budget and its status                           *)
(* ===================================================================== *)

Lemma in_range_inverted (a b d : date) :
  date_leb a b = false -> in_range (Some a) (Some b) d = false.
Proof.
  intros H. unfold in_range.
  destruct (date_leb a d) eqn:E1; [|reflexivity].
  destruct (date_leb d b) eqn:E2; [|reflexivity].
  rewrite (date_leb_trans a d b E1 E2) in H. discriminate H.
Qed.



Lemma create_or_update_budget_outcome (db : Tables) (b : schemas.BudgetCreate.t)
  (cat : models.Category.t) :
  constraints_hold db ->
  In cat (categories db) ->
  models.Category.category_id cat = schemas.BudgetCreate.category_id b ->
  models.Category.type cat = "EXPENSE" ->
  (0 <? schemas.BudgetCreate.amount b)%float = true ->
  exists db1 r,
    crud.create_or_update_budget b (mkSession db []) = (mkSession db1 [], Return r)
    /\ constraints_hold db1
    /\ categories db1 = categories db
    /\ In r (budgets db1)
    /\ models.Budget.category_id r = schemas.BudgetCreate.category_id b
    /\ models.Budget.amount r = schemas.BudgetCreate.amount b
    /\ models.Budget.period r = schemas.BudgetCreate.period b
    /\ (forall x, In x (budgets db1) ->
          models.Budget.category_id x = schemas.BudgetCreate.category_id b
          \/ exists y, In y (budgets db)
                       /\ models.Budget.category_id y = models.Budget.category_id x).
Proof.
  intros Hc Hcat Hid Hty Hamt.
  destruct (find (fun x => models.Budget.category_id x
                           =? schemas.BudgetCreate.category_id b) (budgets db))
    as [e|] eqn:Fb.
  - apply find_some in Fb. destruct Fb as [He Hec]. apply Z.eqb_eq in Hec.
    do 2 eexists. split; [now apply (budget_update_branch db b cat e)|].
    split; [|split; [reflexivity|split; [now apply In_set_budget|]]].
    + apply (flush_one_constraints db _
               (dirty_Budget (models.Budget.budget_id e) (schemas.BudgetCreate.amount b)
                  (schemas.BudgetCreate.period b)) (models.Budget.budget_id e) Hc).
      cbn [flush_one]. rewrite Hamt. reflexivity.
    + do 3 (split; [assumption || reflexivity|]).
      cbn [budgets]. intros x Hx. right. apply in_map_iff in Hx.
      destruct Hx as (y & <- & Hy). exists y. split; [exact Hy|].
      unfold set_budget. now destruct (models.Budget.budget_id y =? _).
  - assert (Hnone : forall e, In e (budgets db) ->
              models.Budget.category_id e <> schemas.BudgetCreate.category_id b).
    { intros e He. apply Z.eqb_neq. exact (find_none _ _ Fb e He). }
    do 2 eexists. split; [now apply (budget_insert_branch db b cat)|].
    split; [|split; [reflexivity|split; [apply in_or_app; right; now left|]]].
    + apply (flush_one_constraints db _
               (new_Budget (schemas.BudgetCreate.category_id b)
                  (schemas.BudgetCreate.amount b) (schemas.BudgetCreate.period b))
               (next_id (map models.Budget.budget_id (budgets db))) Hc).
      cbn [flush_one]. rewrite find_existsb, Fb, Hamt. reflexivity.
    + do 3 (split; [reflexivity|]).
      cbn [budgets]. intros x Hx. apply in_app_or in Hx.
      destruct Hx as [Hx|[<-|[]]]; [right; now exists x|left; reflexivity].
Qed.

(** X25. A budget that was set shows up in the status listing: in a fresh
    session over tables that satisfy their key constraints and in which the
    category id of every budget row is a signed 64-bit integer or the id of
    a stored category, after
    [create_or_update_budget] for an existing EXPENSE category with a
    positive amount, [get_budgets_with_status] on any date and range lists
    a status with the id of the budget returned, the amount just set and
    the name of the category, and it is the only status of that
    category. *)
Theorem budget_then_status (s : Session) (b : schemas.BudgetCreate.t)
  (cat : models.Category.t) (today : date) (start_date end_date : option date) :
  fresh s ->
  constraints_hold (database s) ->
  budget_references_fit (database s) ->
  In cat (categories (database s)) ->
  models.Category.category_id cat = schemas.BudgetCreate.category_id b ->
  models.Category.type cat = "EXPENSE" ->
  (0 <? schemas.BudgetCreate.amount b)%float = true ->
  is_date today ->
  exists s1 r sts st,
    crud.create_or_update_budget b s = (s1, Return r)
    /\ crud.get_budgets_with_status today start_date end_date s1 = (s1, Return sts)
    /\ filter (fun x => schemas.BudgetStatus.category_id x
                        =? schemas.BudgetCreate.category_id b) sts = [st]
    /\ schemas.BudgetStatus.budget_id st = models.Budget.budget_id r
    /\ schemas.BudgetStatus.budget_amount st = schemas.BudgetCreate.amount b
    /\ schemas.BudgetStatus.category_name st = models.Category.name cat.
Proof.
  destruct s as [db uow]. unfold fresh. cbn [database unit_of_work].
  intros -> Hc Hfit Hcat Hid Hty Hamt Ht.
  destruct (create_or_update_budget_outcome db b cat Hc Hcat Hid Hty Hamt)
    as (db1 & r & E & Hc1 & Hcats & Hr & Hrc & Hra & _ & Hrows).
  assert (Hfit1 : budget_references_fit db1).
  { intros x Hx. destruct (Hrows x Hx) as [Hx'|(y & Hy & Hyx)].
    - right. exists cat. rewrite Hcats. split; [exact Hcat|congruence].
    - rewrite <- Hyx, Hcats. apply Hfit, Hy. }
  set (lo := match start_date with Some d => d | None => month_first today end).
  set (hi := match end_date with Some d => d | None => month_last today end).
  exists (mkSession db1 []), r,
    (map (fun bud => budget_status_of lo hi bud db1) (budgets db1)),
    (budget_status_of lo hi r db1).
  split; [exact E|]. split.
  { apply (get_budgets_with_status_returns today start_date end_date lo hi
             (mkSession db1 []) Hfit1).
    apply (default_range_spec today start_date end_date (mkSession db1 []) Ht). }
  split.
  { pose proof (filter_unique models.Budget.category_id (budgets db1) r
                  (budgets_category_id _ Hc1) Hr) as Hf.
    rewrite Hrc in Hf.
    assert (Hmap : forall l,
              filter (fun x => schemas.BudgetStatus.category_id x
                               =? schemas.BudgetCreate.category_id b)
                     (map (fun bud => budget_status_of lo hi bud db1) l)
              = map (fun bud => budget_status_of lo hi bud db1)
                    (filter (fun x => models.Budget.category_id x
                                      =? schemas.BudgetCreate.category_id b) l)).
    { induction l as [|x l IH]; cbn [map filter]; [reflexivity|].
      cbn [budget_status_of schemas.BudgetStatus.category_id].
      destruct (models.Budget.category_id x =? schemas.BudgetCreate.category_id b);
        cbn [map]; now rewrite IH. }
    now rewrite Hmap, Hf. }
  unfold budget_status_of. cbn zeta.
  cbn [schemas.BudgetStatus.budget_id schemas.BudgetStatus.budget_amount
       schemas.BudgetStatus.category_name].
  split; [reflexivity|]. split; [exact Hra|].
  rewrite Hrc, <- Hid. rewrite <- Hcats in Hcat.
  pose proof (find_key_unique models.Category.category_id (categories db1) cat
                (categories_pk _ Hc1) Hcat) as Fc.
  now rewrite Fc.
Qed.

(** The tables of [ten_thousand_example] satisfy their key constraints. *)
Lemma ten_thousand_example_constraints :
  constraints_hold (database ten_thousand_example).
Proof. constructor; cbn; solve_NoDup. Qed.

Lemma budget_then_status_witness :
  exists s1 r sts st,
    crud.create_or_update_budget (schemas.BudgetCreate.mk 2 500%float "MONTHLY")
      ten_thousand_example = (s1, Return r)
    /\ crud.get_budgets_with_status (mkdate 2024 2 10) None None s1 = (s1, Return sts)
    /\ filter (fun x => schemas.BudgetStatus.category_id x =? 2) sts = [st]
    /\ schemas.BudgetStatus.budget_id st = models.Budget.budget_id r
    /\ schemas.BudgetStatus.budget_amount st = 500%float
    /\ schemas.BudgetStatus.category_name st = "Rent".
Proof.
  apply (budget_then_status ten_thousand_example
           (schemas.BudgetCreate.mk 2 500%float "MONTHLY")
           (models.Category.mk 2 "Rent" "EXPENSE") (mkdate 2024 2 10) None None
           eq_refl ten_thousand_example_constraints).
  - intros x [<-|[<-|[]]]; left; reflexivity.
  - cbn. tauto.
  - reflexivity.
  - reflexivity.
  - reflexivity.
  - reflexivity.
Defined.
